(** * Class-scoped roles and permissions of InformaticsClassroom

    A shallow embedding of the role and membership code of the platform:

    - [informatics_classroom/auth/permissions.py]
    - [informatics_classroom/auth/class_membership_utils.py]
    - [informatics_classroom/auth/class_auth.py]
    - [informatics_classroom/classroom/api_routes.py] (member update route)
    - [scripts/migrate_student_enrollments.py]

    The Python code works on JSON documents, so the embedding starts with a
    type of Python values and the handful of dynamic operations the code
    applies to them; an operation that raises in Python returns [Raise]. *)

From Stdlib Require Import ZArith List String Ascii Bool Lia DecimalString.
Import ListNotations.
Local Open Scope string_scope.
Local Open Scope list_scope.

(** ** Python values and exceptions *)

Module Py.

#[local] Set Warnings "-register-all".

(** Documents are JSON: [None], booleans, integers, strings, lists and
    dicts.  A dict is its list of items in insertion order. Numbers are
    integers here; no field the code reads is a float. *)
Inductive value : Type :=
| VNone
| VBool (b : bool)
| VInt (n : Z)
| VStr (s : string)
| VList (xs : list value)
| VDict (items : list (value * value)).

Definition dict : Type := list (value * value).

Inductive exn : Type :=
| TypeError
| AttributeError
| KeyError
| ValueError (msg : string).

Inductive result (A : Type) : Type :=
| Ok (a : A)
| Raise (e : exn).
Arguments Ok {A} a.
Arguments Raise {A} e.

Definition bind {A B : Type} (m : result A) (f : A -> result B) : result B :=
  match m with
  | Ok a => f a
  | Raise e => Raise e
  end.

Notation "x <- m ;; k" := (bind m (fun x => k))
  (at level 61, m at next level, right associativity).
Notation "' p <- m ;; k" := (bind m (fun p => k))
  (at level 61, p pattern, m at next level, right associativity).

Definition returns {A : Type} (m : result A) : Prop := exists a, m = Ok a.

(** [bool(v)]. *)
Definition truthy (v : value) : bool :=
  match v with
  | VNone => false
  | VBool b => b
  | VInt n => negb (n =? 0)%Z
  | VStr s => negb (s =? "")
  | VList xs => match xs with [] => false | _ => true end
  | VDict items => match items with [] => false | _ => true end
  end.

(** [isinstance(v, list)] and [isinstance(v, dict)]. *)
Definition is_list (v : value) : bool :=
  match v with VList _ => true | _ => false end.

Definition is_dict (v : value) : bool :=
  match v with VDict _ => true | _ => false end.

(** Lists and dicts cannot be dict keys or set members. *)
Definition hashable (v : value) : bool :=
  match v with
  | VList _ | VDict _ => false
  | _ => true
  end.

(** [==] between hashable values, as dict and set lookup applies it:
    [True == 1] and [False == 0]. *)
Definition key_eq (a b : value) : bool :=
  match a, b with
  | VNone, VNone => true
  | VBool x, VBool y => Bool.eqb x y
  | VBool x, VInt y => (Z.b2z x =? y)%Z
  | VInt x, VBool y => (x =? Z.b2z y)%Z
  | VInt x, VInt y => (x =? y)%Z
  | VStr x, VStr y => (x =? y)
  | _, _ => false
  end.

Fixpoint assoc (k : value) (items : dict) : option value :=
  match items with
  | [] => None
  | (k', v) :: rest => if key_eq k k' then Some v else assoc k rest
  end.

(** [a == b] on arbitrary values. *)
Fixpoint py_eq (a b : value) {struct a} : bool :=
  match a, b with
  | VList xs, VList ys =>
      (fix go (xs ys : list value) {struct xs} : bool :=
         match xs, ys with
         | [], [] => true
         | x :: xs', y :: ys' => py_eq x y && go xs' ys'
         | _, _ => false
         end) xs ys
  | VDict d1, VDict d2 =>
      Nat.eqb (List.length d1) (List.length d2) &&
      (fix go (d : dict) {struct d} : bool :=
         match d with
         | [] => true
         | (k, v) :: d' =>
             match assoc k d2 with
             | Some v' => py_eq v v' && go d'
             | None => false
             end
         end) d1
  | VList _, _ | VDict _, _ | _, VList _ | _, VDict _ => false
  | _, _ => key_eq a b
  end.

(** *** Dicts *)

(** [d.get(k)] / [k in d] / [d[k]] for a hashable key. *)
Definition dict_get (d : dict) (k : value) : option value := assoc k d.

Definition dict_get_default (d : dict) (k : value) (default : value) : value :=
  match assoc k d with
  | Some v => v
  | None => default
  end.

Definition dict_mem (d : dict) (k : value) : bool :=
  match assoc k d with
  | Some _ => true
  | None => false
  end.

(** [d[k] = v]: an existing key keeps its place, a new one goes last. *)
Fixpoint dict_set (d : dict) (k v : value) : dict :=
  match d with
  | [] => [(k, v)]
  | (k', v') :: rest =>
      if key_eq k k' then (k', v) :: rest else (k', v') :: dict_set rest k v
  end.

(** [d[k] = v] with the [TypeError] of an unhashable key. *)
Definition dict_setitem (d : dict) (k v : value) : result dict :=
  if hashable k then Ok (dict_set d k v) else Raise TypeError.

Definition dict_keys (d : dict) : list value := map fst d.

(** Field access on a document by field name. *)
Definition field (d : dict) (name : string) : option value :=
  dict_get d (VStr name).

Definition field_default (d : dict) (name : string) (default : value) : value :=
  dict_get_default d (VStr name) default.

Definition has_field (d : dict) (name : string) : bool :=
  dict_mem d (VStr name).

Definition set_field (d : dict) (name : string) (v : value) : dict :=
  dict_set d (VStr name) v.

(** *** Strings *)

(** [str.lower()] on the ASCII letters. *)
Definition lower_ascii (c : ascii) : ascii :=
  let n := nat_of_ascii c in
  if ((65 <=? n) && (n <=? 90))%nat then ascii_of_nat (n + 32) else c.

Fixpoint lower (s : string) : string :=
  match s with
  | EmptyString => EmptyString
  | String c rest => String (lower_ascii c) (lower rest)
  end.

(** [v.lower()]: only a [str] has the method. *)
Definition py_lower (v : value) : result string :=
  match v with
  | VStr s => Ok (lower s)
  | _ => Raise AttributeError
  end.

(** [needle in haystack] between two strings. *)
Fixpoint substring_of (needle haystack : string) : bool :=
  if String.prefix needle haystack then true
  else match haystack with
       | EmptyString => false
       | String _ rest => substring_of needle rest
       end.

(** [s in xs] for a list of strings. *)
Definition str_in (s : string) (xs : list string) : bool :=
  existsb (String.eqb s) xs.

(** *** Containers *)

(** [x in c]. *)
Definition py_in (x c : value) : result bool :=
  match c with
  | VList xs => Ok (existsb (py_eq x) xs)
  | VDict items => if hashable x then Ok (dict_mem items x) else Raise TypeError
  | VStr s => match x with
              | VStr n => Ok (substring_of n s)
              | _ => Raise TypeError
              end
  | _ => Raise TypeError
  end.

(** The elements a [for] loop or a comprehension visits. *)
Definition py_iter (c : value) : result (list value) :=
  match c with
  | VList xs => Ok xs
  | VDict items => Ok (dict_keys items)
  | VStr s => Ok (map (fun c => VStr (String c EmptyString)) (list_ascii_of_string s))
  | _ => Raise TypeError
  end.

(** [m.get(name, default)] on a value that may not be a dict. *)
Definition py_get (m : value) (name : string) (default : value) : result value :=
  match m with
  | VDict items => Ok (field_default items name default)
  | _ => Raise AttributeError
  end.

(** [a or b]. *)
Definition py_or (a b : value) : value := if truthy a then a else b.

(** Monadic map over a list, left to right. *)
Fixpoint mapM {A B : Type} (f : A -> result B) (xs : list A) : result (list B) :=
  match xs with
  | [] => Ok []
  | x :: rest =>
      y <- f x ;;
      ys <- mapM f rest ;;
      Ok (y :: ys)
  end.

Fixpoint foldM {A S : Type} (f : S -> A -> result S) (s : S) (xs : list A) : result S :=
  match xs with
  | [] => Ok s
  | x :: rest => s' <- f s x ;; foldM f s' rest
  end.

(** *** Sets of hashable values, in insertion order *)

Definition set_mem (x : value) (s : list value) : bool := existsb (key_eq x) s.

Definition set_add (s : list value) (x : value) : result (list value) :=
  if hashable x then Ok (if set_mem x s then s else s ++ [x])
  else Raise TypeError.

Definition set_union (a b : list value) : list value :=
  fold_left (fun acc x => if set_mem x acc then acc else acc ++ [x]) b a.

Definition set_diff (a b : list value) : list value :=
  filter (fun x => negb (set_mem x b)) a.

Definition set_subset (a b : list value) : bool :=
  forallb (fun x => set_mem x b) a.

Definition set_eq (a b : list value) : bool :=
  set_subset a b && set_subset b a.

End Py.

Import Py.

(** ** [auth/permissions.py]: role catalog, resolver and decision *)

Module Permissions.

(** One entry of [ROLE_PERMISSIONS]; an absent ['inherits'] is the empty
    list (the ['global'] flag of [admin] is never read). *)
Record role_config : Type := {
  inherits : list string;
  permissions : list string
}.

Definition ROLE_PERMISSIONS : list (string * role_config) :=
  [ ("admin", {| inherits := []; permissions := ["*"] |});
    ("instructor",
     {| inherits := ["student"];
        permissions :=
          ["quiz.view"; "quiz.create"; "quiz.modify"; "quiz.delete";
           "student.view"; "student.manage";
           "class.manage_enrollment";
           "role.grant_ta";
           "class.add_instructor"] |});
    ("ta",
     {| inherits := ["student"];
        permissions :=
          ["quiz.view"; "quiz.create"; "quiz.modify";
           "student.view"] |});
    ("student",
     {| inherits := [];
        permissions :=
          ["quiz.view"; "quiz.attempt";
           "own_data.view"] |}) ].

(** [ROLE_PERMISSIONS.get(role, {})]. *)
Fixpoint role_config_of (table : list (string * role_config)) (role : string)
  : role_config :=
  match table with
  | [] => {| inherits := []; permissions := [] |}
  | (name, cfg) :: rest => if role =? name then cfg else role_config_of rest role
  end.

(** The last loop of the resolver: first occurrences, in order. *)
Fixpoint unique_from (seen : list string) (perms : list string) : list string :=
  match perms with
  | [] => []
  | perm :: rest =>
      if str_in perm seen then unique_from seen rest
      else perm :: unique_from (perm :: seen) rest
  end.

(** The loop over ['inherits']: each parent is resolved by [recurse] and
    its permissions are appended. *)
Fixpoint extend_with_parents
  (recurse : string -> list string -> option (list string * list string))
  (parents : list string) (permissions : list string) (visited : list string)
  : option (list string * list string) :=
  match parents with
  | [] => Some (permissions, visited)
  | parent_role :: rest =>
      match recurse parent_role visited with
      | Some (parent_permissions, visited') =>
          extend_with_parents recurse rest (permissions ++ parent_permissions) visited'
      | None => None
      end
  end.

(** [get_role_permissions_with_inheritance(role, visited)].  The [visited]
    set is one object shared by all recursive calls, so it is threaded
    through and returned.  [fuel] bounds the recursion depth. *)
Fixpoint resolve (fuel : nat) (role : string) (visited : list string)
  : option (list string * list string) :=
  match fuel with
  | O => None
  | S fuel' =>
      if str_in role visited then Some ([], visited)
      else
        let visited := role :: visited in
        let role_config := role_config_of ROLE_PERMISSIONS role in
        match extend_with_parents (resolve fuel') (inherits role_config)
                (permissions role_config) visited with
        | Some (perms, visited') => Some (unique_from [] perms, visited')
        | None => None
        end
  end.

(** A call with [visited=None]; every role of the catalog is expanded at
    most once, so one more level than the catalog has roles is enough
    ([resolve_total] below). *)
Definition get_role_permissions_with_inheritance (role : string) : list string :=
  match resolve (S (List.length ROLE_PERMISSIONS)) role [] with
  | Some (perms, _) => perms
  | None => []
  end.

(** ['*' in role_permissions or permission in role_permissions]. *)
Definition grants (role_permissions : list string) (permission : string) : bool :=
  str_in "*" role_permissions || str_in permission role_permissions.

(** Step 2 of [has_permission]: [true] when the class-scoped block returns
    [True]. *)
Definition class_scoped (user : dict) (permission : string) (class_id : string)
  : result bool :=
  let class_roles := field_default user "classRoles" (VDict []) in
  by_role <-
    match class_roles with
    | VDict items =>
        class_role <- py_lower (field_default items class_id (VStr "")) ;;
        if negb (class_role =? "") then
          let class_role := if class_role =? "user" then "student" else class_role in
          Ok (grants (get_role_permissions_with_inheritance class_role) permission)
        else Ok false
    | _ => Ok false
    end ;;
  if by_role : bool then Ok true
  else if negb (truthy class_roles) then
    let access := field_default user "access" (VList []) in
    member <- py_in (VStr class_id) access ;;
    if member : bool then
      Ok (grants (get_role_permissions_with_inheritance "student") permission)
    else Ok false
  else Ok false.

(** Step 4: the loop over the lower-cased global roles. *)
Fixpoint any_global_role (user_roles : list string) (permission : string) : bool :=
  match user_roles with
  | [] => false
  | role :: rest =>
      if negb (role =? "admin") then
        let role := if role =? "user" then "student" else role in
        if grants (get_role_permissions_with_inheritance role) permission then true
        else any_global_role rest permission
      else any_global_role rest permission
  end.

(** [has_permission(user, permission, class_id=None)]. *)
Definition has_permission (user : dict) (permission : string)
  (class_id : option string) : result bool :=
  if negb (truthy (VDict user)) then Ok false
  else
    let user_roles := field_default user "roles" (VList []) in
    let user_roles :=
      match user_roles with
      | VStr _ => VList [user_roles]
      | _ => user_roles
      end in
    rs <- py_iter user_roles ;;
    user_roles <- mapM py_lower (filter truthy rs) ;;
    if str_in "admin" user_roles then Ok true
    else
      legacy_role <- py_lower (field_default user "role" (VStr "")) ;;
      if legacy_role =? "admin" then Ok true
      else
        scoped <-
          match class_id with
          | Some k => if negb (k =? "") then class_scoped user permission k
                      else Ok false
          | None => Ok false
          end ;;
        if scoped : bool then Ok true
        else if negb (legacy_role =? "") && negb (legacy_role =? "user")
                && grants (get_role_permissions_with_inheritance legacy_role) permission
        then Ok true
        else Ok (any_global_role user_roles permission).

End Permissions.

(** ** [auth/class_membership_utils.py]: normalizer and consistency checker *)

Module ClassMembershipUtils.

Definition student : value := VStr "student".

(** Priority 1: one entry of a list-shaped [class_memberships]; an element
    that is no dict, or has no ['class_id'], is skipped. *)
Definition canonical_of_entry (membership : value) : option dict :=
  match membership with
  | VDict m =>
      match field m "class_id" with
      | Some class_id =>
          Some [ (VStr "class_id", class_id);
                 (VStr "role", field_default m "role" student);
                 (VStr "assigned_at", field_default m "assigned_at" VNone);
                 (VStr "assigned_by", field_default m "assigned_by" VNone) ]
      | None => None
      end
  | _ => None
  end.

Fixpoint canonical_of_list (class_memberships : list value) : list dict :=
  match class_memberships with
  | [] => []
  | membership :: rest =>
      match canonical_of_entry membership with
      | Some entry => entry :: canonical_of_list rest
      | None => canonical_of_list rest
      end
  end.

(** Priority 2: one item of a dict-shaped [class_memberships]. *)
Definition canonical_of_item (item : value * value) : dict :=
  let '(class_id, value) := item in
  let role :=
    match value with
    | VDict v => field_default v "role" student
    | _ => if truthy value then value else student
    end in
  [ (VStr "class_id", class_id); (VStr "role", role) ].

(** Priority 3: one item of [classRoles]. *)
Definition canonical_of_class_role (item : value * value) : dict :=
  let '(class_id, role) := item in
  let role :=
    match role with
    | VDict r => field_default r "role" student
    | _ => role
    end in
  [ (VStr "class_id", class_id);
    (VStr "role", if truthy role then role else student) ].

(** Priority 4: the role inferred from the legacy ['role'] field. *)
Definition inferred_role (global_role : string) : value :=
  if str_in global_role ["admin"; "instructor"] then VStr "instructor"
  else if str_in global_role ["ta"; "grader"] then VStr "ta"
  else student.

Definition canonical_of_accessible (inferred : value) (accessible_classes : list value)
  : list dict :=
  map (fun class_id => [ (VStr "class_id", class_id); (VStr "role", inferred) ])
      (filter truthy accessible_classes).

(** [isinstance(v, list) and v] and [isinstance(v, dict) and v]. *)
Definition nonempty_list (v : value) : option (list value) :=
  match v with
  | VList ((_ :: _) as xs) => Some xs
  | _ => None
  end.

Definition nonempty_dict (v : value) : option dict :=
  match v with
  | VDict ((_ :: _) as items) => Some items
  | _ => None
  end.

(** The [if / elif] chain that picks the source of truth. *)
Definition canonical_memberships (user : dict) : result (list dict) :=
  let class_memberships := field_default user "class_memberships" (VList []) in
  let class_roles := field_default user "classRoles" (VDict []) in
  let accessible_classes := field_default user "accessible_classes" (VList []) in
  match nonempty_list class_memberships with
  | Some ms => Ok (canonical_of_list ms)
  | None =>
  match nonempty_dict class_memberships with
  | Some items => Ok (map canonical_of_item items)
  | None =>
  match nonempty_dict class_roles with
  | Some items => Ok (map canonical_of_class_role items)
  | None =>
  match nonempty_list accessible_classes with
  | Some cs =>
      global_role <- py_lower (field_default user "role" (VStr "")) ;;
      Ok (canonical_of_accessible (inferred_role global_role) cs)
  | None => Ok []
  end end end end.

(** One round of the loop that rebuilds the two legacy shapes;
    [membership['class_id']] and [membership['role']] are always there. *)
Definition project_step (acc : dict * list value) (membership : dict)
  : result (dict * list value) :=
  let '(new_class_roles, new_accessible_classes) := acc in
  let class_id := field_default membership "class_id" VNone in
  let role := field_default membership "role" VNone in
  new_class_roles <- dict_setitem new_class_roles class_id role ;;
  Ok (new_class_roles, new_accessible_classes ++ [class_id]).

Definition project (canonical : list dict) : result (dict * list value) :=
  foldM project_step ([], []) canonical.

(** [normalize_class_memberships(user)].  The function updates [user] in
    place and returns it; the record after the call is the result here. *)
Definition normalize_class_memberships (user : dict) : result dict :=
  if negb (truthy (VDict user)) then Ok user
  else
    canonical <- canonical_memberships user ;;
    '(new_class_roles, new_accessible_classes) <- project canonical ;;
    let user := set_field user "class_memberships" (VList (map VDict canonical)) in
    let user := set_field user "classRoles" (VDict new_class_roles) in
    let user := set_field user "accessible_classes" (VList new_accessible_classes) in
    Ok user.

(** *** The checker *)

(** An inconsistency message.  The Python strings print a set, whose order
    is not fixed, so a message is kept as its parts: the format named and
    the classes, or the class and the two roles. *)
Inductive issue : Type :=
| MissingClasses (format : string) (missing : list value)
| ExtraClasses (format : string) (extra : list value)
| RoleMismatch (class_id : value) (memberships_role class_roles_role : value).

(** The first loop: the class ids of the list shape and the role of each. *)
Definition scan_membership (acc : list value * dict) (m : value)
  : result (list value * dict) :=
  let '(memberships_classes, memberships_roles) := acc in
  match m with
  | VDict entry =>
      match field entry "class_id" with
      | Some class_id =>
          memberships_classes <- set_add memberships_classes class_id ;;
          memberships_roles <-
            dict_setitem memberships_roles class_id (field_default entry "role" student) ;;
          Ok (memberships_classes, memberships_roles)
      | None => Ok acc
      end
  | _ => Ok acc
  end.

(** The three blocks that compare one format with the union. *)
Definition compare_with_all (format : string) (classes all_classes : list value)
  : list issue :=
  if negb (set_eq classes all_classes) then
    let missing := set_diff all_classes classes in
    let extra := set_diff classes all_classes in
    (if truthy (VList missing) then [MissingClasses format missing] else []) ++
    (if truthy (VList extra) then [ExtraClasses format extra] else [])
  else [].

(** The last loop, over [class_roles.items()]. *)
Fixpoint role_mismatches (memberships_roles : dict) (items : dict) : list issue :=
  match items with
  | [] => []
  | (class_id, role) :: rest =>
      match dict_get memberships_roles class_id with
      | Some memberships_role =>
          if negb (py_eq memberships_role role)
          then RoleMismatch class_id memberships_role role
               :: role_mismatches memberships_roles rest
          else role_mismatches memberships_roles rest
      | None => role_mismatches memberships_roles rest
      end
  end.

(** [check_format_consistency(user)]. *)
Definition check_format_consistency (user : dict) : result (bool * list issue) :=
  let class_memberships := field_default user "class_memberships" (VList []) in
  let class_roles := field_default user "classRoles" (VDict []) in
  let accessible_classes := field_default user "accessible_classes" (VList []) in
  '(memberships_classes, memberships_roles) <-
    match class_memberships with
    | VList ms => foldM scan_membership ([], []) ms
    | _ => Ok ([], [])
    end ;;
  let roles_classes :=
    match class_roles with
    | VDict items => set_union [] (dict_keys items)
    | _ => []
    end in
  accessible_set <-
    match accessible_classes with
    | VList cs => foldM set_add [] (filter truthy cs)
    | _ => Ok []
    end ;;
  let all_classes := set_union (set_union memberships_classes roles_classes) accessible_set in
  let inconsistencies :=
    compare_with_all "class_memberships" memberships_classes all_classes ++
    compare_with_all "classRoles" roles_classes all_classes ++
    compare_with_all "accessible_classes" accessible_set all_classes ++
    match class_roles with
    | VDict items => role_mismatches memberships_roles items
    | _ => []
    end in
  Ok (Nat.eqb (List.length inconsistencies) 0, inconsistencies).

End ClassMembershipUtils.

(** ** The user store behind [get_database_adapter()] *)

Module Database.

(** The ['users'] collection: the stored data of each id. *)
Definition store : Type := string -> option dict.

Definition write (db : store) (id : string) (data : dict) : store :=
  fun id' => if id' =? id then Some data else db id'.

(** [db.get('users', id)]: the stored data with ['id'] set on it, or
    [None].  Ids are strings; another value finds no row. *)
Definition get (db : store) (id : value) : option dict :=
  match id with
  | VStr s =>
      match db s with
      | Some data => Some (set_field data "id" id)
      | None => None
      end
  | _ => None
  end.

(** [db.upsert('users', document)]: needs a truthy ['id'], stores the other
    fields under it; the id column holds text, and another truthy value is
    refused. *)
Definition upsert (db : store) (document : dict) : result store :=
  match field_default document "id" VNone with
  | VStr s =>
      if negb (s =? "") then
        Ok (write db s (filter (fun kv => negb (key_eq (fst kv) (VStr "id"))) document))
      else Raise (ValueError "Document must have an 'id' field")
  | doc_id =>
      if truthy doc_id then Raise TypeError
      else Raise (ValueError "Document must have an 'id' field")
  end.

End Database.

(** ** [auth/class_auth.py]: class roles and their permissions *)

Module ClassAuth.

Definition ROLE_PERMISSIONS : list (string * list string) :=
  [ ("instructor",
     ["manage_quizzes"; "manage_tokens"; "view_analytics"; "manage_members";
      "take_quizzes"]);
    ("ta",
     ["manage_quizzes"; "manage_tokens"; "view_analytics"; "manage_members";
      "take_quizzes"]);
    ("student",
     ["take_quizzes"; "view_progress"]) ].

(** The [for] loop over a list-shaped [class_memberships]: the role of the
    first entry for [class_id] ([None] when it has none), or no match. *)
Fixpoint role_in_list (class_memberships : list value) (class_id : string)
  : option value :=
  match class_memberships with
  | [] => None
  | membership :: rest =>
      match membership with
      | VDict m =>
          if py_eq (field_default m "class_id" VNone) (VStr class_id)
          then Some (field_default m "role" VNone)
          else role_in_list rest class_id
      | _ => role_in_list rest class_id
      end
  end.

(** The final fallback of [get_user_class_role]: the stored user. *)
Definition role_from_database (db : Database.store) (user : dict) (class_id : string)
  : value :=
  let user_id := field_default user "user_id" VNone in
  if truthy user_id then
    match Database.get db user_id with
    | Some db_user =>
        if truthy (VDict db_user) then
          let from_list :=
            match field_default db_user "class_memberships" (VList []) with
            | VList ms => role_in_list ms class_id
            | _ => None
            end in
          match from_list with
          | Some role => role
          | None =>
              match field_default db_user "classRoles" (VDict []) with
              | VDict items => field_default items class_id VNone
              | _ => VNone
              end
          end
        else VNone
    | None => VNone
    end
  else VNone.

(** [get_user_class_role(user, class_id)]. *)
Definition get_user_class_role (db : Database.store) (user : dict) (class_id : string)
  : result value :=
  is_admin <- py_in (VStr "admin") (field_default user "roles" (VList [])) ;;
  if is_admin : bool then Ok (VStr "instructor")
  else
    let class_memberships := field_default user "class_memberships" (VDict []) in
    let from_memberships :=
      match class_memberships with
      | VList ms => role_in_list ms class_id
      | VDict items =>
          match field items class_id with
          | Some (VDict membership) => Some (field_default membership "role" VNone)
          | Some membership => Some membership
          | None => None
          end
      | _ => None
      end in
    match from_memberships with
    | Some role => Ok role
    | None =>
        let class_roles := field_default user "classRoles" (VDict []) in
        let from_class_roles :=
          match class_roles with
          | VDict items => field items class_id
          | _ => None
          end in
        match from_class_roles with
        | Some role => Ok role
        | None =>
            let accessible_classes := field_default user "accessible_classes" (VList []) in
            accessible <- py_in (VStr class_id) accessible_classes ;;
            if accessible : bool then
              global_role <- py_lower (field_default user "role" (VStr "")) ;;
              if str_in global_role ["admin"; "instructor"] then Ok (VStr "instructor")
              else if str_in global_role ["ta"] then Ok (VStr "ta")
              else Ok (VStr "student")
            else if negb (truthy class_memberships) && negb (truthy class_roles)
                    && negb (truthy accessible_classes)
            then Ok (role_from_database db user class_id)
            else Ok VNone
        end
    end.

(** [ROLE_PERMISSIONS.get(role.lower(), [])]. *)
Fixpoint permissions_of (table : list (string * list string)) (role : string)
  : list string :=
  match table with
  | [] => []
  | (name, perms) :: rest => if role =? name then perms else permissions_of rest role
  end.

Definition get_role_permissions (role : value) : result (list string) :=
  r <- py_lower role ;;
  Ok (permissions_of ROLE_PERMISSIONS r).

(** [user_has_class_permission(user, class_id, permission)]. *)
Definition user_has_class_permission (db : Database.store) (user : dict)
  (class_id : string) (permission : string) : result bool :=
  is_admin <- py_in (VStr "admin") (field_default user "roles" (VList [])) ;;
  if is_admin : bool then Ok true
  else
    role <- get_user_class_role db user class_id ;;
    if negb (truthy role) then Ok false
    else
      permissions <- get_role_permissions role ;;
      Ok (str_in permission permissions).

(** [validate_role(role)]. *)
Definition validate_role (role : value) : result bool :=
  r <- py_lower role ;;
  Ok (str_in r ["instructor"; "ta"; "student"]).

(** [c[key]] with a string key: only a dict can be subscripted by it. *)
Definition getitem (c : value) (key : string) : result value :=
  match c with
  | VDict items =>
      match field items key with
      | Some v => Ok v
      | None => Raise KeyError
      end
  | _ => Raise TypeError
  end.

Definition valid_roles : list string := ["instructor"; "ta"; "grader"; "student"].

Definition valid_roles_repr : string := "['instructor', 'ta', 'grader', 'student']".

(** [update_class_role(user_id, class_id, new_role, updated_by)].  [now] is
    [datetime.datetime.utcnow().isoformat()].  The only write is the final
    [db.upsert]: a call that raises leaves the store as it was. *)
Definition update_class_role (db : Database.store) (now : string)
  (user_id class_id new_role : string) (updated_by : value)
  : result (dict * Database.store) :=
  if negb (str_in (lower new_role) valid_roles) then
    Raise (ValueError ("Invalid role: " ++ new_role ++ ". Must be one of " ++ valid_roles_repr))
  else
    match Database.get db (VStr user_id) with
    | None => Raise (ValueError ("User " ++ user_id ++ " not found"))
    | Some user =>
        if negb (truthy (VDict user)) then
          Raise (ValueError ("User " ++ user_id ++ " not found"))
        else
          is_member <-
            match field user "class_memberships" with
            | None => Ok false
            | Some class_memberships => py_in (VStr class_id) class_memberships
            end ;;
          if negb is_member then
            Raise (ValueError ("User " ++ user_id ++ " is not a member of class " ++ class_id))
          else
            let class_memberships := field_default user "class_memberships" VNone in
            membership <- getitem class_memberships class_id ;;
            old_role <- py_get membership "role" VNone ;;
            match class_memberships, membership with
            | VDict items, VDict m =>
                let m := set_field m "role" (VStr (lower new_role)) in
                let m := set_field m "updated_at" (VStr now) in
                let m := set_field m "updated_by" updated_by in
                let user := set_field user "class_memberships"
                              (VDict (set_field items class_id (VDict m))) in
                user <-
                  match field user "classRoles" with
                  | None => Ok user
                  | Some (VDict class_roles) =>
                      Ok (set_field user "classRoles"
                            (VDict (set_field class_roles class_id (VStr (lower new_role)))))
                  | Some _ => Raise TypeError
                  end ;;
                db' <- Database.upsert db user ;;
                Ok ([ (VStr "success", VBool true);
                      (VStr "user_id", VStr user_id);
                      (VStr "class_id", VStr class_id);
                      (VStr "old_role", old_role);
                      (VStr "new_role", VStr (lower new_role)) ], db')
            | _, _ => Raise TypeError
            end
    end.

End ClassAuth.

(** ** [classroom/api_routes.py]: the member update route *)

Module ApiRoutes.

(** What the route reads of the request: the parsed JSON body
    ([request.get_json()], [None] without one) and the token's user. *)
Record request : Type := {
  json : value;
  jwt_user : dict
}.

(** [jsonify(body), status]. *)
Definition response : Type := (dict * Z)%type.

Definition failure (error : string) (status : Z) : response :=
  ([ (VStr "success", VBool false); (VStr "error", VStr error) ], status).

(** [str(e)]; the interpreter's own messages are stood for by the name of
    the exception class. *)
Definition str_of_exn (e : exn) : string :=
  match e with
  | TypeError => "TypeError"
  | AttributeError => "AttributeError"
  | KeyError => "KeyError"
  | ValueError msg => msg
  end.

Definition self_modification_error : string :=
  "Cannot modify your own role. Have another administrator update your permissions.".

(** [current_user.get('user_id') or current_user.get('email')]: the id the
    route compares the target with and records in the audit trail. *)
Definition acting_id (current_user : dict) : value :=
  py_or (field_default current_user "user_id" VNone)
        (field_default current_user "email" VNone).

(** The [try] block of [api_update_class_member(class_id, user_id)]. *)
Definition update_class_member_body (db : Database.store) (now : string)
  (req : request) (class_id user_id : string)
  : result (response * Database.store) :=
  let data := json req in
  if negb (truthy data) then Ok (failure "No data provided" 400, db)
  else
    new_role <- py_get data "role" VNone ;;
    if negb (truthy new_role) then Ok (failure "role is required" 400, db)
    else
      valid <- ClassAuth.validate_role new_role ;;
      match new_role with
      | VStr role =>
          if negb valid then
            Ok (failure ("Invalid role: " ++ role ++ ". Must be one of: instructor, ta, student") 400, db)
          else
            let current_user := jwt_user req in
            allowed <- ClassAuth.user_has_class_permission db current_user class_id "manage_members" ;;
            if negb allowed then
              Ok (failure "Insufficient permissions to manage members for this class" 403, db)
            else
              let updated_by := acting_id current_user in
              if py_eq (VStr user_id) updated_by then
                Ok (failure self_modification_error 403, db)
              else
                '(result, db') <- ClassAuth.update_class_role db now user_id class_id role updated_by ;;
                if truthy (field_default result "success" VNone) then
                  Ok ([ (VStr "success", VBool true);
                        (VStr "message",
                         VStr ("User " ++ user_id ++ " role updated to " ++ role
                               ++ " in class " ++ class_id));
                        (VStr "user_id", VStr user_id);
                        (VStr "class_id", VStr class_id);
                        (VStr "role", new_role) ], 200%Z, db')
                else
                  Ok ([ (VStr "success", VBool false);
                        (VStr "error",
                         field_default result "error" (VStr "Failed to update role")) ],
                      400%Z, db')
      | _ => Raise AttributeError
      end.

(** [api_update_class_member]: the [except Exception] arm answers 500; an
    exception is raised before anything is stored. *)
Definition api_update_class_member (db : Database.store) (now : string)
  (req : request) (class_id user_id : string) : response * Database.store :=
  match update_class_member_body db now req class_id user_id with
  | Ok out => out
  | Raise e => (failure (str_of_exn e) 500, db)
  end.


Definition error_of (out : response * Database.store) : option value :=
  field (fst (fst out)) "error".

End ApiRoutes.

(** ** [scripts/migrate_student_enrollments.py]: the enrollment backfill *)

Module MigrateStudentEnrollments.

(** The script reads and writes the [data] column of [users] itself. *)
Definition db_get (db : Database.store) (user_id : string) : option dict :=
  db user_id.

Definition db_update (db : Database.store) (user_id : string) (user_data : dict)
  : Database.store :=
  match db user_id with
  | Some _ => Database.write db user_id user_data
  | None => db
  end.

(** [analyze_user_enrollment(user, course)]. *)
Fixpoint analyze_memberships (class_memberships : list value) (course : string)
  : result (bool * string) :=
  match class_memberships with
  | [] => Ok (true, "missing_enrollment")
  | membership :: rest =>
      class_id <- py_get membership "class_id" VNone ;;
      if py_eq class_id (VStr course) then
        role_value <- py_get membership "role" (VStr "") ;;
        role <- py_lower role_value ;;
        if str_in role ["instructor"; "ta"] then Ok (false, ("already_" ++ role)%string)
        else if role =? "student" then Ok (false, "already_student")
        else Ok (true, ("unknown_role_" ++ role)%string)
      else analyze_memberships rest course
  end.

Definition analyze_user_enrollment (user : dict) (course : string)
  : result (bool * string) :=
  memberships <- py_iter (field_default user "class_memberships" (VList [])) ;;
  analyze_memberships memberships course.

(** One element of [updates_to_apply]. *)
Record update : Type := {
  update_user_id : string;
  update_user : dict;
  update_course : string;
  update_submission_count : Z
}.

(** Step 2: the writes the run intends, in order.  A row is a
    [(student, course, submission_count)] of [get_enrollments_from_answers];
    an exception of the analysis ends the whole run. *)
Fixpoint plan_updates (db : Database.store) (enrollments : list (string * string * Z))
  : result (list update) :=
  match enrollments with
  | [] => Ok []
  | (student, course, submission_count) :: rest =>
      match db_get db student with
      | Some user =>
          if negb (truthy (VDict user)) then plan_updates db rest
          else
            '(needs_enrollment, reason) <- analyze_user_enrollment user course ;;
            updates <- plan_updates db rest ;;
            if needs_enrollment : bool then
              Ok ({| update_user_id := student; update_user := user;
                     update_course := course;
                     update_submission_count := submission_count |} :: updates)
            else Ok updates
      | None => plan_updates db rest
      end
  end.

(** The body of the [try] in step 3: the user with the student entry
    appended; [append] exists on a list only. *)
Definition add_student_entry (user : dict) (course : string) : result dict :=
  let user :=
    if has_field user "class_memberships" then user
    else set_field user "class_memberships" (VList []) in
  match field_default user "class_memberships" VNone with
  | VList ms =>
      Ok (set_field user "class_memberships"
            (VList (ms ++ [VDict [ (VStr "class_id", VStr course);
                                   (VStr "role", VStr "student") ]])))
  | _ => Raise AttributeError
  end.

(** Step 3 of a live run; an exception is caught and counted, and the
    loop goes on. *)
Fixpoint apply_updates (db : Database.store) (updates : list update)
  : Database.store :=
  match updates with
  | [] => db
  | u :: rest =>
      match add_student_entry (update_user u) (update_course u) with
      | Ok user => apply_updates (db_update db (update_user_id u) user) rest
      | Raise _ => apply_updates db rest
      end
  end.

(** [migrate_enrollments(dry_run, min_submissions)] on the rows of the
    answers query: the intended writes and the store after the run. *)
Definition migrate_enrollments (db : Database.store)
  (enrollments : list (string * string * Z)) (dry_run : bool)
  : result (list update * Database.store) :=
  updates_to_apply <- plan_updates db enrollments ;;
  if dry_run then Ok (updates_to_apply, db)
  else Ok (updates_to_apply, apply_updates db updates_to_apply).

End MigrateStudentEnrollments.

(** ** Well-typed parts of a principal record *)

Module Principal.

(** The global role set of a record: [roles] holds role names, as a list
    or as a single string; an absent field is the empty set. *)
Definition role_names (user : dict) (names : list string) : Prop :=
  match field user "roles" with
  | None => names = []
  | Some (VStr s) => names = [s]
  | Some (VList rs) => rs = map VStr names
  | Some _ => False
  end.

(** The legacy single-role field holds the string [s]. *)
Definition legacy_role (user : dict) (s : string) : Prop :=
  field user "role" = Some (VStr s).

(** The legacy [role] field is absent or a string. *)
Definition legacy_role_well_typed (user : dict) : Prop :=
  match field user "role" with
  | None | Some (VStr _) => True
  | Some _ => False
  end.

Definition roles_well_typed (user : dict) : Prop :=
  exists names, role_names user names.

(** When [classRoles] is a mapping, what it records for class [k] is a
    string. *)
Definition class_role_well_typed (user : dict) (k : string) : Prop :=
  match field user "classRoles" with
  | Some (VDict items) =>
      match field items k with
      | None | Some (VStr _) => True
      | Some _ => False
      end
  | _ => True
  end.

(** The old [access] field is absent or something [in] can search. *)
Definition access_well_typed (user : dict) : Prop :=
  match field user "access" with
  | None | Some (VList _) | Some (VDict _) | Some (VStr _) => True
  | Some _ => False
  end.

(** Class ids can be dict keys: no class id of any of the three shapes is
    itself a list or a dict. *)
Definition class_ids_hashable (user : dict) : Prop :=
  (forall ms, field user "class_memberships" = Some (VList ms) ->
     Forall (fun m => forall d class_id,
                 m = VDict d -> field d "class_id" = Some class_id ->
                 hashable class_id = true) ms) /\
  (forall items, field user "class_memberships" = Some (VDict items) ->
     Forall (fun kv => hashable (fst kv) = true) items) /\
  (forall items, field user "classRoles" = Some (VDict items) ->
     Forall (fun kv => hashable (fst kv) = true) items) /\
  (forall cs, field user "accessible_classes" = Some (VList cs) ->
     Forall (fun c => truthy c = true -> hashable c = true) cs).

End Principal.

(** ** Canonical membership entries *)

Module Canonical.

(** The two shapes of entry the normalizer writes: with the audit metadata
    (list source) and without (the three legacy sources). *)
Definition entry2 (class_id role : value) : dict :=
  [ (VStr "class_id", class_id); (VStr "role", role) ].

Definition entry4 (class_id role assigned_at assigned_by : value) : dict :=
  [ (VStr "class_id", class_id); (VStr "role", role);
    (VStr "assigned_at", assigned_at); (VStr "assigned_by", assigned_by) ].

Inductive canonical_entry : dict -> Prop :=
| canonical2 (class_id role : value) : canonical_entry (entry2 class_id role)
| canonical4 (class_id role assigned_at assigned_by : value) :
    canonical_entry (entry4 class_id role assigned_at assigned_by).

(** An entry as a later run over the list shape rewrites it. *)
Definition with_metadata (e : dict) : dict :=
  entry4 (field_default e "class_id" VNone) (field_default e "role" VNone)
         (field_default e "assigned_at" VNone) (field_default e "assigned_by" VNone).

(** An entry without its audit metadata. *)
Definition is_metadata (kv : value * value) : bool :=
  key_eq (VStr "assigned_at") (fst kv) || key_eq (VStr "assigned_by") (fst kv).

Definition strip_entry (m : value) : value :=
  match m with
  | VDict e => VDict (filter (fun kv => negb (is_metadata kv)) e)
  | _ => m
  end.

(** A record with the audit metadata of its membership entries erased:
    equality of two such records is equality up to that metadata. *)
Definition without_metadata (user : dict) : dict :=
  match field user "class_memberships" with
  | Some (VList ms) => set_field user "class_memberships" (VList (map strip_entry ms))
  | _ => user
  end.

(** What a list entry is kept as: class and role as they were (a missing
    role reads [student]), metadata as it was (missing reads [None]). *)
Definition kept_entry (m m' : value) : Prop :=
  exists d d',
    m = VDict d /\ m' = VDict d' /\
    field d' "class_id" = field d "class_id" /\
    field d' "role" = Some (field_default d "role" (VStr "student")) /\
    field d' "assigned_at" = Some (field_default d "assigned_at" VNone) /\
    field d' "assigned_by" = Some (field_default d "assigned_by" VNone).

(** A membership entry of the list shape: a dict with a hashable
    ['class_id']. *)
Definition membership_entry (m : value) : Prop :=
  exists d class_id,
    m = VDict d /\ field d "class_id" = Some class_id /\ hashable class_id = true.

Definition entry_class_id (m : value) : value :=
  match m with
  | VDict d => field_default d "class_id" VNone
  | _ => VNone
  end.

(** The role the list shape records for class [k], as the checker reads
    it: a later entry for the class overrides an earlier one, and an entry
    without a role reads [student]. *)
Fixpoint recorded_role (ms : list value) (k : value) : option value :=
  match ms with
  | [] => None
  | m :: rest =>
      match recorded_role rest k with
      | Some r => Some r
      | None =>
          match m with
          | VDict d =>
              match field d "class_id" with
              | Some class_id =>
                  if key_eq k class_id
                  then Some (field_default d "role" (VStr "student"))
                  else None
              | None => None
              end
          | _ => None
          end
      end
  end.

(** [m] is the first entry of the list for class [K]: the entries before
    it are entries of other classes. *)
Definition first_entry_for (ms : list value) (K : string) (m : dict) : Prop :=
  exists before after,
    ms = before ++ VDict m :: after /\
    Forall (fun e => exists d, e = VDict d /\
                     py_eq (field_default d "class_id" VNone) (VStr K) = false)
           before /\
    py_eq (field_default m "class_id" VNone) (VStr K) = true.

(** Dicts as the rebuild loop makes them: no key twice, every key usable,
    every value equal to itself. *)
Inductive dict_ok : dict -> Prop :=
| dict_ok_nil : dict_ok []
| dict_ok_cons (k v : value) (d : dict) :
    key_eq k k = true -> py_eq v v = true -> assoc k d = None ->
    dict_ok d -> dict_ok ((k, v) :: d).

End Canonical.

(** ** Records of the example scenarios *)

Module Scenarios.

(** Scenario 1: no global role, teaching assistant of [cda]. *)
Definition ta_of_cda : dict :=
  [ (VStr "roles", VList []);
    (VStr "class_memberships",
     VList [ VDict [ (VStr "class_id", VStr "cda"); (VStr "role", VStr "ta") ] ]) ].

(** A record whose only source is [classRoles]. *)
Definition class_roles_only : dict :=
  [ (VStr "id", VStr "u1");
    (VStr "classRoles", VDict [ (VStr "x", VStr "ta") ]) ].

(** A list source for [K1] next to other classes in the legacy shapes. *)
Definition list_and_legacy : dict :=
  [ (VStr "id", VStr "u2");
    (VStr "class_memberships",
     VList [ VDict [ (VStr "class_id", VStr "K1"); (VStr "role", VStr "ta") ] ]);
    (VStr "classRoles", VDict [ (VStr "K3", VStr "student") ]);
    (VStr "accessible_classes", VList [ VStr "K2" ]) ].

(** An entry whose class id is the empty string. *)
Definition empty_class_id : dict :=
  [ (VStr "id", VStr "u3");
    (VStr "class_memberships",
     VList [ VDict [ (VStr "class_id", VStr ""); (VStr "role", VStr "student") ] ]) ].

(** The same role in two letter cases. *)
Definition role_case_differs : dict :=
  [ (VStr "id", VStr "u4");
    (VStr "class_memberships",
     VList [ VDict [ (VStr "class_id", VStr "x"); (VStr "role", VStr "TA") ] ]);
    (VStr "classRoles", VDict [ (VStr "x", VStr "ta") ]);
    (VStr "accessible_classes", VList [ VStr "x" ]) ].

(** Scenario 3: [ta] in the list, [instructor] in [classRoles]. *)
Definition ta_versus_instructor : dict :=
  [ (VStr "class_memberships",
     VList [ VDict [ (VStr "class_id", VStr "x"); (VStr "role", VStr "ta") ] ]);
    (VStr "classRoles", VDict [ (VStr "x", VStr "instructor") ]) ].

(** A store with no user at all. *)
Definition no_users : Database.store := fun _ => None.

(** A stored student of [cda], in the canonical list shape. *)
Definition student_of_cda : dict :=
  [ (VStr "email", VStr "u1@example.org");
    (VStr "class_memberships",
     VList [ VDict [ (VStr "class_id", VStr "cda"); (VStr "role", VStr "student") ] ]);
    (VStr "classRoles", VDict [ (VStr "cda", VStr "student") ]) ].

Definition one_student : Database.store :=
  Database.write no_users "u1" student_of_cda.

(** The token of that student, and a request of theirs to become an
    instructor. *)
Definition student_token : dict :=
  [ (VStr "user_id", VStr "u1");
    (VStr "roles", VList []);
    (VStr "class_memberships",
     VList [ VDict [ (VStr "class_id", VStr "cda"); (VStr "role", VStr "student") ] ]) ].


(** An administrator changing their own role. *)
Definition admin_token : dict :=
  [ (VStr "user_id", VStr "root"); (VStr "roles", VList [VStr "admin"]) ].

Definition admin_changes_self : ApiRoutes.request :=
  {| ApiRoutes.json := VDict [ (VStr "role", VStr "student") ];
     ApiRoutes.jwt_user := admin_token |}.

(** An instructor of [cda] who also answered its quizzes. *)
Definition instructor_of_cda : dict :=
  [ (VStr "class_memberships",
     VList [ VDict [ (VStr "class_id", VStr "fhir22"); (VStr "role", VStr "student") ];
             VDict [ (VStr "class_id", VStr "cda"); (VStr "role", VStr "instructor") ] ]) ].

Definition one_instructor : Database.store :=
  Database.write no_users "teach1" instructor_of_cda.

(** A record whose legacy [role] is [None], next to an old class list. *)
Definition role_is_none : dict :=
  [ (VStr "id", VStr "u5");
    (VStr "role", VNone);
    (VStr "accessible_classes", VList [ VStr "fhir22" ]) ].

(** A record whose three shapes all have the wrong container type. *)
Definition wrong_containers : dict :=
  [ (VStr "id", VStr "u6");
    (VStr "roles", VList [ VStr "student" ]);
    (VStr "class_memberships", VStr "cda");
    (VStr "classRoles", VList [ VStr "cda" ]);
    (VStr "accessible_classes", VInt 7) ].

End Scenarios.

(** ** [auth/class_membership_utils.py]: validation, edits and lookup *)

Module MembershipOperations.
Import ClassMembershipUtils.

Definition membership_roles : list string :=
  ["admin"; "instructor"; "ta"; "student"; "user"].

Definition membership_roles_repr : string :=
  "['admin', 'instructor', 'ta', 'student', 'user']".

(** [validate_class_membership(membership)]: [(is_valid, error_message)]. *)
Definition validate_class_membership (membership : value) : bool * option string :=
  match membership with
  | VDict m =>
      match field m "class_id" with
      | None => (false, Some "Membership missing required 'class_id' field")
      | Some class_id =>
          if negb (truthy class_id) then
            (false, Some "Membership 'class_id' cannot be empty")
          else
            match class_id with
            | VStr _ =>
                match field_default m "role" VNone with
                | VNone => (true, None)
                | VStr role =>
                    if negb (str_in (lower role) membership_roles) then
                      (false, Some ("Invalid role '" ++ role ++ "'. Must be one of: "
                                    ++ membership_roles_repr)%string)
                    else (true, None)
                | _ => (false, Some "Membership 'role' must be a string")
                end
            | _ => (false, Some "Membership 'class_id' must be a string")
            end
      end
  | _ => (false, Some "Membership must be a dict")
  end.

(** [str(idx)] and [f"{error}"]. *)
Definition str_of_nat (n : nat) : string :=
  DecimalString.NilEmpty.string_of_uint (Nat.to_uint n).

Definition str_of_error (error : option string) : string :=
  match error with
  | Some msg => msg
  | None => "None"
  end.

(** [membership['class_id']] of an entry that passed the validation: a
    string. *)
Definition validated_class_id (membership : value) : string :=
  match membership with
  | VDict m =>
      match field m "class_id" with
      | Some (VStr class_id) => class_id
      | _ => ""
      end
  | _ => ""
  end.

(** The loop of [validate_class_memberships_list] from entry [idx] on. *)
Fixpoint validate_entries (idx : nat) (seen_classes : list string)
  (memberships : list value) : list string :=
  match memberships with
  | [] => []
  | membership :: rest =>
      let '(is_valid, error) := validate_class_membership membership in
      if negb is_valid then
        ("Entry " ++ str_of_nat idx ++ ": " ++ str_of_error error)%string
        :: validate_entries (S idx) seen_classes rest
      else
        let class_id := validated_class_id membership in
        (if str_in class_id seen_classes
         then [("Entry " ++ str_of_nat idx ++ ": Duplicate class_id '"
                ++ class_id ++ "'")%string]
         else [])
        ++ validate_entries (S idx) (class_id :: seen_classes) rest
  end.

(** [validate_class_memberships_list(memberships)]. *)
Definition validate_class_memberships_list (memberships : value)
  : bool * list string :=
  match memberships with
  | VList ms =>
      let errors := validate_entries 0 [] ms in
      (Nat.eqb (List.length errors) 0, errors)
  | _ => (false, ["class_memberships must be a list"])
  end.

(** [isinstance(m, dict) and m.get('class_id') == class_id]. *)
Definition is_entry_for (class_id : string) (m : value) : bool :=
  match m with
  | VDict d => py_eq (field_default d "class_id" VNone) (VStr class_id)
  | _ => false
  end.

(** The [enumerate] loop of [add_class_membership]: the index of the first
    entry for the class. *)
Fixpoint existing_index (idx : nat) (class_memberships : list value)
  (class_id : string) : option nat :=
  match class_memberships with
  | [] => None
  | m :: rest =>
      if is_entry_for class_id m then Some idx
      else existing_index (S idx) rest class_id
  end.

(** [xs[idx] = v] for an index in range. *)
Fixpoint list_set (idx : nat) (v : value) (xs : list value) : list value :=
  match xs, idx with
  | [], _ => []
  | _ :: rest, O => v :: rest
  | x :: rest, S idx' => x :: list_set idx' v rest
  end.

(** [add_class_membership(user, class_id, role, assigned_by)]; [now] is
    [datetime.datetime.utcnow().isoformat()].  The normalizer has made the
    three fields a list, a dict and a list. *)
Definition add_class_membership (now : string) (user : dict)
  (class_id role : string) (assigned_by : value) : result dict :=
  if negb (truthy (VDict user)) then Ok user
  else
    user <- normalize_class_memberships user ;;
    match field_default user "class_memberships" (VList []),
          field_default user "classRoles" (VDict []),
          field_default user "accessible_classes" (VList []) with
    | VList class_memberships, VDict class_roles, VList accessible_classes =>
        let new_membership :=
          VDict [ (VStr "class_id", VStr class_id);
                  (VStr "role", VStr role);
                  (VStr "assigned_at", VStr now);
                  (VStr "assigned_by", assigned_by) ] in
        let class_memberships :=
          match existing_index 0 class_memberships class_id with
          | Some existing_idx => list_set existing_idx new_membership class_memberships
          | None => class_memberships ++ [new_membership]
          end in
        let class_roles := dict_set class_roles (VStr class_id) (VStr role) in
        let accessible_classes :=
          if existsb (py_eq (VStr class_id)) accessible_classes
          then accessible_classes
          else accessible_classes ++ [VStr class_id] in
        let user := set_field user "class_memberships" (VList class_memberships) in
        let user := set_field user "classRoles" (VDict class_roles) in
        let user := set_field user "accessible_classes" (VList accessible_classes) in
        Ok user
    | _, _, _ => Raise TypeError
    end.

(** [del d[k]] for a key that is there, and [xs.remove(x)]: the first
    element equal to [x] goes. *)
Fixpoint dict_del (d : dict) (k : value) : dict :=
  match d with
  | [] => []
  | (k', v) :: rest => if key_eq k k' then rest else (k', v) :: dict_del rest k
  end.

Fixpoint list_remove (x : value) (xs : list value) : list value :=
  match xs with
  | [] => []
  | y :: rest => if py_eq x y then rest else y :: list_remove x rest
  end.

(** [remove_class_membership(user, class_id)]. *)
Definition remove_class_membership (user : dict) (class_id : string) : dict :=
  if negb (truthy (VDict user)) then user
  else
    let user :=
      match field_default user "class_memberships" (VList []) with
      | VList class_memberships =>
          set_field user "class_memberships"
            (VList (filter (fun m => negb (is_entry_for class_id m)) class_memberships))
      | _ => user
      end in
    let user :=
      match field_default user "classRoles" (VDict []) with
      | VDict class_roles =>
          if dict_mem class_roles (VStr class_id)
          then set_field user "classRoles" (VDict (dict_del class_roles (VStr class_id)))
          else user
      | _ => user
      end in
    match field_default user "accessible_classes" (VList []) with
    | VList accessible_classes =>
        if existsb (py_eq (VStr class_id)) accessible_classes
        then set_field user "accessible_classes"
               (VList (list_remove (VStr class_id) accessible_classes))
        else user
    | _ => user
    end.

(** The first loop of [get_user_role_for_class]. *)
Fixpoint role_of_first_entry (class_memberships : list value) (class_id : string)
  : option value :=
  match class_memberships with
  | [] => None
  | m :: rest =>
      match m with
      | VDict d =>
          if py_eq (field_default d "class_id" VNone) (VStr class_id)
          then Some (field_default d "role" student)
          else role_of_first_entry rest class_id
      | _ => role_of_first_entry rest class_id
      end
  end.

(** [get_user_role_for_class(user, class_id)]; [VNone] is Python's
    [None]. *)
Definition get_user_role_for_class (user : dict) (class_id : string) : value :=
  if negb (truthy (VDict user)) || negb (truthy (VStr class_id)) then VNone
  else
    let from_list :=
      match field_default user "class_memberships" (VList []) with
      | VList class_memberships => role_of_first_entry class_memberships class_id
      | _ => None
      end in
    match from_list with
    | Some role => role
    | None =>
        let from_class_roles :=
          match field_default user "classRoles" (VDict []) with
          | VDict class_roles => field class_roles class_id
          | _ => None
          end in
        match from_class_roles with
        | Some (VDict role) => field_default role "role" student
        | Some role => if truthy role then role else student
        | None =>
            match field_default user "accessible_classes" (VList []) with
            | VList accessible_classes =>
                if existsb (py_eq (VStr class_id)) accessible_classes
                then student
                else VNone
            | _ => VNone
            end
        end
    end.

End MembershipOperations.

(** ** [auth/class_auth.py]: assigning and removing class roles *)

Module ClassRoleOperations.
Import ClassAuth MembershipOperations.

(** One element of the list [assign_class_role] makes of a dict-shaped
    [class_memberships]. *)
Definition entry_of_item (item : value * value) : value :=
  let '(cid, info) := item in
  VDict [ (VStr "class_id", cid);
          (VStr "role",
           match info with
           | VDict i => field_default i "role" (VStr "student")
           | _ => info
           end) ].

(** The [for] loop of [assign_class_role]: the first entry for the class is
    updated in place; [None] when the loop ends without finding one. *)
Fixpoint update_first_entry (class_memberships : list value)
  (class_id role now : string) (assigned_by : value)
  : result (option (list value)) :=
  match class_memberships with
  | [] => Ok None
  | membership :: rest =>
      cid <- py_get membership "class_id" VNone ;;
      if py_eq cid (VStr class_id) then
        match membership with
        | VDict m =>
            let m := set_field m "role" (VStr role) in
            let m := set_field m "assigned_at" (VStr now) in
            let m := set_field m "assigned_by" assigned_by in
            Ok (Some (VDict m :: rest))
        | _ => Raise AttributeError
        end
      else
        found <- update_first_entry rest class_id role now assigned_by ;;
        Ok (match found with
            | Some rest' => Some (membership :: rest')
            | None => None
            end)
  end.

(** [if class_id not in accessible: accessible.append(class_id)]. *)
Definition add_accessible (accessible_classes : value) (class_id : string)
  : result value :=
  match accessible_classes with
  | VList cs =>
      Ok (if existsb (py_eq (VStr class_id)) cs then accessible_classes
          else VList (cs ++ [VStr class_id]))
  | VDict items =>
      if dict_mem items (VStr class_id) then Ok accessible_classes
      else Raise AttributeError
  | VStr s =>
      if substring_of class_id s then Ok accessible_classes
      else Raise AttributeError
  | _ => Raise TypeError
  end.

(** [assign_class_role(user_id, class_id, role, assigned_by)]; [now] is
    [datetime.datetime.utcnow().isoformat()].  The only write is the final
    [db.upsert]. *)
Definition assign_class_role (db : Database.store) (now : string)
  (user_id class_id role : string) (assigned_by : value)
  : result (dict * Database.store) :=
  if negb (str_in (lower role) valid_roles) then
    Raise (ValueError ("Invalid role: " ++ role ++ ". Must be one of " ++ valid_roles_repr))
  else
    match Database.get db (VStr user_id) with
    | None => Raise (ValueError ("User " ++ user_id ++ " not found"))
    | Some user =>
        if negb (truthy (VDict user)) then
          Raise (ValueError ("User " ++ user_id ++ " not found"))
        else
          let user :=
            if has_field user "class_memberships" then user
            else set_field user "class_memberships" (VList []) in
          let user :=
            match field_default user "class_memberships" VNone with
            | VDict items =>
                set_field user "class_memberships" (VList (map entry_of_item items))
            | _ => user
            end in
          class_memberships <-
            match field_default user "class_memberships" VNone with
            | VList ms =>
                found <- update_first_entry ms class_id (lower role) now assigned_by ;;
                Ok (VList
                      match found with
                      | Some ms' => ms'
                      | None =>
                          ms ++ [ VDict [ (VStr "class_id", VStr class_id);
                                          (VStr "role", VStr (lower role));
                                          (VStr "assigned_at", VStr now);
                                          (VStr "assigned_by", assigned_by) ] ]
                      end)
            | VStr _ => Raise AttributeError
            | _ => Raise TypeError
            end ;;
          let user := set_field user "class_memberships" class_memberships in
          let user :=
            if has_field user "classRoles" then user
            else set_field user "classRoles" (VDict []) in
          user <-
            match field_default user "classRoles" VNone with
            | VDict class_roles =>
                Ok (set_field user "classRoles"
                      (VDict (dict_set class_roles (VStr class_id) (VStr (lower role)))))
            | _ => Raise TypeError
            end ;;
          let user :=
            if has_field user "accessible_classes" then user
            else set_field user "accessible_classes" (VList []) in
          accessible_classes <-
            add_accessible (field_default user "accessible_classes" VNone) class_id ;;
          let user := set_field user "accessible_classes" accessible_classes in
          db' <- Database.upsert db user ;;
          Ok ([ (VStr "success", VBool true);
                (VStr "user_id", VStr user_id);
                (VStr "class_id", VStr class_id);
                (VStr "role", VStr (lower role)) ], db')
    end.

(** The comprehension of [remove_class_role]:
    [[m for m in ms if m.get('class_id') != class_id]]. *)
Fixpoint without_class (class_memberships : list value) (class_id : string)
  : result (list value) :=
  match class_memberships with
  | [] => Ok []
  | m :: rest =>
      cid <- py_get m "class_id" VNone ;;
      kept <- without_class rest class_id ;;
      Ok (if negb (py_eq cid (VStr class_id)) then m :: kept else kept)
  end.

(** [remove_class_role(user_id, class_id)]. *)
Definition remove_class_role (db : Database.store) (user_id class_id : string)
  : result (dict * Database.store) :=
  match Database.get db (VStr user_id) with
  | None => Raise (ValueError ("User " ++ user_id ++ " not found"))
  | Some user =>
      if negb (truthy (VDict user)) then
        Raise (ValueError ("User " ++ user_id ++ " not found"))
      else
        user <-
          match field user "class_memberships" with
          | Some (VList ms) =>
              kept <- without_class ms class_id ;;
              Ok (set_field user "class_memberships" (VList kept))
          | Some (VDict items) =>
              Ok (if dict_mem items (VStr class_id)
                  then set_field user "class_memberships"
                         (VDict (dict_del items (VStr class_id)))
                  else user)
          | _ => Ok user
          end ;;
        let user :=
          match field user "classRoles" with
          | Some (VDict class_roles) =>
              if dict_mem class_roles (VStr class_id)
              then set_field user "classRoles"
                     (VDict (dict_del class_roles (VStr class_id)))
              else user
          | _ => user
          end in
        let user :=
          match field user "accessible_classes" with
          | Some (VList cs) =>
              if existsb (py_eq (VStr class_id)) cs
              then set_field user "accessible_classes"
                     (VList (list_remove (VStr class_id) cs))
              else user
          | _ => user
          end in
        db' <- Database.upsert db user ;;
        Ok ([ (VStr "success", VBool true);
              (VStr "user_id", VStr user_id);
              (VStr "class_id", VStr class_id);
              (VStr "action", VStr "removed") ], db')
  end.

(** [role_hierarchy.get(role, 0)]. *)
Definition role_level (role : string) : nat :=
  if role =? "instructor" then 3
  else if role =? "ta" then 2
  else if role =? "student" then 1
  else 0.

(** The three loops of [get_user_managed_classes]. *)
Fixpoint managed_in_list (min_level : nat) (class_memberships : list value)
  : result (list value) :=
  match class_memberships with
  | [] => Ok []
  | membership :: rest =>
      match membership with
      | VDict m =>
          let class_id := field_default m "class_id" VNone in
          role <- py_lower (field_default m "role" (VStr "")) ;;
          managed <- managed_in_list min_level rest ;;
          Ok (if (min_level <=? role_level role)%nat && truthy class_id
              then class_id :: managed else managed)
      | _ => managed_in_list min_level rest
      end
  end.

Fixpoint managed_in_dict (min_level : nat) (items : dict) : result (list value) :=
  match items with
  | [] => Ok []
  | (class_id, membership) :: rest =>
      role <-
        match membership with
        | VDict m => py_lower (field_default m "role" (VStr ""))
        | _ => if truthy membership then py_lower membership else Ok ""
        end ;;
      managed <- managed_in_dict min_level rest ;;
      Ok (if (min_level <=? role_level role)%nat then class_id :: managed else managed)
  end.

Fixpoint managed_in_class_roles (min_level : nat) (items : dict)
  : result (list value) :=
  match items with
  | [] => Ok []
  | (class_id, role) :: rest =>
      role <- py_lower role ;;
      managed <- managed_in_class_roles min_level rest ;;
      Ok (if (min_level <=? role_level role)%nat then class_id :: managed else managed)
  end.

(** [get_user_managed_classes(user, min_role)]. *)
Definition get_user_managed_classes (db : Database.store) (user : dict)
  (min_role : string) : result (list value) :=
  let min_level := role_level (lower min_role) in
  _ <- py_in (VStr "admin") (field_default user "roles" (VList [])) ;;
  let class_memberships := field_default user "class_memberships" (VList []) in
  let class_memberships :=
    if negb (truthy class_memberships) then
      let user_id := field_default user "user_id" VNone in
      if truthy user_id then
        match Database.get db user_id with
        | Some db_user =>
            if truthy (VDict db_user)
            then field_default db_user "class_memberships" (VList [])
            else class_memberships
        | None => class_memberships
        end
      else class_memberships
    else class_memberships in
  match class_memberships with
  | VList ms => managed_in_list min_level ms
  | VDict items => managed_in_dict min_level items
  | _ =>
      match field_default user "classRoles" (VDict []) with
      | VDict items => managed_in_class_roles min_level items
      | _ => Ok []
      end
  end.

End ClassRoleOperations.

(** ** [classroom/api_routes.py]: the member add and remove routes *)

Module MemberRoutes.
Import ClassAuth ClassRoleOperations ApiRoutes.

(** The [try] block of [api_add_class_member(class_id)].  Ids are strings:
    a body whose [user_id] is another truthy value ends in the [except]
    arm. *)
Definition add_class_member_body (db : Database.store) (now : string)
  (req : request) (class_id : string) : result (response * Database.store) :=
  let data := json req in
  if negb (truthy data) then Ok (failure "No data provided" 400, db)
  else
    user_id <- py_get data "user_id" VNone ;;
    role <- py_get data "role" VNone ;;
    if negb (truthy user_id) then Ok (failure "user_id is required" 400, db)
    else if negb (truthy role) then Ok (failure "role is required" 400, db)
    else
      valid <- validate_role role ;;
      match role with
      | VStr r =>
          if negb valid then
            Ok (failure ("Invalid role: " ++ r ++ ". Must be one of: instructor, ta, student") 400, db)
          else
            let current_user := jwt_user req in
            allowed <- user_has_class_permission db current_user class_id "manage_members" ;;
            if negb allowed then
              Ok (failure "Insufficient permissions to manage members for this class" 403, db)
            else
              let assigned_by := acting_id current_user in
              match user_id with
              | VStr target =>
                  '(result, db') <- assign_class_role db now target class_id r assigned_by ;;
                  if truthy (field_default result "success" VNone) then
                    Ok ([ (VStr "success", VBool true);
                          (VStr "message",
                           VStr ("User " ++ target ++ " added to class " ++ class_id
                                 ++ " as " ++ r));
                          (VStr "user_id", user_id);
                          (VStr "class_id", VStr class_id);
                          (VStr "role", role) ], 200%Z, db')
                  else
                    Ok ([ (VStr "success", VBool false);
                          (VStr "error",
                           field_default result "error" (VStr "Failed to assign role")) ],
                        400%Z, db')
              | _ => Raise TypeError
              end
      | _ => Raise AttributeError
      end.

Definition api_add_class_member (db : Database.store) (now : string)
  (req : request) (class_id : string) : response * Database.store :=
  match add_class_member_body db now req class_id with
  | Ok out => out
  | Raise e => (failure (str_of_exn e) 500, db)
  end.

(** The [try] block of [api_remove_class_member(class_id, user_id)]. *)
Definition remove_class_member_body (db : Database.store) (req : request)
  (class_id user_id : string) : result (response * Database.store) :=
  let current_user := jwt_user req in
  allowed <- user_has_class_permission db current_user class_id "manage_members" ;;
  if negb allowed then
    Ok (failure "Insufficient permissions to manage members for this class" 403, db)
  else
    '(result, db') <- remove_class_role db user_id class_id ;;
    if truthy (field_default result "success" VNone) then
      Ok ([ (VStr "success", VBool true);
            (VStr "message",
             VStr ("User " ++ user_id ++ " removed from class " ++ class_id));
            (VStr "user_id", VStr user_id);
            (VStr "class_id", VStr class_id) ], 200%Z, db')
    else
      Ok ([ (VStr "success", VBool false);
            (VStr "error",
             field_default result "error" (VStr "Failed to remove user from class")) ],
          400%Z, db').

Definition api_remove_class_member (db : Database.store) (req : request)
  (class_id user_id : string) : response * Database.store :=
  match remove_class_member_body db req class_id user_id with
  | Ok out => out
  | Raise e => (failure (str_of_exn e) 500, db)
  end.

End MemberRoutes.

(** ** Shapes the further properties speak of *)

Module Shapes.
Import MembershipOperations.

(** A membership entry as [validate_class_membership] wants it: a dict
    with a non-empty string ['class_id'] and a role that is missing,
    [None], or one of the five names in any letter case. *)
Definition well_formed_membership (m : value) : Prop :=
  exists d class_id,
    m = VDict d /\
    field d "class_id" = Some (VStr class_id) /\
    class_id <> "" /\
    (field_default d "role" VNone = VNone \/
     exists role, field_default d "role" VNone = VStr role /\
                  In (lower role) membership_roles).

(** No key twice, as in every Python dict. *)
Fixpoint distinct_keys (d : dict) : bool :=
  match d with
  | [] => true
  | (k, _) :: rest => negb (dict_mem rest k) && distinct_keys rest
  end.

(** How many elements of a list are equal to [x]. *)
Definition occurrences (x : value) (xs : list value) : nat :=
  List.length (filter (py_eq x) xs).

(** How many entries of a list are entries for the class. *)
Definition entries_for (class_id : string) (ms : list value) : nat :=
  List.length (filter (is_entry_for class_id) ms).

(** The course of the last planned write for a user, if there is one. *)
Fixpoint last_course (user_id : string)
  (updates : list MigrateStudentEnrollments.update) : option string :=
  match updates with
  | [] => None
  | u :: rest =>
      match last_course user_id rest with
      | Some course => Some course
      | None =>
          if MigrateStudentEnrollments.update_user_id u =? user_id
          then Some (MigrateStudentEnrollments.update_course u)
          else None
      end
  end.

(** A list of entries with the entry of the class replaced where it first
    occurs, or added at the end: what the index search and the assignment
    of [add_class_membership] amount to. *)
Fixpoint upsert_entry (ms : list value) (class_id : string) (new : value)
  : list value :=
  match ms with
  | [] => [new]
  | m :: rest =>
      if is_entry_for class_id m then new :: rest
      else m :: upsert_entry rest class_id new
  end.

(** The same on a list of dicts. *)
Fixpoint upsert_dict (c : list dict) (class_id : string) (new : dict) : list dict :=
  match c with
  | [] => [new]
  | e :: rest =>
      if is_entry_for class_id (VDict e) then new :: rest
      else e :: upsert_dict rest class_id new
  end.

(** What the database fallback of [get_user_class_role] reads in a stored
    record, when it finds no role for the class there. *)
Definition no_role_readable (user : dict) (class_id : string) : Prop :=
  match field_default user "class_memberships" (VList []) with
  | VList ms => ClassAuth.role_in_list ms class_id
  | _ => None
  end = None /\
  match field_default user "classRoles" (VDict []) with
  | VDict items => field_default items class_id VNone
  | _ => VNone
  end = VNone.

(** The entry the backfill appends. *)
Definition student_entry (course : string) : value :=
  VDict [ (VStr "class_id", VStr course); (VStr "role", VStr "student") ].

End Shapes.

(** ** Records for the further properties *)

Module MoreScenarios.

Definition two_classes : dict :=
  [ (VStr "id", VStr "u7");
    (VStr "email", VStr "u7@example.org");
    (VStr "class_memberships",
     VList [ VDict [ (VStr "class_id", VStr "cda"); (VStr "role", VStr "student") ];
             VDict [ (VStr "class_id", VStr "fhir22"); (VStr "role", VStr "ta") ] ]) ].

(** A store that holds this one record. *)
Definition one_user_store : Database.store :=
  Database.write (fun _ => None) "u7" two_classes.

(** A stored record in the older shape: [class_memberships] maps a class
    to a dict. *)
Definition legacy_member : dict :=
  [ (VStr "email", VStr "u9@example.org");
    (VStr "class_memberships",
     VDict [ (VStr "cda", VDict [ (VStr "role", VStr "student") ]);
             (VStr "fhir22", VDict [ (VStr "role", VStr "ta") ]) ]) ].

Definition legacy_store : Database.store :=
  Database.write (fun _ => None) "u9" legacy_member.

(** An instructor of [cda] whose role is recorded in the older
    [classRoles] mapping only, and who also answered its quizzes. *)
Definition legacy_instructor : dict :=
  [ (VStr "email", VStr "teach2@example.org");
    (VStr "classRoles", VDict [ (VStr "cda", VStr "instructor") ]) ].

Definition one_legacy_instructor : Database.store :=
  Database.write (fun _ => None) "teach2" legacy_instructor.

(** A store whose one row is a student of two classes, under an id the
    answers query keeps. *)
Definition enrolled_user : dict :=
  [ (VStr "email", VStr "user7@example.org");
    (VStr "class_memberships",
     VList [ VDict [ (VStr "class_id", VStr "cda"); (VStr "role", VStr "student") ];
             VDict [ (VStr "class_id", VStr "fhir22"); (VStr "role", VStr "ta") ] ]) ].

Definition enrolled_store : Database.store :=
  Database.write (fun _ => None) "user7" enrolled_user.

End MoreScenarios.

(** * Properties *)

(** ** Facts about the Python operations *)

Module PyFacts.

Lemma lower_admin : lower "admin" = "admin".
Proof. reflexivity. Qed.

Lemma str_in_In (s : string) (xs : list string) :
  str_in s xs = true <-> In s xs.
Proof.
  unfold str_in. rewrite existsb_exists. split.
  - intros [x [Hin Heq]]. apply String.eqb_eq in Heq. now subst.
  - intros Hin. exists s. split; [assumption | apply String.eqb_refl].
Qed.

(** The comprehension [[r.lower() for r in roles if r]] on a list of
    strings. *)
Lemma lower_truthy_strings (names : list string) :
  mapM py_lower (filter truthy (map VStr names))
  = Ok (map lower (filter (fun s => negb (s =? "")) names)).
Proof.
  induction names as [| n names IH]; [reflexivity |].
  cbn [map filter truthy].
  destruct (negb (n =? "")); [| exact IH].
  cbn [mapM py_lower bind]. rewrite IH. reflexivity.
Qed.

(** [key_eq] against a field name. *)
Lemma key_eq_name (name : string) (k : value) :
  key_eq (VStr name) k = true <-> k = VStr name.
Proof.
  destruct k; cbn; split; try discriminate; try congruence.
  - intros H. apply String.eqb_eq in H. now subst.
  - intros H. injection H as ->. apply String.eqb_refl.
Qed.

Lemma key_eq_name_neq (a b : string) :
  a <> b -> key_eq (VStr a) (VStr b) = false.
Proof. intros H. cbn. now apply String.eqb_neq. Qed.

(** Reading a field after writing one. *)
Lemma field_set_field (d : dict) (a b : string) (v : value) :
  field (set_field d a v) b = if b =? a then Some v else field d b.
Proof.
  unfold field, set_field, dict_get.
  induction d as [| [k w] d IH]; cbn [dict_set assoc].
  - cbn. destruct (b =? a); reflexivity.
  - destruct (key_eq (VStr a) k) eqn:Ha.
    + apply key_eq_name in Ha. subst k. cbn [assoc].
      cbn [key_eq]. destruct (b =? a); reflexivity.
    + cbn [assoc]. destruct (key_eq (VStr b) k) eqn:Hb; [| exact IH].
      apply key_eq_name in Hb. subst k.
      destruct (b =? a) eqn:Hba; [| reflexivity].
      apply String.eqb_eq in Hba. subst b.
      cbn in Ha. rewrite String.eqb_refl in Ha. discriminate.
Qed.

Lemma field_default_set_field (d : dict) (a b : string) (v default : value) :
  field_default (set_field d a v) b default
  = if b =? a then v else field_default d b default.
Proof.
  unfold field_default, dict_get_default.
  pose proof (field_set_field d a b v) as H. unfold field, dict_get in H.
  rewrite H. destruct (b =? a); reflexivity.
Qed.

Lemma field_default_of_field (d : dict) (a : string) (v default : value) :
  field d a = Some v -> field_default d a default = v.
Proof.
  unfold field, field_default, dict_get, dict_get_default. now intros ->.
Qed.

Lemma field_default_absent (d : dict) (a : string) (default : value) :
  field d a = None -> field_default d a default = default.
Proof.
  unfold field, field_default, dict_get, dict_get_default. now intros ->.
Qed.

(** A record that has a field is not empty. *)
Lemma field_truthy (d : dict) (a : string) (v : value) :
  field d a = Some v -> truthy (VDict d) = true.
Proof. destruct d; [discriminate | reflexivity]. Qed.

Lemma set_field_truthy (d : dict) (a : string) (v : value) :
  truthy (VDict (set_field d a v)) = true.
Proof.
  destruct d as [| [k w] d]; [reflexivity |].
  unfold set_field. cbn [dict_set]. now destruct (key_eq (VStr a) k).
Qed.

(** Writing a field twice keeps the second value, and writing the value a
    field already has changes nothing. *)
Lemma set_field_twice (d : dict) (a : string) (v w : value) :
  set_field (set_field d a v) a w = set_field d a w.
Proof.
  unfold set_field.
  induction d as [| [k x] d IH]; cbn [dict_set].
  - cbn. now rewrite String.eqb_refl.
  - destruct (key_eq (VStr a) k) eqn:Ha; cbn [dict_set]; rewrite Ha.
    + reflexivity.
    + now rewrite IH.
Qed.

Lemma set_field_same (d : dict) (a : string) (v : value) :
  field d a = Some v -> set_field d a v = d.
Proof.
  unfold field, set_field, dict_get.
  induction d as [| [k x] d IH]; cbn [dict_set assoc]; [discriminate |].
  destruct (key_eq (VStr a) k) eqn:Ha.
  - intros [= ->]. reflexivity.
  - intros H. now rewrite IH.
Qed.

End PyFacts.

(** ** The admin short-circuit of [has_permission] *)

Module PermissionsFacts.
Import Permissions Principal PyFacts.

(** The lower-cased role list the function computes from well-typed
    [roles]. *)
Lemma user_roles_of_names (user : dict) (names : list string) :
  role_names user names ->
  let user_roles := field_default user "roles" (VList []) in
  let user_roles := match user_roles with
                    | VStr _ => VList [user_roles]
                    | _ => user_roles
                    end in
  exists rs,
    py_iter user_roles = Ok rs /\
    mapM py_lower (filter truthy rs)
    = Ok (map lower (filter (fun s => negb (s =? "")) names)).
Proof.
  unfold role_names. intros H.
  destruct (field user "roles") as [v |] eqn:Hf.
  - rewrite (field_default_of_field _ _ _ _ Hf).
    destruct v; try contradiction; subst; cbn [py_iter bind].
    + eexists. split; [reflexivity |]. exact (lower_truthy_strings [s]).
    + eexists. split; [reflexivity |]. apply lower_truthy_strings.
  - rewrite (field_default_absent _ _ _ Hf). subst.
    eexists. split; reflexivity.
Qed.

Lemma admin_among_lowered (names : list string) :
  In "admin" names ->
  str_in "admin" (map lower (filter (fun s => negb (s =? "")) names)) = true.
Proof.
  intros Hin. apply str_in_In. rewrite <- lower_admin at 1.
  apply in_map. apply filter_In. split; [assumption | reflexivity].
Qed.

(** C1. A principal whose global roles contain [admin], or whose legacy
    [role] field is [admin] in any letter case, is granted every capability
    for every class id, whether or not some membership names the class. *)
Theorem has_permission_admin
  (user : dict) (names : list string) (permission : string)
  (class_id : option string) :
  role_names user names ->
  (In "admin" names \/ exists s, legacy_role user s /\ lower s = "admin") ->
  has_permission user permission class_id = Ok true.
Proof.
  intros Hnames Hadmin.
  assert (Hne : truthy (VDict user) = true).
  { destruct Hadmin as [Hin | [s [Hs _]]].
    - unfold role_names in Hnames.
      destruct (field user "roles") eqn:Hf; [now apply field_truthy in Hf |].
      subst. contradiction.
    - now apply field_truthy in Hs. }
  unfold has_permission. rewrite Hne. cbn [negb].
  destruct (user_roles_of_names user names Hnames) as [rs [Hiter Hlower]].
  cbv zeta in Hiter. rewrite Hiter. cbn [bind]. rewrite Hlower. cbn [bind].
  destruct (str_in "admin" _) eqn:Hroles; [reflexivity |].
  destruct Hadmin as [Hin | [s [Hs Hlow]]].
  - rewrite (admin_among_lowered names Hin) in Hroles. discriminate.
  - unfold legacy_role in Hs.
    rewrite (field_default_of_field _ _ _ _ Hs). cbn [py_lower bind].
    rewrite Hlow. reflexivity.
Qed.

Lemma has_permission_admin_witness :
  has_permission [ (VStr "id", VStr "root"); (VStr "roles", VList [VStr "admin"]) ]
                 "quiz.delete" (Some "no_such_class") = Ok true.
Proof.
  apply (has_permission_admin _ ["admin"]).
  - reflexivity.
  - left. simpl. auto.
Defined.

End PermissionsFacts.

(** ** Scenario 1: a teaching assistant of class [cda] *)

Module ClassAuthFacts.
Import ClassAuth PyFacts Scenarios.

(** C2. For the record with no global role and the membership
    [{class_id: "cda", role: "ta"}], the class permission check grants
    [manage_quizzes] for [cda], and it grants [manage_members] as well:
    the [ta] row of the catalog lists it. *)
Theorem ta_manage_members_granted (db : Database.store) :
  user_has_class_permission db ta_of_cda "cda" "manage_quizzes" = Ok true /\
  user_has_class_permission db ta_of_cda "cda" "manage_members" = Ok true.
Proof. split; reflexivity. Qed.

End ClassAuthFacts.

(** ** The normalizer *)

Module NormalizeFacts.
Import ClassMembershipUtils Canonical PyFacts.

(** What the rebuild loop reads of an entry. *)
Local Abbreviation core e :=
  (field_default e "class_id" VNone, field_default e "role" VNone).

Lemma canonical_of_list_entries (ms : list value) :
  Forall canonical_entry (canonical_of_list ms).
Proof.
  induction ms as [| m ms IH]; cbn [canonical_of_list]; [constructor |].
  destruct (canonical_of_entry m) as [e |] eqn:He; [| exact IH].
  constructor; [| exact IH].
  unfold canonical_of_entry in He.
  destruct m; try discriminate.
  destruct (field items "class_id"); try discriminate.
  injection He as <-. apply canonical4.
Qed.

Lemma canonical_memberships_entries (user : dict) (c : list dict) :
  canonical_memberships user = Ok c -> Forall canonical_entry c.
Proof.
  unfold canonical_memberships.
  destruct (nonempty_list (field_default user "class_memberships" _)).
  { intros [= <-]. apply canonical_of_list_entries. }
  destruct (nonempty_dict (field_default user "class_memberships" _)).
  { intros [= <-]. apply Forall_forall. intros e He.
    apply in_map_iff in He as [[k v] [<- _]]. apply canonical2. }
  destruct (nonempty_dict _).
  { intros [= <-]. apply Forall_forall. intros e He.
    apply in_map_iff in He as [[k v] [<- _]]. apply canonical2. }
  destruct (nonempty_list _).
  { destruct (py_lower _); cbn [bind]; [| discriminate].
    intros [= <-]. apply Forall_forall. intros e He.
    apply in_map_iff in He as [k [<- _]]. apply canonical2. }
  intros [= <-]. constructor.
Qed.

Lemma with_metadata_canonical (c : list dict) :
  Forall canonical_entry (map with_metadata c).
Proof.
  apply Forall_forall. intros e He.
  apply in_map_iff in He as [e0 [<- _]]. apply canonical4.
Qed.

Lemma with_metadata_twice (c : list dict) :
  map with_metadata (map with_metadata c) = map with_metadata c.
Proof. rewrite map_map. apply map_ext. reflexivity. Qed.

(** A run over the list shape rewrites canonical entries with their
    metadata keys, and drops none. *)
Lemma canonical_of_list_again (c : list dict) :
  Forall canonical_entry c ->
  canonical_of_list (map VDict c) = map with_metadata c.
Proof.
  induction 1 as [| e c He _ IH]; [reflexivity |].
  cbn [map canonical_of_list]. rewrite IH.
  destruct He; reflexivity.
Qed.

Lemma strip_with_metadata (c : list dict) :
  Forall canonical_entry c ->
  map strip_entry (map VDict (map with_metadata c))
  = map strip_entry (map VDict c).
Proof.
  induction 1 as [| e c He _ IH]; [reflexivity |].
  cbn [map]. rewrite IH. destruct He; reflexivity.
Qed.

(** The rebuild loop depends on class and role only. *)
Lemma foldM_project_core (c c' : list dict) :
  map (fun e => core e) c = map (fun e => core e) c' ->
  forall acc, foldM project_step acc c = foldM project_step acc c'.
Proof.
  revert c'. induction c as [| e c IH]; intros [| e' c'] Hmap acc;
    try discriminate; [reflexivity |].
  cbn [map] in Hmap. injection Hmap as Hid Hrole Hrest.
  cbn [foldM]. unfold project_step at 1 3. destruct acc as [cr ac].
  rewrite Hid, Hrole.
  destruct (dict_setitem cr _ _); cbn [bind]; [| reflexivity].
  now apply IH.
Qed.

Lemma project_with_metadata (c : list dict) :
  Forall canonical_entry c -> project (map with_metadata c) = project c.
Proof.
  intros Hc. unfold project. apply foldM_project_core.
  induction Hc as [| e c He _ IH]; [reflexivity |].
  cbn [map]. rewrite IH. destruct He; reflexivity.
Qed.

Lemma dict_keys_set (d : dict) (k v k0 : value) :
  In k0 (dict_keys (dict_set d k v)) -> In k0 (dict_keys d) \/ k0 = k.
Proof.
  unfold dict_keys.
  induction d as [| [k' v'] d IH]; cbn [dict_set map].
  - intros [<- | []]. now right.
  - destruct (key_eq k k'); cbn [map fst In].
    + intros H. now left.
    + intros [<- | H]; [left; now left |].
      destruct (IH H) as [H' | ->]; [left; now right | now right].
Qed.

(** The two legacy shapes the loop builds: the class ids in order, and a
    mapping whose keys are among them. *)
Lemma foldM_project_result (c : list dict) :
  forall cr0 ac0 cr ac,
    foldM project_step (cr0, ac0) c = Ok (cr, ac) ->
    ac = ac0 ++ map (fun e => field_default e "class_id" VNone) c /\
    forall k, In k (dict_keys cr) ->
              In k (dict_keys cr0) \/
              In k (map (fun e => field_default e "class_id" VNone) c).
Proof.
  induction c as [| e c IH]; intros cr0 ac0 cr ac; cbn [foldM map].
  - intros [= <- <-]. rewrite app_nil_r. auto.
  - unfold project_step at 1. unfold dict_setitem.
    destruct (hashable (field_default e "class_id" VNone)); cbn [bind];
      [| discriminate].
    intros H. apply IH in H as [-> Hkeys]. split.
    + now rewrite <- app_assoc.
    + intros k Hk. destruct (Hkeys k Hk) as [H | H].
      * apply dict_keys_set in H as [H | ->]; [now left |].
        right. now left.
      * right. now right.
Qed.

Lemma foldM_project_returns (c : list dict) :
  Forall (fun e => hashable (field_default e "class_id" VNone) = true) c ->
  forall acc, returns (foldM project_step acc c).
Proof.
  induction 1 as [| e c He _ IH]; intros [cr ac]; cbn [foldM].
  - now exists (cr, ac).
  - unfold project_step at 1. unfold dict_setitem. rewrite He. cbn [bind].
    apply IH.
Qed.

(** A record that already carries a canonical list and its two
    projections: the run changes the metadata keys of the list only. *)
Lemma normalize_of_normalized (u : dict) (c : list dict) (cr : dict) (ac : list value) :
  Forall canonical_entry c ->
  project c = Ok (cr, ac) ->
  field u "class_memberships" = Some (VList (map VDict c)) ->
  field u "classRoles" = Some (VDict cr) ->
  field u "accessible_classes" = Some (VList ac) ->
  normalize_class_memberships u
  = Ok (set_field u "class_memberships" (VList (map VDict (map with_metadata c)))).
Proof.
  intros Hc Hproj Hcm Hcr Hac.
  unfold normalize_class_memberships.
  rewrite (field_truthy _ _ _ Hcm). cbn [negb].
  assert (Hcanon : canonical_memberships u = Ok (map with_metadata c)).
  { unfold canonical_memberships.
    rewrite (field_default_of_field _ _ _ _ Hcm),
            (field_default_of_field _ _ _ _ Hcr),
            (field_default_of_field _ _ _ _ Hac).
    destruct c as [| e c].
    - cbn in Hproj. injection Hproj as <- <-. reflexivity.
    - cbn [map nonempty_list]. f_equal.
      exact (canonical_of_list_again (e :: c) Hc). }
  rewrite Hcanon. cbn [bind].
  rewrite (project_with_metadata c Hc), Hproj. cbn [bind].
  rewrite (set_field_same _ "classRoles" (VDict cr)).
  - apply f_equal. apply set_field_same.
    rewrite field_set_field. exact Hac.
  - rewrite field_set_field. exact Hcr.
Qed.

End NormalizeFacts.

Module Normalizer.
Import ClassMembershipUtils Canonical PyFacts NormalizeFacts Scenarios.

(** The list source, entry by entry. *)
Lemma canonical_of_list_kept (ms : list value) :
  Forall membership_entry ms ->
  Forall2 kept_entry ms (map VDict (canonical_of_list ms)) /\
  map (fun e => field_default e "class_id" VNone) (canonical_of_list ms)
  = map entry_class_id ms /\
  Forall (fun e => hashable (field_default e "class_id" VNone) = true)
         (canonical_of_list ms).
Proof.
  induction 1 as [| m ms [d [cid [-> [Hcid Hhash]]]] _ [IH1 [IH2 IH3]]].
  - repeat split; constructor.
  - cbn [canonical_of_list canonical_of_entry]. rewrite Hcid.
    cbn [map]. repeat split.
    + constructor; [| exact IH1].
      exists d. eexists. repeat split. now rewrite Hcid.
    + rewrite IH2. f_equal. cbn [entry_class_id].
      now rewrite (field_default_of_field _ _ _ _ Hcid).
    + constructor; [exact Hhash | exact IH3].
Qed.

(** C3. When [class_memberships] is a non-empty list of entries, the
    normalized record keeps exactly those entries, each with its class and
    role, and its two legacy shapes name the classes of those entries only:
    a class found only in [classRoles] or [accessible_classes] is gone. *)
Theorem normalize_list_source_wins (user : dict) (ms : list value) :
  field user "class_memberships" = Some (VList ms) ->
  ms <> [] ->
  Forall membership_entry ms ->
  exists user' ms' class_roles,
    normalize_class_memberships user = Ok user' /\
    field user' "class_memberships" = Some (VList ms') /\
    Forall2 kept_entry ms ms' /\
    field user' "classRoles" = Some (VDict class_roles) /\
    (forall k, In k (dict_keys class_roles) -> In k (map entry_class_id ms)) /\
    field user' "accessible_classes" = Some (VList (map entry_class_id ms)).
Proof.
  intros Hcm Hne Hms.
  destruct (canonical_of_list_kept ms Hms) as [Hkept [Hids Hhash]].
  assert (Hcanon : canonical_memberships user = Ok (canonical_of_list ms)).
  { unfold canonical_memberships.
    rewrite (field_default_of_field _ _ _ _ Hcm).
    destruct ms; [contradiction | reflexivity]. }
  destruct (foldM_project_returns _ Hhash ([], [])) as [[cr ac] Hproj].
  destruct (foldM_project_result _ _ _ _ _ Hproj) as [Hac Hkeys].
  cbn [app] in Hac. rewrite Hids in Hac, Hkeys. subst ac.
  eexists. exists (map VDict (canonical_of_list ms)), cr.
  split.
  { unfold normalize_class_memberships.
    rewrite (field_truthy _ _ _ Hcm). cbn [negb].
    rewrite Hcanon. cbn [bind]. unfold project. rewrite Hproj. reflexivity. }
  repeat split.
  - now rewrite !field_set_field.
  - exact Hkept.
  - now rewrite !field_set_field.
  - intros k Hk. destruct (Hkeys k Hk) as [[] | H]. exact H.
  - now rewrite !field_set_field.
Qed.

Lemma normalize_list_source_wins_witness :
  exists user' ms' class_roles,
    normalize_class_memberships list_and_legacy = Ok user' /\
    field user' "class_memberships" = Some (VList ms') /\
    Forall2 kept_entry
      [ VDict [ (VStr "class_id", VStr "K1"); (VStr "role", VStr "ta") ] ] ms' /\
    field user' "classRoles" = Some (VDict class_roles) /\
    (forall k, In k (dict_keys class_roles) -> In k [VStr "K1"]) /\
    field user' "accessible_classes" = Some (VList [VStr "K1"]).
Proof.
  apply (normalize_list_source_wins list_and_legacy
           [ VDict [ (VStr "class_id", VStr "K1"); (VStr "role", VStr "ta") ] ]).
  - reflexivity.
  - discriminate.
  - constructor; [| constructor].
    eexists. exists (VStr "K1"). repeat split.
Defined.

(** C4, as stated, fails: a record whose source is [classRoles] gets
    entries without metadata keys on the first run and with them on the
    second, so the second run does not return what it was given. *)
Lemma normalize_twice_differs :
  exists u1 u2,
    normalize_class_memberships class_roles_only = Ok u1 /\
    normalize_class_memberships u1 = Ok u2 /\
    u2 <> u1.
Proof.
  do 2 eexists. split; [reflexivity |]. split; [reflexivity |]. discriminate.
Qed.

(** C4, amended. A second run returns the record of the first up to the
    audit metadata of the entries (it adds [assigned_at] and [assigned_by]
    as [None] where they are missing), and from then on the record is a
    fixed point. *)
Theorem normalize_idempotent_up_to_metadata (user u1 : dict) :
  normalize_class_memberships user = Ok u1 ->
  exists u2,
    normalize_class_memberships u1 = Ok u2 /\
    without_metadata u2 = without_metadata u1 /\
    normalize_class_memberships u2 = Ok u2.
Proof.
  unfold normalize_class_memberships at 1.
  destruct (truthy (VDict user)) eqn:Hne; cbn [negb].
  2:{ intros [= <-]. destruct user; [| discriminate].
      exists []. repeat split. }
  destruct (canonical_memberships user) as [c |] eqn:Hcanon; cbn [bind];
    [| discriminate].
  destruct (project c) as [[cr ac] |] eqn:Hproj; cbn [bind]; [| discriminate].
  intros [= <-].
  set (u1 := set_field (set_field (set_field user "class_memberships" _) _ _) _ _).
  pose proof (canonical_memberships_entries _ _ Hcanon) as Hc.
  assert (Hcm : field u1 "class_memberships" = Some (VList (map VDict c)))
    by (unfold u1; now rewrite !field_set_field).
  assert (Hcr : field u1 "classRoles" = Some (VDict cr))
    by (unfold u1; now rewrite !field_set_field).
  assert (Hac : field u1 "accessible_classes" = Some (VList ac))
    by (unfold u1; now rewrite !field_set_field).
  clearbody u1.
  set (c2 := map with_metadata c).
  exists (set_field u1 "class_memberships" (VList (map VDict c2))).
  split; [exact (normalize_of_normalized u1 c cr ac Hc Hproj Hcm Hcr Hac) |].
  split.
  - unfold without_metadata. rewrite field_set_field, Hcm.
    cbn -[set_field strip_entry]. rewrite set_field_twice.
    unfold c2. now rewrite (strip_with_metadata c Hc).
  - rewrite (normalize_of_normalized _ c2 cr ac).
    + unfold c2. rewrite with_metadata_twice. fold c2.
      now rewrite set_field_twice.
    + apply with_metadata_canonical.
    + unfold c2. now rewrite (project_with_metadata c Hc).
    + rewrite field_set_field. now rewrite String.eqb_refl.
    + now rewrite field_set_field.
    + now rewrite field_set_field.
Qed.

Lemma normalize_idempotent_up_to_metadata_witness :
  exists u2,
    normalize_class_memberships
      [ (VStr "id", VStr "u1");
        (VStr "classRoles", VDict [ (VStr "x", VStr "ta") ]);
        (VStr "class_memberships",
         VList [ VDict [ (VStr "class_id", VStr "x"); (VStr "role", VStr "ta") ] ]);
        (VStr "accessible_classes", VList [ VStr "x" ]) ] = Ok u2 /\
    without_metadata u2
    = without_metadata
        [ (VStr "id", VStr "u1");
          (VStr "classRoles", VDict [ (VStr "x", VStr "ta") ]);
          (VStr "class_memberships",
           VList [ VDict [ (VStr "class_id", VStr "x"); (VStr "role", VStr "ta") ] ]);
          (VStr "accessible_classes", VList [ VStr "x" ]) ] /\
    normalize_class_memberships u2 = Ok u2.
Proof.
  apply (normalize_idempotent_up_to_metadata class_roles_only).
  reflexivity.
Defined.

End Normalizer.

(** ** The consistency checker *)

Module CheckerFacts.
Import ClassMembershipUtils Canonical PyFacts Scenarios.

(** [key_eq] is symmetric and transitive. *)
Lemma key_eq_sym (a b : value) : key_eq a b = key_eq b a.
Proof.
  destruct a, b; cbn; try reflexivity.
  - now destruct b, b0.
  - apply Z.eqb_sym.
  - apply Z.eqb_sym.
  - apply Z.eqb_sym.
  - apply String.eqb_sym.
Qed.

Lemma key_eq_trans (a b c : value) :
  key_eq a b = true -> key_eq b c = true -> key_eq a c = true.
Proof.
  destruct a, b; cbn; try discriminate; destruct c; cbn; try discriminate;
    try reflexivity;
    rewrite ?Z.eqb_eq, ?String.eqb_eq, ?Bool.eqb_true_iff;
    try congruence.
  all: intros; subst; try reflexivity;
    repeat match goal with b : bool |- _ => destruct b end;
    cbn in *; congruence.
Qed.

(** Reading a dict after [d[k'] = v]. *)
Lemma assoc_dict_set (d : dict) (k k' v : value) :
  key_eq k' k' = true ->
  assoc k (dict_set d k' v) = if key_eq k k' then Some v else assoc k d.
Proof.
  intros Hrefl.
  induction d as [| [k2 v2] d IH]; cbn [dict_set assoc]; [reflexivity |].
  destruct (key_eq k' k2) eqn:H2; cbn [assoc].
  - destruct (key_eq k k') eqn:Hk.
    + now rewrite (key_eq_trans _ _ _ Hk H2).
    + destruct (key_eq k k2) eqn:Hk2; [| reflexivity].
      rewrite key_eq_sym in H2.
      now rewrite (key_eq_trans _ _ _ Hk2 H2) in Hk.
  - rewrite IH. destruct (key_eq k k2) eqn:Hk2; [| reflexivity].
    destruct (key_eq k k') eqn:Hk; [| reflexivity].
    rewrite key_eq_sym in Hk.
    now rewrite (key_eq_trans _ _ _ Hk Hk2) in H2.
Qed.

Lemma hashable_key_eq_refl (k : value) : hashable k = true -> key_eq k k = true.
Proof.
  destruct k; cbn; try discriminate; intros _; try reflexivity.
  - now destruct b.
  - apply Z.eqb_refl.
  - apply String.eqb_refl.
Qed.

(** The roles the first loop collects are the recorded ones. *)
Lemma scan_memberships_roles (ms : list value) :
  forall mc mr mc' mr',
    foldM scan_membership (mc, mr) ms = Ok (mc', mr') ->
    forall k, dict_get mr' k
              = match recorded_role ms k with
                | Some r => Some r
                | None => dict_get mr k
                end.
Proof.
  induction ms as [| m ms IH]; intros mc mr mc' mr'; cbn [foldM recorded_role].
  - now intros [= <- <-].
  - unfold scan_membership at 1.
    destruct m as [| | | | | d];
      try (cbn [bind]; intros H k; rewrite (IH _ _ _ _ H k);
           now destruct (recorded_role ms k)).
    destruct (field d "class_id") as [cid |] eqn:Hcid.
    2:{ cbn [bind]. intros H k. rewrite (IH _ _ _ _ H k).
        now destruct (recorded_role ms k). }
    unfold set_add, dict_setitem.
    destruct (hashable cid) eqn:Hh; cbn [bind]; [| discriminate].
    intros H k. rewrite (IH _ _ _ _ H k).
    destruct (recorded_role ms k); [reflexivity |].
    unfold dict_get. rewrite assoc_dict_set by now apply hashable_key_eq_refl.
    now destruct (key_eq k cid).
Qed.

(** The issues of the last loop. *)
Lemma role_mismatches_In (mr items : dict) (k a b : value) :
  In (RoleMismatch k a b) (role_mismatches mr items) <->
  In (k, b) items /\ dict_get mr k = Some a /\ py_eq a b = false.
Proof.
  induction items as [| [k' r] items IH]; cbn [role_mismatches In].
  - tauto.
  - destruct (dict_get mr k') as [a' |] eqn:Hget.
    + destruct (py_eq a' r) eqn:Heq; cbn [negb In]; rewrite IH; split.
      * tauto.
      * intros [[[= <- <-] | H] [Hk Hne]]; [| tauto].
        rewrite Hget in Hk. injection Hk as <-. congruence.
      * intros [[= <- <- <-] | H]; [| tauto]. now split; [left |].
      * intros [[[= <- <-] | H] [Hk Hne]]; [| tauto].
        rewrite Hget in Hk. injection Hk as <-. now left.
    + rewrite IH. split; [tauto |].
      intros [[[= <- <-] | H] [Hk Hne]]; [congruence | tauto].
Qed.

Lemma compare_with_all_no_mismatch (format : string) (a b : list value)
  (k r1 r2 : value) :
  ~ In (RoleMismatch k r1 r2) (compare_with_all format a b).
Proof.
  unfold compare_with_all.
  destruct (negb (set_eq a b)); [| intros []].
  destruct (truthy (VList (set_diff b a))), (truthy (VList (set_diff a b)));
    cbn; intuition discriminate.
Qed.

End CheckerFacts.

Module Checker.
Import ClassMembershipUtils Canonical PyFacts CheckerFacts Scenarios.

(** C5. The checker run on a normalized record.  For a record with an
    entry whose class id is the empty string the normalizer copies the id
    into all three shapes, the checker leaves it out of the
    [accessible_classes] set only, and the record is reported
    inconsistent. *)
Theorem check_after_normalize_empty_class_id :
  exists u,
    normalize_class_memberships empty_class_id = Ok u /\
    check_format_consistency u
    = Ok (false, [MissingClasses "accessible_classes" [VStr ""]]).
Proof. eexists. split; reflexivity. Qed.

(** C8, as stated, fails: [TA] and [ta] are equal after lower-casing, and
    the checker reports them as a mismatch. *)
Lemma role_case_reported :
  lower "TA" = lower "ta" /\
  check_format_consistency role_case_differs
  = Ok (false, [RoleMismatch (VStr "x") (VStr "TA") (VStr "ta")]).
Proof. split; reflexivity. Qed.

(** C8, amended. For a class present in both [class_memberships] and
    [classRoles], the checker reports a role mismatch exactly when the two
    role strings differ as they are stored, letter case included; a
    reported mismatch makes the record inconsistent. *)
Theorem role_mismatch_iff_strings_differ
  (user : dict) (ms : list value) (items : dict) (ok : bool) (issues : list issue)
  (k : value) (r1 r2 : string) :
  field_default user "class_memberships" (VList []) = VList ms ->
  field_default user "classRoles" (VDict []) = VDict items ->
  check_format_consistency user = Ok (ok, issues) ->
  In (k, VStr r2) items ->
  recorded_role ms k = Some (VStr r1) ->
  (In (RoleMismatch k (VStr r1) (VStr r2)) issues <-> r1 <> r2) /\
  (r1 <> r2 -> ok = false).
Proof.
  intros Hms Hitems Hcheck Hin Hrec.
  unfold check_format_consistency in Hcheck. rewrite Hms, Hitems in Hcheck.
  destruct (foldM scan_membership ([], []) ms) as [[mc mr] |] eqn:Hscan;
    cbn [bind] in Hcheck; [| discriminate].
  destruct (match field_default user "accessible_classes" (VList []) with
            | VList cs => foldM set_add [] (filter truthy cs)
            | _ => Ok []
            end) as [acc |]; cbn [bind] in Hcheck; [| discriminate].
  injection Hcheck as Hok Hissues.
  pose proof (scan_memberships_roles _ _ _ _ _ Hscan k) as Hget.
  rewrite Hrec in Hget.
  assert (Hiff : In (RoleMismatch k (VStr r1) (VStr r2)) issues <-> r1 <> r2).
  { rewrite <- Hissues. rewrite !in_app_iff, role_mismatches_In.
    cbn [py_eq key_eq]. rewrite String.eqb_neq. split.
    - intros [H | [H | [H | H]]];
        try (now apply compare_with_all_no_mismatch in H).
      tauto.
    - intros Hne. do 3 right. tauto. }
  split; [exact Hiff |].
  intros Hne. apply Hiff in Hne. rewrite Hissues in Hok. rewrite <- Hok.
  destruct issues; [contradiction | reflexivity].
Qed.

Lemma role_mismatch_iff_strings_differ_witness :
  (In (RoleMismatch (VStr "x") (VStr "ta") (VStr "instructor"))
      [ MissingClasses "accessible_classes" [VStr "x"];
        RoleMismatch (VStr "x") (VStr "ta") (VStr "instructor") ]
   <-> "ta" <> "instructor") /\
  ("ta" <> "instructor" -> false = false).
Proof.
  apply (role_mismatch_iff_strings_differ
           ta_versus_instructor
           [ VDict [ (VStr "class_id", VStr "x"); (VStr "role", VStr "ta") ] ]
           [ (VStr "x", VStr "instructor") ]).
  - reflexivity.
  - reflexivity.
  - reflexivity.
  - now left.
  - reflexivity.
Defined.

End Checker.

(** ** Role updates *)

Module RoleUpdate.
Import ClassAuth ApiRoutes PyFacts Scenarios.

Lemma py_eq_str_dict (s : string) (d : dict) : py_eq (VStr s) (VDict d) = false.
Proof. reflexivity. Qed.

Lemma no_dict_is_a_string (s : string) (ms : list value) :
  Forall (fun m => exists d, m = VDict d) ms ->
  existsb (py_eq (VStr s)) ms = false.
Proof.
  induction 1 as [| m ms [d ->] _ IH]; [reflexivity |].
  cbn [existsb]. now rewrite py_eq_str_dict, IH.
Qed.

(** C9. A stored user whose [class_memberships] is a list is never updated
    by [update_class_role]: the membership test compares the class id with
    the entries themselves, so for a list of entries the call raises the
    not-a-member error, and for any other list it raises too. *)
Theorem update_class_role_rejects_list_shape
  (db : Database.store) (now user_id class_id new_role : string)
  (updated_by : value) (data : dict) (ms : list value) :
  db user_id = Some data ->
  field data "class_memberships" = Some (VList ms) ->
  str_in (lower new_role) valid_roles = true ->
  (exists e, update_class_role db now user_id class_id new_role updated_by = Raise e) /\
  (Forall (fun m => exists d, m = VDict d) ms ->
   update_class_role db now user_id class_id new_role updated_by
   = Raise (ValueError ("User " ++ user_id ++ " is not a member of class " ++ class_id))).
Proof.
  intros Hdb Hcm Hrole.
  unfold update_class_role. rewrite Hrole. cbn [negb].
  unfold Database.get. rewrite Hdb.
  rewrite set_field_truthy. cbn [negb].
  rewrite field_set_field. cbn -[String.append]. rewrite Hcm.
  cbn [py_in bind]. split.
  - destruct (existsb (py_eq (VStr class_id)) ms); cbn [negb].
    + rewrite field_default_set_field. cbn -[String.append].
      rewrite (field_default_of_field _ _ _ _ Hcm).
      cbn [getitem bind]. now eexists.
    + now eexists.
  - intros Hms. now rewrite (no_dict_is_a_string _ _ Hms).
Qed.

Lemma update_class_role_rejects_list_shape_witness :
  (exists e, update_class_role one_student "2024-01-01T00:00:00" "u1" "cda" "ta"
               (VStr "root") = Raise e) /\
  (Forall (fun m => exists d, m = VDict d)
          [ VDict [ (VStr "class_id", VStr "cda"); (VStr "role", VStr "student") ] ] ->
   update_class_role one_student "2024-01-01T00:00:00" "u1" "cda" "ta" (VStr "root")
   = Raise (ValueError ("User " ++ "u1" ++ " is not a member of class " ++ "cda"))).
Proof.
  apply (update_class_role_rejects_list_shape one_student _ "u1" "cda" "ta" _
           student_of_cda).
  - reflexivity.
  - reflexivity.
  - reflexivity.
Defined.

(** An administrator who targets their own membership gets the explicit
    denial. *)
Example admin_self_update_denied :
  api_update_class_member no_users "2024-01-01T00:00:00" admin_changes_self "cda" "root"
  = (failure self_modification_error 403, no_users).
Proof. reflexivity. Qed.


Section SelfUpdate.

Variables (db : Database.store) (now : string) (req : request).
Variables (class_id user_id : string).
Hypothesis target_is_actor :
  py_eq (VStr user_id) (acting_id (jwt_user req)) = true.



End SelfUpdate.



End RoleUpdate.

(** ** The enrollment backfill *)

Module Backfill.
Import MigrateStudentEnrollments Canonical PyFacts Scenarios.

(** The loop of the analysis stops at the first entry for the course. *)
Lemma analyze_first_entry (before after : list value) (m : dict) (K r : string) :
  Forall (fun e => exists d, e = VDict d /\
                   py_eq (field_default d "class_id" VNone) (VStr K) = false)
         before ->
  py_eq (field_default m "class_id" VNone) (VStr K) = true ->
  field m "role" = Some (VStr r) ->
  lower r = "instructor" \/ lower r = "ta" ->
  analyze_memberships (before ++ VDict m :: after) K
  = Ok (false, ("already_" ++ lower r)%string).
Proof.
  intros Hbefore Hm Hrole Hr.
  induction Hbefore as [| e before [d [-> Hd]] _ IH]; cbn [app analyze_memberships].
  - cbn [py_get bind]. rewrite Hm.
    rewrite (field_default_of_field _ _ _ _ Hrole). cbn [py_lower bind].
    destruct Hr as [-> | ->]; reflexivity.
  - cbn [py_get bind]. rewrite Hd. exact IH.
Qed.

(** Every planned write is for a stored user whose analysis asked for it. *)
Lemma plan_updates_sound (db : Database.store) (enrollments : list (string * string * Z)) :
  forall updates,
    plan_updates db enrollments = Ok updates ->
    Forall (fun u => db (update_user_id u) = Some (update_user u) /\
                     exists reason,
                       analyze_user_enrollment (update_user u) (update_course u)
                       = Ok (true, reason))
           updates.
Proof.
  induction enrollments as [| [[student course] n] rest IH]; intros updates;
    cbn [plan_updates].
  - intros [= <-]. constructor.
  - unfold db_get. destruct (db student) as [user |] eqn:Hdb; [| apply IH].
    destruct (truthy (VDict user)); cbn [negb]; [| apply IH].
    destruct (analyze_user_enrollment user course) as [[needs reason] |] eqn:Han;
      cbn [bind]; [| discriminate].
    destruct (plan_updates db rest) as [ups |]; cbn [bind]; [| discriminate].
    specialize (IH ups eq_refl).
    destruct needs; intros [= <-]; [| exact IH].
    constructor; [| exact IH]. cbn. split; [exact Hdb | now exists reason].
Qed.

(** Appending the student entry leaves the first entry for [K] first. *)
Lemma add_student_entry_keeps (x x' : dict) (course K : string) (m : dict) :
  (exists ms, field x "class_memberships" = Some (VList ms) /\ first_entry_for ms K m) ->
  add_student_entry x course = Ok x' ->
  exists ms', field x' "class_memberships" = Some (VList ms') /\ first_entry_for ms' K m.
Proof.
  intros [ms [Hcm [before [after [-> [Hb Hm]]]]]].
  unfold add_student_entry, has_field, dict_mem.
  unfold field, dict_get in Hcm. rewrite Hcm.
  unfold field_default, dict_get_default. rewrite Hcm.
  intros [= <-]. eexists. split.
  - rewrite field_set_field. cbn. reflexivity.
  - exists before, (after ++ [VDict [(VStr "class_id", VStr course);
                                     (VStr "role", VStr "student")]]).
    repeat split; [| exact Hb | exact Hm].
    now rewrite <- app_assoc.
Qed.

Lemma apply_updates_keeps (student K : string) (m : dict) (updates : list update) :
  forall db,
    (exists user' ms', db student = Some user' /\
                       field user' "class_memberships" = Some (VList ms') /\
                       first_entry_for ms' K m) ->
    Forall (fun u => update_user_id u = student ->
                     exists ms, field (update_user u) "class_memberships" = Some (VList ms) /\
                                first_entry_for ms K m)
           updates ->
    exists user' ms', apply_updates db updates student = Some user' /\
                      field user' "class_memberships" = Some (VList ms') /\
                      first_entry_for ms' K m.
Proof.
  induction updates as [| u updates IH]; intros db Hdb Hall; cbn [apply_updates];
    [exact Hdb |].
  inversion Hall as [| ? ? Hu Hrest]; subst.
  destruct (add_student_entry (update_user u) (update_course u)) as [x' |] eqn:Hadd;
    [| now apply IH].
  apply IH; [| exact Hrest].
  unfold db_update. destruct (db (update_user_id u)) eqn:Hrow; [| exact Hdb].
  unfold Database.write.
  destruct (student =? update_user_id u) eqn:Hid; [| exact Hdb].
  apply String.eqb_eq in Hid. symmetry in Hid.
  destruct (add_student_entry_keeps _ _ _ K m (Hu Hid) Hadd) as [ms' [H1 H2]].
  now exists x', ms'.
Qed.

(** X29. A principal whose first [class_memberships] list entry for class
    [K] carries the role [instructor] or [ta] is left alone by the
    backfill: the analysis answers that no enrollment is needed, no write
    is planned for the pair whatever the submission counts are, and after
    the run the stored record still has that entry, unchanged, as its
    first entry for [K]. *)
Theorem backfill_keeps_instructor_and_ta
  (db : Database.store) (student K : string) (user : dict)
  (ms : list value) (m : dict) (r : string) :
  db student = Some user ->
  field user "class_memberships" = Some (VList ms) ->
  first_entry_for ms K m ->
  field m "role" = Some (VStr r) ->
  lower r = "instructor" \/ lower r = "ta" ->
  analyze_user_enrollment user K = Ok (false, ("already_" ++ lower r)%string) /\
  forall enrollments dry_run updates db',
    migrate_enrollments db enrollments dry_run = Ok (updates, db') ->
    (forall u, In u updates -> ~ (update_user_id u = student /\ update_course u = K)) /\
    exists user' ms',
      db' student = Some user' /\
      field user' "class_memberships" = Some (VList ms') /\
      first_entry_for ms' K m.
Proof.
  intros Hdb Hcm Hfirst Hrole Hr.
  assert (Han : analyze_user_enrollment user K
                = Ok (false, ("already_" ++ lower r)%string)).
  { unfold analyze_user_enrollment.
    rewrite (field_default_of_field _ _ _ _ Hcm). cbn [py_iter bind].
    destruct Hfirst as [before [after [-> [Hb Hm]]]].
    now apply analyze_first_entry. }
  split; [exact Han |].
  intros enrollments dry_run updates db'. unfold migrate_enrollments.
  destruct (plan_updates db enrollments) as [ups |] eqn:Hplan; cbn [bind];
    [| discriminate].
  pose proof (plan_updates_sound _ _ _ Hplan) as Hsound.
  rewrite Forall_forall in Hsound.
  assert (Hnone : forall u, In u ups ->
                            ~ (update_user_id u = student /\ update_course u = K)).
  { intros u Hu [Hid Hcourse]. destruct (Hsound u Hu) as [Hrow [reason Hneeds]].
    rewrite Hid, Hdb in Hrow. injection Hrow as Hrow.
    rewrite <- Hrow, Hcourse, Han in Hneeds. discriminate. }
  assert (Hstart : exists user' ms', db student = Some user' /\
                     field user' "class_memberships" = Some (VList ms') /\
                     first_entry_for ms' K m)
    by now exists user, ms.
  destruct dry_run; intros [= <- <-]; (split; [exact Hnone |]); [exact Hstart |].
  apply apply_updates_keeps; [exact Hstart |].
  apply Forall_forall. intros u Hu Hid.
  destruct (Hsound u Hu) as [Hrow _].
  rewrite Hid, Hdb in Hrow. injection Hrow as <-. now exists ms.
Qed.

Lemma backfill_keeps_instructor_and_ta_witness :
  analyze_user_enrollment instructor_of_cda "cda"
  = Ok (false, ("already_" ++ lower "instructor")%string) /\
  forall enrollments dry_run updates db',
    migrate_enrollments one_instructor enrollments dry_run = Ok (updates, db') ->
    (forall u, In u updates -> ~ (update_user_id u = "teach1" /\ update_course u = "cda")) /\
    exists user' ms',
      db' "teach1" = Some user' /\
      field user' "class_memberships" = Some (VList ms') /\
      first_entry_for ms' "cda"
        [ (VStr "class_id", VStr "cda"); (VStr "role", VStr "instructor") ].
Proof.
  apply (backfill_keeps_instructor_and_ta one_instructor "teach1" "cda"
           instructor_of_cda
           [ VDict [ (VStr "class_id", VStr "fhir22"); (VStr "role", VStr "student") ];
             VDict [ (VStr "class_id", VStr "cda"); (VStr "role", VStr "instructor") ] ]
           [ (VStr "class_id", VStr "cda"); (VStr "role", VStr "instructor") ]
           "instructor").
  - reflexivity.
  - reflexivity.
  - exists [ VDict [ (VStr "class_id", VStr "fhir22"); (VStr "role", VStr "student") ] ], [].
    repeat split. constructor; [| constructor]. eexists. split; reflexivity.
  - reflexivity.
  - now left.
Defined.

(** C7. The backfill reads [class_memberships] only.  An instructor of
    [cda] whose role is recorded in [classRoles] alone is analysed as
    [missing_enrollment]; a live run plans a write for the pair and stores
    a [student] entry, after which [get_user_class_role] answers
    [student] where it answered [instructor] before, and the normalizer
    rewrites [classRoles] to [student] as well. *)
Theorem backfill_demotes_class_roles_instructor :
  (exists before,
     Database.get MoreScenarios.one_legacy_instructor (VStr "teach2") = Some before /\
     ClassAuth.get_user_class_role MoreScenarios.one_legacy_instructor before "cda"
     = Ok (VStr "instructor")) /\
  analyze_user_enrollment MoreScenarios.legacy_instructor "cda"
  = Ok (true, "missing_enrollment") /\
  exists u db' stored normalized,
    migrate_enrollments MoreScenarios.one_legacy_instructor [ ("teach2", "cda", 9%Z) ]
      false = Ok ([u], db') /\
    update_user_id u = "teach2" /\ update_course u = "cda" /\
    Database.get db' (VStr "teach2") = Some stored /\
    field stored "class_memberships"
    = Some (VList [ VDict [ (VStr "class_id", VStr "cda");
                            (VStr "role", VStr "student") ] ]) /\
    ClassAuth.get_user_class_role db' stored "cda" = Ok (VStr "student") /\
    ClassMembershipUtils.normalize_class_memberships stored = Ok normalized /\
    field normalized "classRoles" = Some (VDict [ (VStr "cda", VStr "student") ]).
Proof.
  split; [eexists; split; reflexivity |].
  split; [reflexivity |].
  do 4 eexists. repeat split; reflexivity.
Qed.

End Backfill.

(** ** Records of the wrong shape *)

Module Tolerance.
Import Permissions ClassMembershipUtils Principal Canonical PyFacts
       PermissionsFacts NormalizeFacts Scenarios.

(** A source that is picked was stored in the record. *)
Lemma nonempty_list_field (user : dict) (name : string) (default : value)
  (xs : list value) :
  nonempty_list default = None ->
  nonempty_list (field_default user name default) = Some xs ->
  field user name = Some (VList xs).
Proof.
  unfold field_default, dict_get_default, field, dict_get.
  destruct (assoc (VStr name) user) as [v |]; [| congruence].
  intros _. destruct v as [| | | | [| x l] |]; try discriminate.
  now intros [= <-].
Qed.

Lemma nonempty_dict_field (user : dict) (name : string) (default : value)
  (items : dict) :
  nonempty_dict default = None ->
  nonempty_dict (field_default user name default) = Some items ->
  field user name = Some (VDict items).
Proof.
  unfold field_default, dict_get_default, field, dict_get.
  destruct (assoc (VStr name) user) as [v |]; [| congruence].
  intros _. destruct v as [| | | | | [| x l]]; try discriminate.
  now intros [= <-].
Qed.

Lemma legacy_role_lower (user : dict) :
  legacy_role_well_typed user ->
  returns (py_lower (field_default user "role" (VStr ""))).
Proof.
  unfold legacy_role_well_typed, field_default, dict_get_default, field, dict_get.
  destruct (assoc (VStr "role") user) as [[] |]; try contradiction;
    intros _; now eexists.
Qed.

(** With well-typed scalars the source selection returns, and with
    hashable class ids so does the rebuild loop. *)
Lemma canonical_memberships_hashable (user : dict) :
  legacy_role_well_typed user ->
  class_ids_hashable user ->
  exists c,
    canonical_memberships user = Ok c /\
    Forall (fun e => hashable (field_default e "class_id" VNone) = true) c.
Proof.
  intros Hrole [Hlist [Hdict [Hroles Hacc]]].
  unfold canonical_memberships.
  destruct (nonempty_list (field_default user "class_memberships" _)) as [ms |] eqn:H1.
  { apply nonempty_list_field in H1; [| reflexivity].
    eexists. split; [reflexivity |].
    specialize (Hlist ms H1). clear H1.
    induction Hlist as [| m ms Hm _ IH]; cbn [canonical_of_list]; [constructor |].
    destruct m as [| | | | | d]; cbn [canonical_of_entry]; try exact IH.
    destruct (field d "class_id") as [cid |] eqn:Hcid; [| exact IH].
    constructor; [| exact IH]. cbn. exact (Hm d cid eq_refl Hcid). }
  destruct (nonempty_dict (field_default user "class_memberships" _)) as [items |] eqn:H2.
  { apply nonempty_dict_field in H2; [| reflexivity].
    eexists. split; [reflexivity |].
    specialize (Hdict items H2). clear H2.
    induction Hdict as [| [k v] items Hk _ IH]; cbn [map]; constructor; auto. }
  destruct (nonempty_dict (field_default user "classRoles" _)) as [items |] eqn:H3.
  { apply nonempty_dict_field in H3; [| reflexivity].
    eexists. split; [reflexivity |].
    specialize (Hroles items H3). clear H3.
    induction Hroles as [| [k v] items Hk _ IH]; cbn [map]; constructor; auto. }
  destruct (nonempty_list (field_default user "accessible_classes" _)) as [cs |] eqn:H4.
  { apply nonempty_list_field in H4; [| reflexivity].
    destruct (legacy_role_lower user Hrole) as [g ->]. cbn [bind].
    eexists. split; [reflexivity |].
    specialize (Hacc cs H4). clear H4. unfold canonical_of_accessible.
    induction Hacc as [| c cs Hc _ IH]; cbn [filter map]; [constructor |].
    destruct (truthy c) eqn:Ht; [| exact IH].
    cbn [map]. constructor; [| exact IH]. cbn. now apply Hc. }
  exists []. split; [reflexivity | constructor].
Qed.

Lemma normalize_returns (user : dict) :
  legacy_role_well_typed user ->
  class_ids_hashable user ->
  returns (normalize_class_memberships user).
Proof.
  intros Hrole Hids. unfold normalize_class_memberships.
  destruct (truthy (VDict user)); cbn [negb]; [| now eexists].
  destruct (canonical_memberships_hashable user Hrole Hids) as [c [-> Hc]].
  cbn [bind]. unfold project.
  destruct (foldM_project_returns c Hc ([], [])) as [[cr ac] ->].
  cbn [bind]. now eexists.
Qed.

(** The class-scoped step of the decision. *)
Lemma class_scoped_returns (user : dict) (permission k : string) :
  class_role_well_typed user k ->
  access_well_typed user ->
  returns (class_scoped user permission k).
Proof.
  intros Hrole Haccess. unfold class_scoped.
  assert (Hin : returns (py_in (VStr k) (field_default user "access" (VList [])))).
  { unfold access_well_typed, field_default, dict_get_default, field, dict_get in *.
    destruct (assoc (VStr "access") user) as [[] |]; try contradiction;
      cbn; now eexists. }
  destruct Hin as [member Hin].
  assert (Htail : forall class_roles,
             returns (if negb (truthy class_roles)
                      then member <- py_in (VStr k) (field_default user "access" (VList [])) ;;
                           (if member : bool
                            then Ok (grants (get_role_permissions_with_inheritance "student")
                                            permission)
                            else Ok false)
                      else Ok false)).
  { intros class_roles. destruct (negb (truthy class_roles)); [| now eexists].
    rewrite Hin. cbn [bind]. destruct member; now eexists. }
  unfold class_role_well_typed, field_default, dict_get_default, field, dict_get in *.
  destruct (assoc (VStr "classRoles") user) as [class_roles |].
  - destruct class_roles as [| | | | | items]; cbn [bind]; try apply Htail.
    destruct (assoc (VStr k) items) as [[] |]; try contradiction;
      cbn [py_lower bind].
    + destruct (negb (lower s =? "")); cbn [bind].
      * match goal with
        | |- returns (if ?g then _ else _) => destruct g
        end; [now eexists | apply Htail].
      * apply Htail.
    + cbn [py_lower bind lower String.eqb negb]. apply Htail.
  - cbn [assoc py_lower bind lower String.eqb negb]. apply Htail.
Qed.

Lemma has_permission_returns (user : dict) (permission : string)
  (class_id : option string) :
  legacy_role_well_typed user ->
  roles_well_typed user ->
  (forall k, class_id = Some k ->
             class_role_well_typed user k /\ access_well_typed user) ->
  returns (has_permission user permission class_id).
Proof.
  intros Hrole [names Hnames] Hclass. unfold has_permission.
  destruct (truthy (VDict user)); cbn [negb]; [| now eexists].
  destruct (user_roles_of_names user names Hnames) as [rs [Hiter Hlower]].
  cbv zeta in Hiter. rewrite Hiter. cbn [bind]. rewrite Hlower. cbn [bind].
  destruct (str_in "admin" _); [now eexists |].
  destruct (legacy_role_lower user Hrole) as [legacy ->]. cbn [bind].
  destruct (legacy =? "admin"); [now eexists |].
  assert (Hscoped : returns (match class_id with
                             | Some k => if negb (k =? "")
                                         then class_scoped user permission k
                                         else Ok false
                             | None => Ok false
                             end)).
  { destruct class_id as [k |]; [| now eexists].
    destruct (negb (k =? "")); [| now eexists].
    destruct (Hclass k eq_refl). now apply class_scoped_returns. }
  destruct Hscoped as [scoped ->]. cbn [bind].
  destruct scoped; [now eexists |].
  destruct (_ && _); now eexists.
Qed.

(** Two writes to different fields commute when the first field is
    already there. *)
Lemma set_field_swap (d : dict) (a b : string) (v w : value) :
  a <> b -> field d a <> None ->
  set_field (set_field d a v) b w = set_field (set_field d b w) a v.
Proof.
  unfold field, set_field, dict_get. intros Hab.
  induction d as [| [k x] d IH]; cbn [assoc dict_set]; [congruence |].
  destruct (key_eq (VStr a) k) eqn:Ha.
  - apply key_eq_name in Ha. subst k. intros _.
    cbn [dict_set]. rewrite (key_eq_name_neq b a) by congruence.
    cbn [dict_set key_eq]. now rewrite String.eqb_refl.
  - intros Hf. destruct (key_eq (VStr b) k) eqn:Hb.
    + cbn [dict_set]. rewrite Hb. cbn [dict_set]. now rewrite Ha.
    + cbn [dict_set]. rewrite Hb. cbn [dict_set]. rewrite Ha.
      now rewrite (IH Hf).
Qed.

(** A membership shape of the wrong container type is read as the empty
    one of the right type. *)
Lemma normalize_wrong_class_memberships (user : dict) (old : value) :
  field user "class_memberships" = Some old ->
  is_list old = false -> is_dict old = false ->
  normalize_class_memberships (set_field user "class_memberships" (VList []))
  = normalize_class_memberships user.
Proof.
  intros Hf Hl Hd. unfold normalize_class_memberships.
  rewrite set_field_truthy, (field_truthy _ _ _ Hf). cbn [negb].
  assert (Hc : canonical_memberships (set_field user "class_memberships" (VList []))
               = canonical_memberships user).
  { unfold canonical_memberships. rewrite !field_default_set_field.
    cbn -[nonempty_list nonempty_dict field_default].
    rewrite (field_default_of_field _ _ _ _ Hf).
    destruct old; try discriminate; reflexivity. }
  rewrite Hc. destruct (canonical_memberships user) as [c |]; cbn [bind];
    [| reflexivity].
  destruct (project c) as [[cr ac] |]; cbn [bind]; [| reflexivity].
  now rewrite set_field_twice.
Qed.

Lemma normalize_wrong_class_roles (user : dict) (old : value) :
  field user "classRoles" = Some old ->
  is_dict old = false ->
  normalize_class_memberships (set_field user "classRoles" (VDict []))
  = normalize_class_memberships user.
Proof.
  intros Hf Hd. unfold normalize_class_memberships.
  rewrite set_field_truthy, (field_truthy _ _ _ Hf). cbn [negb].
  assert (Hc : canonical_memberships (set_field user "classRoles" (VDict []))
               = canonical_memberships user).
  { unfold canonical_memberships. rewrite !field_default_set_field.
    cbn -[nonempty_list nonempty_dict field_default].
    rewrite (field_default_of_field _ _ _ _ Hf).
    destruct old; try discriminate; reflexivity. }
  rewrite Hc. destruct (canonical_memberships user) as [c |]; cbn [bind];
    [| reflexivity].
  destruct (project c) as [[cr ac] |]; cbn [bind]; [| reflexivity].
  rewrite (set_field_swap user "classRoles" "class_memberships")
    by (try discriminate; congruence).
  now rewrite set_field_twice.
Qed.

Lemma normalize_wrong_accessible_classes (user : dict) (old : value) :
  field user "accessible_classes" = Some old ->
  is_list old = false ->
  normalize_class_memberships (set_field user "accessible_classes" (VList []))
  = normalize_class_memberships user.
Proof.
  intros Hf Hl. unfold normalize_class_memberships.
  rewrite set_field_truthy, (field_truthy _ _ _ Hf). cbn [negb].
  assert (Hc : canonical_memberships (set_field user "accessible_classes" (VList []))
               = canonical_memberships user).
  { unfold canonical_memberships. rewrite !field_default_set_field.
    cbn -[nonempty_list nonempty_dict field_default].
    rewrite (field_default_of_field _ _ _ _ Hf).
    destruct old; try discriminate; reflexivity. }
  rewrite Hc. destruct (canonical_memberships user) as [c |]; cbn [bind];
    [| reflexivity].
  destruct (project c) as [[cr ac] |]; cbn [bind]; [| reflexivity].
  rewrite (set_field_swap user "accessible_classes" "class_memberships")
    by (try discriminate; congruence).
  rewrite (set_field_swap _ "accessible_classes" "classRoles").
  - now rewrite set_field_twice.
  - discriminate.
  - rewrite field_set_field. cbn. congruence.
Qed.

(** C10, as stated, fails: a legacy [role] of the wrong type makes both
    functions raise. *)
Lemma role_none_raises :
  has_permission role_is_none "quiz.view" None = Raise AttributeError /\
  normalize_class_memberships role_is_none = Raise AttributeError.
Proof. split; reflexivity. Qed.

(** C10, amended. When the scalar fields are well typed ([role] absent or
    a string, [roles] role names, the class role and [access] consulted for
    the class searchable) and no class id is itself a container, both
    functions return; and a [class_memberships], [classRoles] or
    [accessible_classes] of the wrong container type is normalized as if
    it were empty. *)
Theorem wrong_containers_tolerated
  (user : dict) (permission : string) (class_id : option string) :
  legacy_role_well_typed user ->
  roles_well_typed user ->
  class_ids_hashable user ->
  (forall k, class_id = Some k ->
             class_role_well_typed user k /\ access_well_typed user) ->
  returns (normalize_class_memberships user) /\
  returns (has_permission user permission class_id) /\
  (forall old, field user "class_memberships" = Some old ->
     is_list old = false -> is_dict old = false ->
     normalize_class_memberships user
     = normalize_class_memberships (set_field user "class_memberships" (VList []))) /\
  (forall old, field user "classRoles" = Some old ->
     is_dict old = false ->
     normalize_class_memberships user
     = normalize_class_memberships (set_field user "classRoles" (VDict []))) /\
  (forall old, field user "accessible_classes" = Some old ->
     is_list old = false ->
     normalize_class_memberships user
     = normalize_class_memberships (set_field user "accessible_classes" (VList []))).
Proof.
  intros Hrole Hroles Hids Hclass.
  split; [now apply normalize_returns |].
  split; [now apply has_permission_returns |].
  repeat split; intros old Hf; intros; symmetry.
  - now apply (normalize_wrong_class_memberships user old).
  - now apply (normalize_wrong_class_roles user old).
  - now apply (normalize_wrong_accessible_classes user old).
Qed.

Lemma wrong_containers_tolerated_witness :
  returns (normalize_class_memberships wrong_containers) /\
  returns (has_permission wrong_containers "quiz.view" (Some "cda")) /\
  (forall old, field wrong_containers "class_memberships" = Some old ->
     is_list old = false -> is_dict old = false ->
     normalize_class_memberships wrong_containers
     = normalize_class_memberships
         (set_field wrong_containers "class_memberships" (VList []))) /\
  (forall old, field wrong_containers "classRoles" = Some old ->
     is_dict old = false ->
     normalize_class_memberships wrong_containers
     = normalize_class_memberships
         (set_field wrong_containers "classRoles" (VDict []))) /\
  (forall old, field wrong_containers "accessible_classes" = Some old ->
     is_list old = false ->
     normalize_class_memberships wrong_containers
     = normalize_class_memberships
         (set_field wrong_containers "accessible_classes" (VList []))).
Proof.
  apply (wrong_containers_tolerated wrong_containers "quiz.view" (Some "cda")).
  - exact I.
  - exists ["student"]. reflexivity.
  - repeat split; intros x Hx; discriminate Hx.
  - intros k _. split; exact I.
Defined.

End Tolerance.

(** ** The resolver never runs out of fuel *)

Module ResolverFacts.
Import Permissions.

(** No role of the catalog inherits from anything but [student]. *)
Lemma inherits_cases (role : string) :
  inherits (role_config_of ROLE_PERMISSIONS role) = [] \/
  inherits (role_config_of ROLE_PERMISSIONS role) = ["student"].
Proof.
  unfold ROLE_PERMISSIONS. cbn [role_config_of].
  destruct (role =? "admin"); [now left |].
  destruct (role =? "instructor"); [now right |].
  destruct (role =? "ta"); [now right |].
  destruct (role =? "student"); now left.
Qed.

Lemma resolve_S (fuel : nat) (role : string) (visited : list string) :
  resolve (S fuel) role visited
  = if str_in role visited then Some ([], visited)
    else
      match extend_with_parents (resolve fuel)
              (inherits (role_config_of ROLE_PERMISSIONS role))
              (permissions (role_config_of ROLE_PERMISSIONS role))
              (role :: visited) with
      | Some (perms, visited') => Some (unique_from [] perms, visited')
      | None => None
      end.
Proof. reflexivity. Qed.

(** [student] is a leaf: one level resolves it. *)
Lemma resolve_student (n : nat) (visited : list string) :
  resolve (S n) "student" visited
  = if str_in "student" visited then Some ([], visited)
    else Some (["quiz.view"; "quiz.attempt"; "own_data.view"], "student" :: visited).
Proof. rewrite resolve_S. reflexivity. Qed.

(** Two levels are enough for every role name, known or not. *)
Lemma resolve_enough_fuel (n : nat) (role : string) (visited : list string) :
  resolve (S (S n)) role visited = resolve 2 role visited.
Proof.
  rewrite (resolve_S (S n)), (resolve_S 1).
  destruct (str_in role visited); [reflexivity |].
  destruct (inherits_cases role) as [-> | ->]; [reflexivity |].
  cbn [extend_with_parents]. now rewrite !resolve_student.
Qed.

Lemma resolve_total (role : string) (visited : list string) :
  exists r, resolve (S (List.length ROLE_PERMISSIONS)) role visited = Some r.
Proof.
  change (S (List.length ROLE_PERMISSIONS)) with 5.
  rewrite (resolve_enough_fuel 3), (resolve_S 1).
  destruct (str_in role visited); [now eexists |].
  destruct (inherits_cases role) as [-> | ->]; [now eexists |].
  cbn [extend_with_parents]. rewrite resolve_student.
  destruct (str_in "student" (role :: visited)); now eexists.
Qed.

End ResolverFacts.

(** ** When the normalized record does pass the checker *)

Module Consistency.
Import ClassMembershipUtils Canonical PyFacts NormalizeFacts CheckerFacts.

Lemma py_eq_hashable_refl (v : value) : hashable v = true -> py_eq v v = true.
Proof.
  intros H. pose proof (hashable_key_eq_refl v H) as Hk.
  destruct v; try discriminate; exact Hk.
Qed.

Lemma dict_ok_set (d : dict) (k v : value) :
  dict_ok d -> key_eq k k = true -> py_eq v v = true -> dict_ok (dict_set d k v).
Proof.
  intros Hd Hk Hv.
  induction Hd as [| k0 v0 d Hk0 Hv0 Hnone Hd IH]; cbn [dict_set].
  - now repeat constructor.
  - destruct (key_eq k k0) eqn:Hkk0.
    + now constructor.
    + constructor; try assumption.
      rewrite assoc_dict_set by assumption.
      now rewrite key_eq_sym, Hkk0.
Qed.

Lemma assoc_of_In (d : dict) (k k0 v : value) :
  In (k, v) d -> key_eq k0 k = true -> assoc k0 d <> None.
Proof.
  induction d as [| [k1 v1] d IH]; cbn [In assoc]; [contradiction |].
  intros [[= -> ->] | Hin] Hk.
  - now rewrite Hk.
  - destruct (key_eq k0 k1); [discriminate | now apply IH].
Qed.

Lemma dict_ok_lookup (d : dict) (k v : value) :
  dict_ok d -> In (k, v) d -> assoc k d = Some v /\ py_eq v v = true.
Proof.
  induction 1 as [| k0 v0 d Hk0 Hv0 Hnone Hd IH]; cbn [In assoc]; [contradiction |].
  intros [[= -> ->] | Hin].
  - now rewrite Hk0.
  - destruct (key_eq k k0) eqn:Hkk0; [| now apply IH].
    rewrite key_eq_sym in Hkk0.
    now destruct (assoc_of_In d k k0 v Hin Hkk0).
Qed.

(** No mismatch between a well-made mapping and itself. *)
Lemma role_mismatches_self (mr items : dict) :
  (forall k v, In (k, v) items -> assoc k mr = Some v /\ py_eq v v = true) ->
  role_mismatches mr items = [].
Proof.
  induction items as [| [k v] items IH]; intros H; cbn [role_mismatches];
    [reflexivity |].
  destruct (H k v (or_introl eq_refl)) as [Hget Hrefl].
  unfold dict_get. rewrite Hget, Hrefl. cbn [negb].
  apply IH. intros k' v' Hin. apply H. now right.
Qed.

(** *** Sets *)

Lemma set_mem_app (x : value) (a b : list value) :
  set_mem x (a ++ b) = set_mem x a || set_mem x b.
Proof. unfold set_mem. apply existsb_app. Qed.

(** Adding an element that is already there, up to [==], changes no
    membership. *)
Lemma set_mem_insert (x y : value) (s : list value) :
  set_mem x (if set_mem y s then s else s ++ [y])
  = set_mem x s || key_eq x y.
Proof.
  destruct (set_mem y s) eqn:Hy.
  - destruct (key_eq x y) eqn:Hxy; [| now rewrite orb_false_r].
    rewrite orb_true_r. unfold set_mem in *.
    apply existsb_exists in Hy as [z [Hz Hyz]].
    apply existsb_exists. exists z. split; [assumption |].
    exact (key_eq_trans _ _ _ Hxy Hyz).
  - rewrite set_mem_app. cbn. now rewrite orb_false_r.
Qed.

Lemma set_mem_union (x : value) (b : list value) :
  forall a, set_mem x (set_union a b) = set_mem x a || set_mem x b.
Proof.
  unfold set_union.
  induction b as [| y b IH]; intros a; cbn [fold_left].
  - cbn. now rewrite orb_false_r.
  - rewrite IH, set_mem_insert. cbn [set_mem existsb].
    now rewrite orb_assoc.
Qed.

Lemma set_union_hashable (b : list value) :
  forall a, Forall (fun x => hashable x = true) a ->
            Forall (fun x => hashable x = true) b ->
            Forall (fun x => hashable x = true) (set_union a b).
Proof.
  unfold set_union.
  induction b as [| y b IH]; intros a Ha Hb; cbn [fold_left]; [exact Ha |].
  inversion Hb; subst. apply IH; [| assumption].
  destruct (set_mem y a); [exact Ha |].
  apply Forall_app. split; [exact Ha | now constructor].
Qed.

Lemma foldM_set_add (ids : list value) :
  forall s0 s,
    foldM set_add s0 ids = Ok s ->
    Forall (fun x => hashable x = true) s0 ->
    Forall (fun x => hashable x = true) s /\
    forall x, set_mem x s = set_mem x s0 || set_mem x ids.
Proof.
  induction ids as [| y ids IH]; intros s0 s; cbn [foldM].
  - intros [= <-] H0. split; [exact H0 |]. intros x. cbn. now rewrite orb_false_r.
  - unfold set_add at 1. destruct (hashable y) eqn:Hy; cbn [bind]; [| discriminate].
    intros H H0. apply IH in H as [Hs Hmem].
    + split; [exact Hs |]. intros x. rewrite Hmem, set_mem_insert.
      cbn [set_mem existsb]. now rewrite orb_assoc.
    + destruct (set_mem y s0); [exact H0 |].
      apply Forall_app. split; [exact H0 | now constructor].
Qed.

(** Two sets of usable values with the same members compare equal. *)
Lemma set_eq_of_mem (a b : list value) :
  Forall (fun x => hashable x = true) a ->
  Forall (fun x => hashable x = true) b ->
  (forall x, set_mem x a = set_mem x b) ->
  set_eq a b = true.
Proof.
  intros Ha Hb Hmem.
  assert (Hin : forall s, Forall (fun x => hashable x = true) s ->
                          forall x, In x s -> set_mem x s = true).
  { intros s Hs x Hx. unfold set_mem. apply existsb_exists. exists x.
    split; [assumption |]. apply hashable_key_eq_refl.
    rewrite Forall_forall in Hs. now apply Hs. }
  unfold set_eq, set_subset. apply andb_true_iff. split; apply forallb_forall.
  - intros x Hx. rewrite <- Hmem. now apply Hin.
  - intros x Hx. rewrite Hmem. now apply Hin.
Qed.

Lemma compare_with_all_equal (format : string) (a b : list value) :
  set_eq a b = true -> compare_with_all format a b = [].
Proof. unfold compare_with_all. now intros ->. Qed.

(** *** The checker after the normalizer *)

Lemma key_eq_refl_hashable (k : value) : key_eq k k = true -> hashable k = true.
Proof. destruct k; cbn; congruence. Qed.

Lemma dict_ok_keys (d : dict) :
  dict_ok d -> Forall (fun x => hashable x = true) (dict_keys d).
Proof.
  induction 1; cbn; constructor; auto using key_eq_refl_hashable.
Qed.

Lemma set_mem_keys_set (d : dict) (k v x : value) :
  set_mem x (dict_keys (dict_set d k v)) = set_mem x (dict_keys d) || key_eq x k.
Proof.
  unfold set_mem, dict_keys.
  induction d as [| [k0 v0] d IH]; cbn [dict_set map fst existsb].
  - now rewrite orb_false_r.
  - destruct (key_eq k k0) eqn:Hk; cbn [map fst existsb].
    + destruct (key_eq x k) eqn:Hx; [| now rewrite orb_false_r].
      now rewrite (key_eq_trans _ _ _ Hx Hk).
    + rewrite IH. now rewrite orb_assoc.
Qed.

(** The mapping the rebuild loop returns, seen as a set of classes. *)
Lemma project_dict_ok (c : list dict) :
  Forall (fun e => hashable (field_default e "role" VNone) = true) c ->
  forall cr0 ac0 cr ac,
    foldM project_step (cr0, ac0) c = Ok (cr, ac) ->
    dict_ok cr0 ->
    dict_ok cr /\
    forall x, set_mem x (dict_keys cr)
              = set_mem x (dict_keys cr0)
                || set_mem x (map (fun e => field_default e "class_id" VNone) c).
Proof.
  induction 1 as [| e c He _ IH]; intros cr0 ac0 cr ac; cbn [foldM map].
  - intros [= <- <-] H0. split; [exact H0 |]. intros x. cbn.
    now rewrite orb_false_r.
  - unfold project_step at 1. unfold dict_setitem.
    destruct (hashable (field_default e "class_id" VNone)) eqn:Hid; cbn [bind];
      [| discriminate].
    intros H H0. apply IH in H as [Hok Hmem].
    + split; [exact Hok |]. intros x. rewrite Hmem, set_mem_keys_set.
      cbn [set_mem existsb]. now rewrite orb_assoc.
    + apply dict_ok_set; [exact H0 | now apply hashable_key_eq_refl |
                          now apply py_eq_hashable_refl].
Qed.

(** The checker's first loop over a canonical list repeats the rebuild
    loop: same mapping, and the set of the class ids. *)
Lemma scan_of_project (c : list dict) :
  Forall canonical_entry c ->
  forall mc0 cr0 ac0 cr ac,
    foldM project_step (cr0, ac0) c = Ok (cr, ac) ->
    exists mc,
      foldM scan_membership (mc0, cr0) (map VDict c) = Ok (mc, cr) /\
      foldM set_add mc0 (map (fun e => field_default e "class_id" VNone) c) = Ok mc.
Proof.
  induction 1 as [| e c He _ IH]; intros mc0 cr0 ac0 cr ac; cbn [foldM map].
  - intros [= <- <-]. now exists mc0.
  - unfold project_step at 1. unfold scan_membership at 1.
    unfold dict_setitem, set_add.
    destruct He as [cid role | cid role at_ by_];
      cbn -[foldM scan_membership project_step set_add];
      (destruct (hashable cid); cbn [bind]; [| discriminate]);
      intros H; exact (IH _ _ _ _ _ H).
Qed.

Lemma filter_all (A : Type) (f : A -> bool) (xs : list A) :
  Forall (fun x => f x = true) xs -> filter f xs = xs.
Proof.
  induction 1 as [| x xs Hx _ IH]; cbn; [reflexivity |].
  now rewrite Hx, IH.
Qed.

(** A normalized record passes the checker when its class ids are all
    truthy and its roles are scalars. *)
Lemma check_after_normalize (user u : dict) (c : list dict) :
  truthy (VDict user) = true ->
  canonical_memberships user = Ok c ->
  Forall (fun e => truthy (field_default e "class_id" VNone) = true) c ->
  Forall (fun e => hashable (field_default e "role" VNone) = true) c ->
  normalize_class_memberships user = Ok u ->
  check_format_consistency u = Ok (true, []).
Proof.
  intros Hne Hcanon Hids Hroles. unfold normalize_class_memberships.
  rewrite Hne, Hcanon. cbn [negb bind].
  destruct (project c) as [[cr ac] |] eqn:Hproj; cbn [bind]; [| discriminate].
  intros [= <-].
  pose proof (canonical_memberships_entries _ _ Hcanon) as Hc.
  unfold project in Hproj.
  destruct (foldM_project_result _ _ _ _ _ Hproj) as [Hac _]. cbn [app] in Hac.
  destruct (project_dict_ok c Hroles _ _ _ _ Hproj dict_ok_nil) as [Hok Hkeys].
  destruct (scan_of_project c Hc [] _ _ _ _ Hproj) as [mc [Hscan Hset]].
  destruct (foldM_set_add _ _ _ Hset (Forall_nil _)) as [Hmc Hmem].
  unfold check_format_consistency.
  rewrite !field_default_set_field.
  cbn -[foldM scan_membership set_add set_union compare_with_all
        role_mismatches filter].
  unfold dict in Hscan |- *. rewrite Hscan. cbn [bind].
  assert (Hfilter : filter truthy ac = ac).
  { subst ac. apply filter_all. rewrite Forall_map. exact Hids. }
  rewrite Hfilter. rewrite Hac at 1. rewrite Hset. cbn [bind].
  set (rc := set_union [] (dict_keys cr)).
  set (all := set_union (set_union mc rc) mc).
  assert (Hrc : Forall (fun x => hashable x = true) rc)
    by (apply set_union_hashable; [constructor | now apply dict_ok_keys]).
  assert (Hall : Forall (fun x => hashable x = true) all)
    by (unfold all; apply set_union_hashable;
        [apply set_union_hashable |]; assumption).
  assert (Mrc : forall x, set_mem x rc = set_mem x mc).
  { intros x. unfold rc. rewrite set_mem_union, Hkeys, Hmem. reflexivity. }
  assert (Mall : forall x, set_mem x all = set_mem x mc).
  { intros x. unfold all. rewrite !set_mem_union, Mrc.
    now destruct (set_mem x mc). }
  assert (Emc : set_eq mc all = true) by (apply set_eq_of_mem; auto).
  assert (Erc : set_eq rc all = true)
    by (apply set_eq_of_mem; auto; intros x; now rewrite Mrc, Mall).
  rewrite !(fun format => compare_with_all_equal format mc all Emc).
  rewrite (compare_with_all_equal _ rc all Erc).
  rewrite (role_mismatches_self cr cr)
    by (intros k v Hin; now apply dict_ok_lookup).
  reflexivity.
Qed.

End Consistency.

(** ** More about the resolver and the decision *)

Module DecisionFacts.
Import Permissions PyFacts ResolverFacts.

(** The resolver on each role of the catalog. *)
Lemma resolved_admin : get_role_permissions_with_inheritance "admin" = ["*"].
Proof. reflexivity. Qed.

Lemma resolved_student :
  get_role_permissions_with_inheritance "student"
  = ["quiz.view"; "quiz.attempt"; "own_data.view"].
Proof. reflexivity. Qed.

Lemma resolved_ta :
  get_role_permissions_with_inheritance "ta"
  = ["quiz.view"; "quiz.create"; "quiz.modify"; "student.view";
     "quiz.attempt"; "own_data.view"].
Proof. reflexivity. Qed.

Lemma resolved_instructor :
  get_role_permissions_with_inheritance "instructor"
  = ["quiz.view"; "quiz.create"; "quiz.modify"; "quiz.delete";
     "student.view"; "student.manage"; "class.manage_enrollment";
     "role.grant_ta"; "class.add_instructor"; "quiz.attempt"; "own_data.view"].
Proof. reflexivity. Qed.

(** The resolver on a name that is none of the four. *)
Lemma resolve_outside_catalog (role : string) :
  role <> "admin" -> role <> "instructor" -> role <> "ta" -> role <> "student" ->
  get_role_permissions_with_inheritance role = [].
Proof.
  intros Ha Hi Ht Hs.
  unfold get_role_permissions_with_inheritance.
  change (S (List.length ROLE_PERMISSIONS)) with 5.
  rewrite resolve_S. cbn [str_in existsb].
  unfold ROLE_PERMISSIONS. cbn [role_config_of].
  apply String.eqb_neq in Ha, Hi, Ht, Hs.
  rewrite Ha, Hi, Ht, Hs. reflexivity.
Qed.

(** X1. A role name outside the catalog resolves to no permission at all;
    the lookup is case-sensitive, so [Admin] or [TA] are such names. *)
Theorem unknown_role_resolves_to_nothing (role : string) :
  role <> "admin" -> role <> "instructor" -> role <> "ta" -> role <> "student" ->
  get_role_permissions_with_inheritance role = [].
Proof. exact (resolve_outside_catalog role). Qed.

Lemma unknown_role_resolves_to_nothing_witness :
  get_role_permissions_with_inheritance "Admin" = [].
Proof.
  apply unknown_role_resolves_to_nothing; discriminate.
Defined.

(** The five cases of a role name. *)
Lemma role_cases (role : string) :
  role = "admin" \/ role = "instructor" \/ role = "ta" \/ role = "student" \/
  get_role_permissions_with_inheritance role = [].
Proof.
  destruct (String.eqb_spec role "admin"); [now left |].
  destruct (String.eqb_spec role "instructor"); [now right; left |].
  destruct (String.eqb_spec role "ta"); [now right; right; left |].
  destruct (String.eqb_spec role "student"); [now right; right; right; left |].
  right; right; right; right. now apply resolve_outside_catalog.
Qed.

(** X2. The resolved list of any role has no permission twice, and the
    lists of [instructor] and [ta] contain every permission of
    [student]. *)
Theorem resolved_permissions_inherit (role : string) :
  NoDup (get_role_permissions_with_inheritance role) /\
  forall p, In p (get_role_permissions_with_inheritance "student") ->
            In p (get_role_permissions_with_inheritance "instructor") /\
            In p (get_role_permissions_with_inheritance "ta").
Proof.
  split.
  - destruct (role_cases role) as [-> | [-> | [-> | [-> | ->]]]];
      rewrite ?resolved_admin, ?resolved_instructor, ?resolved_ta, ?resolved_student;
      repeat (constructor; [cbn; intuition discriminate |]); constructor.
  - rewrite resolved_student, resolved_instructor, resolved_ta.
    cbn. intuition (subst; auto 12).
Qed.

(** Whatever a role resolves to is the wildcard or a permission of
    [instructor]. *)
Lemma resolved_within_catalog (role p : string) :
  In p (get_role_permissions_with_inheritance role) ->
  p = "*" \/ In p (get_role_permissions_with_inheritance "instructor").
Proof.
  destruct (role_cases role) as [-> | [-> | [-> | [-> | ->]]]];
    rewrite ?resolved_admin, ?resolved_instructor, ?resolved_ta, ?resolved_student;
    cbn; intuition (subst; auto 14).
Qed.

(** A grant of a permission outside the catalog comes from the wildcard,
    which grants anything. *)
Lemma grants_outside_catalog (role p p' : string) :
  ~ In p (get_role_permissions_with_inheritance "instructor") ->
  grants (get_role_permissions_with_inheritance role) p = true ->
  grants (get_role_permissions_with_inheritance role) p' = true.
Proof.
  intros Hout. unfold grants. rewrite !orb_true_iff, !str_in_In.
  intros [Hstar | Hp]; [now left |].
  destruct (resolved_within_catalog role p Hp) as [-> | Hin];
    [now left | contradiction].
Qed.

Lemma class_scoped_outside_catalog (user : dict) (p p' k : string) (b : bool) :
  ~ In p (get_role_permissions_with_inheritance "instructor") ->
  class_scoped user p k = Ok b ->
  exists b', class_scoped user p' k = Ok b' /\ (b = true -> b' = true).
Proof.
  intros Hout. unfold class_scoped.
  generalize (py_in (VStr k) (field_default user "access" (VList []))) as access.
  generalize (field_default user "classRoles" (VDict [])) as class_roles.
  intros class_roles access.
  assert (Htail : forall b0,
            (if negb (truthy class_roles)
             then member <- access ;;
                  (if member : bool
                   then Ok (grants (get_role_permissions_with_inheritance "student") p)
                   else Ok false)
             else Ok false) = Ok b0 ->
            exists b',
              (if negb (truthy class_roles)
               then member <- access ;;
                    (if member : bool
                     then Ok (grants (get_role_permissions_with_inheritance "student") p')
                     else Ok false)
               else Ok false) = Ok b' /\ (b0 = true -> b' = true)).
  { intros b0.
    destruct (negb (truthy class_roles)); [| intros [= <-]; now exists false].
    destruct access as [member |]; cbn [bind]; [| discriminate].
    destruct member; [| intros [= <-]; now exists false].
    intros [= <-]. eexists. split; [reflexivity |].
    now apply grants_outside_catalog. }
  destruct class_roles as [| | | | | items]; cbn [bind]; try apply Htail.
  destruct (py_lower (field_default items k (VStr ""))) as [class_role |];
    cbn [bind]; [| discriminate].
  destruct (negb (class_role =? "")); cbn [bind]; [| apply Htail].
  destruct (grants (get_role_permissions_with_inheritance
                      (if class_role =? "user" then "student" else class_role)) p)
    eqn:Hg; cbn [bind].
  - intros [= <-]. exists true.
    rewrite (grants_outside_catalog _ p p' Hout Hg). now split.
  - intros H. destruct (Htail b H) as [b' [Hb' Himp]].
    destruct (grants (get_role_permissions_with_inheritance
                        (if class_role =? "user" then "student" else class_role)) p');
      cbn [bind]; [now exists true | now exists b'].
Qed.

Lemma any_global_role_outside_catalog (roles : list string) (p p' : string) :
  ~ In p (get_role_permissions_with_inheritance "instructor") ->
  any_global_role roles p = true -> any_global_role roles p' = true.
Proof.
  intros Hout. induction roles as [| role roles IH]; cbn [any_global_role];
    [discriminate |].
  destruct (negb (role =? "admin")); [| exact IH].
  destruct (grants _ p) eqn:Hg.
  - intros _. now rewrite (grants_outside_catalog _ p p' Hout Hg).
  - intros H. rewrite (IH H). now destruct (grants _ p').
Qed.

(** X3. A permission that is not in the catalog is granted to wildcard
    holders only: if [has_permission] grants one, it grants every
    permission to that record for that class. *)
Theorem outside_catalog_means_wildcard
  (user : dict) (p p' : string) (class_id : option string) :
  ~ In p (get_role_permissions_with_inheritance "instructor") ->
  has_permission user p class_id = Ok true ->
  has_permission user p' class_id = Ok true.
Proof.
  intros Hout. unfold has_permission.
  destruct (negb (truthy (VDict user))); [discriminate |].
  destruct (py_iter _) as [rs |]; cbn [bind]; [| discriminate].
  destruct (mapM py_lower (filter truthy rs)) as [roles |]; cbn [bind];
    [| discriminate].
  destruct (str_in "admin" roles); [reflexivity |].
  destruct (py_lower (field_default user "role" (VStr ""))) as [legacy |];
    cbn [bind]; [| discriminate].
  destruct (legacy =? "admin"); [reflexivity |].
  assert (Hscoped : forall b,
            match class_id with
            | Some k => if negb (k =? "") then class_scoped user p k else Ok false
            | None => Ok false
            end = Ok b ->
            exists b',
              match class_id with
              | Some k => if negb (k =? "") then class_scoped user p' k else Ok false
              | None => Ok false
              end = Ok b' /\ (b = true -> b' = true)).
  { intros b. destruct class_id as [k |]; [| intros [= <-]; now exists false].
    destruct (negb (k =? "")); [| intros [= <-]; now exists false].
    now apply class_scoped_outside_catalog. }
  destruct (match class_id with
            | Some k => if negb (k =? "") then class_scoped user p k else Ok false
            | None => Ok false
            end) as [b |] eqn:Hb; cbn [bind]; [| discriminate].
  destruct (Hscoped b eq_refl) as [b' [-> Hbb']]. cbn [bind].
  destruct b; [now rewrite (Hbb' eq_refl) |].
  destruct b'; [reflexivity |].
  destruct (negb (legacy =? "") && negb (legacy =? "user")); cbn [andb].
  - destruct (grants _ p) eqn:Hg.
    + now rewrite (grants_outside_catalog _ p p' Hout Hg).
    + intros [= H]. rewrite (any_global_role_outside_catalog _ p p' Hout H).
      now destruct (grants _ p').
  - intros [= H]. now rewrite (any_global_role_outside_catalog _ p p' Hout H).
Qed.

Lemma outside_catalog_means_wildcard_witness :
  has_permission [ (VStr "classRoles", VDict [ (VStr "cda", VStr "Admin") ]) ]
    "quiz.delete" (Some "cda") = Ok true.
Proof.
  apply (outside_catalog_means_wildcard _ "manage_members").
  - cbn. intuition discriminate.
  - reflexivity.
Defined.

(** X4. The decision reads [roles], [role], [classRoles] and [access] and
    nothing else: overwriting any other field, [class_memberships] and
    [accessible_classes] included, leaves it as it was. *)
Theorem has_permission_reads_four_fields
  (user : dict) (name : string) (v : value) (p : string) (class_id : option string) :
  name <> "roles" -> name <> "role" -> name <> "classRoles" -> name <> "access" ->
  has_permission (set_field user name v) p class_id = has_permission user p class_id.
Proof.
  intros H1 H2 H3 H4.
  assert (Hread : forall f default,
            f = "roles" \/ f = "role" \/ f = "classRoles" \/ f = "access" ->
            field_default (set_field user name v) f default
            = field_default user f default).
  { intros f default Hf. rewrite field_default_set_field.
    destruct (String.eqb_spec f name); [| reflexivity].
    subst. intuition congruence. }
  unfold has_permission, class_scoped.
  rewrite set_field_truthy.
  rewrite !Hread by auto.
  destruct user as [| kv user]; [| reflexivity].
  cbn -[get_role_permissions_with_inheritance grants].
  destruct class_id as [k |]; [| reflexivity].
  destruct (negb (k =? "")); reflexivity.
Qed.

Lemma has_permission_reads_four_fields_witness :
  has_permission
    (set_field [ (VStr "roles", VList [VStr "student"]) ] "class_memberships"
       (VList [ VDict [ (VStr "class_id", VStr "cda"); (VStr "role", VStr "instructor") ] ]))
    "quiz.create" (Some "cda")
  = has_permission [ (VStr "roles", VList [VStr "student"]) ] "quiz.create" (Some "cda").
Proof.
  apply has_permission_reads_four_fields; discriminate.
Defined.

End DecisionFacts.

(** ** More about the normalizer, the validator and the checker *)

Module ShapeFacts.
Import ClassMembershipUtils MembershipOperations Canonical Shapes PyFacts
       NormalizeFacts CheckerFacts Consistency MoreScenarios.

(** X5. What the normalizer leaves behind: [accessible_classes] is the list
    of the class ids of the entries, in order; [classRoles] gives each
    class the role of its last entry; every other field is as it was. *)
Theorem normalize_projections (user u : dict) :
  truthy (VDict user) = true ->
  normalize_class_memberships user = Ok u ->
  exists ms class_roles,
    field u "class_memberships" = Some (VList ms) /\
    field u "accessible_classes" = Some (VList (map entry_class_id ms)) /\
    field u "classRoles" = Some (VDict class_roles) /\
    (forall k, dict_get class_roles k = recorded_role ms k) /\
    (forall name, name <> "class_memberships" -> name <> "classRoles" ->
                  name <> "accessible_classes" -> field u name = field user name).
Proof.
  intros Hne. unfold normalize_class_memberships. rewrite Hne. cbn [negb].
  destruct (canonical_memberships user) as [c |] eqn:Hcanon; cbn [bind];
    [| discriminate].
  destruct (project c) as [[cr ac] |] eqn:Hproj; cbn [bind]; [| discriminate].
  intros [= <-].
  pose proof (canonical_memberships_entries _ _ Hcanon) as Hc.
  unfold project in Hproj.
  destruct (foldM_project_result _ _ _ _ _ Hproj) as [Hac _]. cbn [app] in Hac.
  destruct (scan_of_project c Hc [] _ _ _ _ Hproj) as [mc [Hscan _]].
  exists (map VDict c), cr. repeat split.
  - now rewrite !field_set_field.
  - rewrite !field_set_field. cbn. subst ac. rewrite map_map. reflexivity.
  - now rewrite !field_set_field.
  - intros k. rewrite (scan_memberships_roles _ _ _ _ _ Hscan k).
    now destruct (recorded_role (map VDict c) k).
  - intros name H1 H2 H3. rewrite !field_set_field.
    apply String.eqb_neq in H1, H2, H3. now rewrite H1, H2, H3.
Qed.

Lemma normalize_projections_witness :
  exists ms class_roles,
    field [ (VStr "id", VStr "u7");
            (VStr "email", VStr "u7@example.org");
            (VStr "class_memberships",
             VList [ VDict (entry4 (VStr "cda") (VStr "student") VNone VNone);
                     VDict (entry4 (VStr "fhir22") (VStr "ta") VNone VNone) ]);
            (VStr "classRoles",
             VDict [ (VStr "cda", VStr "student"); (VStr "fhir22", VStr "ta") ]);
            (VStr "accessible_classes", VList [ VStr "cda"; VStr "fhir22" ]) ]
          "class_memberships" = Some (VList ms) /\
    field [ (VStr "id", VStr "u7");
            (VStr "email", VStr "u7@example.org");
            (VStr "class_memberships",
             VList [ VDict (entry4 (VStr "cda") (VStr "student") VNone VNone);
                     VDict (entry4 (VStr "fhir22") (VStr "ta") VNone VNone) ]);
            (VStr "classRoles",
             VDict [ (VStr "cda", VStr "student"); (VStr "fhir22", VStr "ta") ]);
            (VStr "accessible_classes", VList [ VStr "cda"; VStr "fhir22" ]) ]
          "accessible_classes" = Some (VList (map entry_class_id ms)) /\
    field [ (VStr "id", VStr "u7");
            (VStr "email", VStr "u7@example.org");
            (VStr "class_memberships",
             VList [ VDict (entry4 (VStr "cda") (VStr "student") VNone VNone);
                     VDict (entry4 (VStr "fhir22") (VStr "ta") VNone VNone) ]);
            (VStr "classRoles",
             VDict [ (VStr "cda", VStr "student"); (VStr "fhir22", VStr "ta") ]);
            (VStr "accessible_classes", VList [ VStr "cda"; VStr "fhir22" ]) ]
          "classRoles" = Some (VDict class_roles) /\
    (forall k, dict_get class_roles k = recorded_role ms k) /\
    (forall name, name <> "class_memberships" -> name <> "classRoles" ->
                  name <> "accessible_classes" ->
                  field [ (VStr "id", VStr "u7");
                          (VStr "email", VStr "u7@example.org");
                          (VStr "class_memberships",
                           VList [ VDict (entry4 (VStr "cda") (VStr "student") VNone VNone);
                                   VDict (entry4 (VStr "fhir22") (VStr "ta") VNone VNone) ]);
                          (VStr "classRoles",
                           VDict [ (VStr "cda", VStr "student"); (VStr "fhir22", VStr "ta") ]);
                          (VStr "accessible_classes", VList [ VStr "cda"; VStr "fhir22" ]) ]
                        name
                  = field two_classes name).
Proof.
  apply (normalize_projections two_classes); reflexivity.
Defined.

(** The validator of one entry accepts exactly the well-formed ones. *)
Lemma validate_class_membership_spec (m : value) :
  fst (validate_class_membership m) = true <-> well_formed_membership m.
Proof.
  unfold validate_class_membership, well_formed_membership. split.
  - destruct m as [| | | | | d]; try discriminate.
    destruct (field d "class_id") as [cid |] eqn:Hcid; [| discriminate].
    destruct (truthy cid) eqn:Ht; cbn [negb]; [| discriminate].
    destruct cid as [| | | s | |]; try discriminate.
    destruct (field_default d "role" VNone) as [| | | role | |] eqn:Hrole;
      try discriminate.
    + intros _. exists d, s.
      split; [reflexivity |]. split; [exact Hcid |]. split; [| now left].
      intros ->. discriminate.
    + destruct (str_in (lower role) membership_roles) eqn:Hin; cbn [negb];
        [| discriminate].
      intros _. exists d, s.
      split; [reflexivity |]. split; [exact Hcid |]. split.
      * intros ->. discriminate.
      * right. exists role. split; [exact Hrole |]. now apply str_in_In.
  - intros [d [cid [-> [Hcid [Hne Hrole]]]]]. rewrite Hcid.
    assert (Ht : truthy (VStr cid) = true).
    { cbn. destruct cid; [contradiction | reflexivity]. }
    rewrite Ht. cbn [negb].
    destruct Hrole as [-> | [role [-> Hin]]]; [reflexivity |].
    apply str_in_In in Hin. now rewrite Hin.
Qed.

Lemma app_nil_iff (A : Type) (xs ys : list A) :
  xs ++ ys = [] <-> xs = [] /\ ys = [].
Proof.
  split; [apply app_eq_nil | intros [-> ->]; reflexivity].
Qed.

Lemma validate_entries_nil (ms : list value) :
  forall idx seen,
    validate_entries idx seen ms = [] <->
    Forall well_formed_membership ms /\
    NoDup (map validated_class_id ms) /\
    (forall id, In id (map validated_class_id ms) -> ~ In id seen).
Proof.
  induction ms as [| m ms IH]; intros idx seen; cbn [validate_entries map].
  - split; [intros _ | reflexivity]. repeat split; [constructor | constructor |].
    intros id [].
  - pose proof (validate_class_membership_spec m) as Hspec.
    destruct (validate_class_membership m) as [is_valid error].
    cbn [fst] in Hspec. destruct is_valid; cbn [negb].
    + rewrite app_nil_iff, IH. split.
      * intros [Hdup [Hall [Hnd Hseen]]].
        assert (Hnot : ~ In (validated_class_id m) seen).
        { intros Hin. apply str_in_In in Hin. rewrite Hin in Hdup. discriminate. }
        repeat split.
        -- constructor; [now apply Hspec | exact Hall].
        -- constructor; [| exact Hnd].
           intros Hin. apply (Hseen _ Hin). now left.
        -- intros id [<- | Hin]; [exact Hnot |].
           intros Hs. apply (Hseen _ Hin). now right.
      * intros [Hall [Hnd Hseen]]. inversion Hall; subst. inversion Hnd; subst.
        repeat split.
        -- destruct (str_in (validated_class_id m) seen) eqn:Hin; [| reflexivity].
           apply str_in_In in Hin. exfalso. apply (Hseen _ (or_introl eq_refl) Hin).
        -- assumption.
        -- assumption.
        -- intros id Hin [<- | Hs]; [contradiction |].
           exact (Hseen _ (or_intror Hin) Hs).
    + split; [discriminate |]. intros [Hall _]. inversion Hall; subst.
      assert (false = true) by now apply Hspec. discriminate.
Qed.

(** X6. [validate_class_memberships_list] accepts a value exactly when it
    is a list of well-formed entries in which no class id occurs twice. *)
Theorem validate_list_accepts_iff (memberships : value) :
  fst (validate_class_memberships_list memberships) = true <->
  exists ms,
    memberships = VList ms /\
    Forall well_formed_membership ms /\
    NoDup (map validated_class_id ms).
Proof.
  unfold validate_class_memberships_list.
  destruct memberships as [| | | | ms |]; cbn [fst];
    try (split; [discriminate | intros [ms' [H _]]; discriminate]).
  split.
  - intros H. apply Nat.eqb_eq in H. apply length_zero_iff_nil in H.
    apply validate_entries_nil in H as [Hall [Hnd _]]. now exists ms.
  - intros [ms' [[= <-] [Hall Hnd]]].
    assert (H : validate_entries 0 [] ms = []).
    { apply validate_entries_nil. repeat split; auto. }
    now rewrite H.
Qed.

(** What the list source makes of well-formed entries. *)
Lemma canonical_of_well_formed (ms : list value) :
  Forall well_formed_membership ms ->
  Forall (fun e => truthy (field_default e "class_id" VNone) = true)
         (canonical_of_list ms) /\
  Forall (fun e => hashable (field_default e "role" VNone) = true)
         (canonical_of_list ms).
Proof.
  induction 1 as [| m ms [d [cid [-> [Hcid [Hne Hrole]]]]] _ [IH1 IH2]];
    [split; constructor |].
  cbn [canonical_of_list canonical_of_entry]. rewrite Hcid.
  split; constructor; try assumption.
  - cbn. destruct cid; [contradiction | reflexivity].
  - cbn -[field_default].
    unfold field_default, dict_get_default in *.
    destruct (assoc (VStr "role") d) as [r |]; [| reflexivity].
    destruct Hrole as [-> | [role [-> _]]]; reflexivity.
Qed.

(** X7. A record whose [class_memberships] is a non-empty list of entries
    the validator accepts is normalized without an exception, and the
    checker finds the result consistent. *)
Theorem validated_list_normalizes_consistently (user : dict) (ms : list value) :
  field user "class_memberships" = Some (VList ms) ->
  ms <> [] ->
  Forall (fun m => fst (validate_class_membership m) = true) ms ->
  exists u,
    normalize_class_memberships user = Ok u /\
    check_format_consistency u = Ok (true, []).
Proof.
  intros Hcm Hne Hvalid.
  assert (Hwf : Forall well_formed_membership ms).
  { apply Forall_forall. intros m Hm. apply validate_class_membership_spec.
    rewrite Forall_forall in Hvalid. now apply Hvalid. }
  destruct (canonical_of_well_formed ms Hwf) as [Hids Hroles].
  assert (Hcanon : canonical_memberships user = Ok (canonical_of_list ms)).
  { unfold canonical_memberships.
    rewrite (field_default_of_field _ _ _ _ Hcm).
    destruct ms; [contradiction | reflexivity]. }
  assert (Hhash : Forall (fun e => hashable (field_default e "class_id" VNone) = true)
                         (canonical_of_list ms)).
  { clear - Hwf. induction Hwf as [| m ms [d [cid [-> [Hcid _]]]] _ IH];
      [constructor |].
    cbn [canonical_of_list canonical_of_entry]. rewrite Hcid.
    constructor; [reflexivity | exact IH]. }
  pose proof (field_truthy _ _ _ Hcm) as Hnonempty.
  destruct (foldM_project_returns _ Hhash ([], [])) as [[cr ac] Hproj].
  assert (Hnorm : exists u, normalize_class_memberships user = Ok u).
  { unfold normalize_class_memberships. rewrite Hnonempty, Hcanon. cbn [negb bind].
    unfold project. rewrite Hproj. cbn [bind]. now eexists. }
  destruct Hnorm as [u Hu]. exists u. split; [exact Hu |].
  exact (check_after_normalize user u _ Hnonempty Hcanon Hids Hroles Hu).
Qed.

Lemma validated_list_normalizes_consistently_witness :
  exists u,
    normalize_class_memberships two_classes = Ok u /\
    check_format_consistency u = Ok (true, []).
Proof.
  apply (validated_list_normalizes_consistently two_classes
           [ VDict [ (VStr "class_id", VStr "cda"); (VStr "role", VStr "student") ];
             VDict [ (VStr "class_id", VStr "fhir22"); (VStr "role", VStr "ta") ] ]).
  - reflexivity.
  - discriminate.
  - repeat constructor.
Defined.

End ShapeFacts.

Module VerdictFacts.
Import ClassMembershipUtils Canonical PyFacts CheckerFacts Consistency Scenarios.

(** The class set of the first loop: the classes the list records. *)
Lemma scan_memberships_classes (ms : list value) :
  forall mc0 mr0 mc mr,
    foldM scan_membership (mc0, mr0) ms = Ok (mc, mr) ->
    Forall (fun x => hashable x = true) mc0 ->
    Forall (fun x => hashable x = true) mc /\
    forall k, set_mem k mc
              = set_mem k mc0
                || match recorded_role ms k with Some _ => true | None => false end.
Proof.
  induction ms as [| m ms IH]; intros mc0 mr0 mc mr; cbn [foldM recorded_role].
  - intros [= <- <-] H0. split; [exact H0 |]. intros k. now rewrite orb_false_r.
  - unfold scan_membership at 1.
    destruct m as [| | | | | d];
      try (cbn [bind]; intros H H0; destruct (IH _ _ _ _ H H0) as [Hh Hm];
           split; [exact Hh |]; intros k; rewrite Hm;
           now destruct (recorded_role ms k)).
    destruct (field d "class_id") as [cid |] eqn:Hcid.
    2:{ cbn [bind]. intros H H0. destruct (IH _ _ _ _ H H0) as [Hh Hm].
        split; [exact Hh |]. intros k. rewrite Hm.
        now destruct (recorded_role ms k). }
    unfold set_add, dict_setitem.
    destruct (hashable cid) eqn:Hh; cbn [bind]; [| discriminate].
    intros H H0.
    assert (H1 : Forall (fun x => hashable x = true)
                        (if set_mem cid mc0 then mc0 else mc0 ++ [cid])).
    { destruct (set_mem cid mc0); [exact H0 |].
      apply Forall_app. split; [exact H0 | now constructor]. }
    destruct (IH _ _ _ _ H H1) as [Hhash Hm].
    split; [exact Hhash |]. intros k. rewrite Hm, set_mem_insert.
    destruct (recorded_role ms k); [now rewrite !orb_true_r |].
    rewrite orb_false_r. now destruct (key_eq k cid).
Qed.

(** An empty comparison block: every class of the union is in the
    format. *)
Lemma compare_with_all_nil (format : string) (classes all_classes : list value) :
  compare_with_all format classes all_classes = [] ->
  forall x, In x all_classes -> set_mem x classes = true.
Proof.
  unfold compare_with_all.
  destruct (set_eq classes all_classes) eqn:Heq; cbn [negb].
  - intros _ x Hx. unfold set_eq in Heq. apply andb_true_iff in Heq as [_ Hsub].
    unfold set_subset in Hsub. rewrite forallb_forall in Hsub. now apply Hsub.
  - destruct (set_diff all_classes classes) as [| y missing] eqn:Hdiff;
      [| discriminate].
    intros _ x Hx. unfold set_diff in Hdiff.
    destruct (set_mem x classes) eqn:Hmem; [reflexivity |].
    assert (Hin : In x (filter (fun x => negb (set_mem x classes)) all_classes)).
    { apply filter_In. split; [exact Hx | now rewrite Hmem]. }
    rewrite Hdiff in Hin. contradiction.
Qed.

Lemma set_mem_transfer (all_classes classes : list value) :
  (forall x, In x all_classes -> set_mem x classes = true) ->
  forall y, set_mem y all_classes = true -> set_mem y classes = true.
Proof.
  intros Hall y Hy. unfold set_mem in Hy.
  apply existsb_exists in Hy as [z [Hz Hyz]].
  specialize (Hall z Hz). unfold set_mem in Hall.
  apply existsb_exists in Hall as [w [Hw Hzw]].
  unfold set_mem. apply existsb_exists. exists w. split; [exact Hw |].
  exact (key_eq_trans _ _ _ Hyz Hzw).
Qed.

Lemma role_mismatches_nil (mr items : dict) :
  role_mismatches mr items = [] ->
  forall k r1 r2, In (k, r2) items -> dict_get mr k = Some r1 -> py_eq r1 r2 = true.
Proof.
  intros Hnil k r1 r2 Hin Hget.
  destruct (py_eq r1 r2) eqn:Heq; [reflexivity |].
  assert (H : In (RoleMismatch k r1 r2) (role_mismatches mr items))
    by (apply role_mismatches_In; auto).
  rewrite Hnil in H. contradiction.
Qed.

(** X8. The verdict [is_consistent = True] is sound: the list, the
    mapping and the class list then name the same classes, and where list
    and mapping both record a role the two roles are equal. *)
Theorem consistent_verdict_is_sound
  (user : dict) (ms : list value) (items : dict) (cs : list value)
  (issues : list issue) :
  field_default user "class_memberships" (VList []) = VList ms ->
  field_default user "classRoles" (VDict []) = VDict items ->
  field_default user "accessible_classes" (VList []) = VList cs ->
  check_format_consistency user = Ok (true, issues) ->
  forall k,
    (recorded_role ms k <> None <-> set_mem k (dict_keys items) = true) /\
    (set_mem k (dict_keys items) = true <-> set_mem k (filter truthy cs) = true) /\
    (forall r1 r2, recorded_role ms k = Some r1 -> In (k, r2) items ->
                   py_eq r1 r2 = true).
Proof.
  intros Hms Hitems Hcs. unfold check_format_consistency.
  rewrite Hms, Hitems, Hcs.
  destruct (foldM scan_membership ([], []) ms) as [[mc mr] |] eqn:Hscan;
    cbn [bind]; [| discriminate].
  destruct (foldM set_add [] (filter truthy cs)) as [acc |] eqn:Hacc;
    cbn [bind]; [| discriminate].
  intros [= Hok _]. apply Nat.eqb_eq in Hok. apply length_zero_iff_nil in Hok.
  apply app_eq_nil in Hok as [H1 Hok]. apply app_eq_nil in Hok as [H2 Hok].
  apply app_eq_nil in Hok as [H3 H4].
  set (rc := set_union [] (dict_keys items)) in *.
  set (all := set_union (set_union mc rc) acc) in *.
  destruct (scan_memberships_classes _ _ _ _ _ Hscan (Forall_nil _)) as [_ Mmc].
  destruct (foldM_set_add _ _ _ Hacc (Forall_nil _)) as [_ Macc].
  pose proof (scan_memberships_roles _ _ _ _ _ Hscan) as Mroles.
  assert (Mrc : forall x, set_mem x rc = set_mem x (dict_keys items))
    by (intros x; unfold rc; now rewrite set_mem_union).
  assert (Mall : forall x, set_mem x all = set_mem x mc || set_mem x rc || set_mem x acc)
    by (intros x; unfold all; now rewrite !set_mem_union).
  pose proof (set_mem_transfer _ _ (compare_with_all_nil _ _ _ H1)) as T1.
  pose proof (set_mem_transfer _ _ (compare_with_all_nil _ _ _ H2)) as T2.
  pose proof (set_mem_transfer _ _ (compare_with_all_nil _ _ _ H3)) as T3.
  intros k.
  assert (Emc : set_mem k mc = true <-> recorded_role ms k <> None).
  { rewrite Mmc. cbn [set_mem existsb orb].
    destruct (recorded_role ms k); split; congruence. }
  assert (Eacc : set_mem k acc = true <-> set_mem k (filter truthy cs) = true)
    by (rewrite Macc; cbn [set_mem existsb orb]; tauto).
  assert (Hall : forall X, set_mem k all = true -> X = true -> True) by auto.
  split; [| split].
  - rewrite <- Emc, <- Mrc. split; intros H.
    + apply T2. rewrite Mall, H. reflexivity.
    + apply T1. rewrite Mall, H. now rewrite orb_true_r.
  - rewrite <- Eacc, <- Mrc. split; intros H.
    + apply T3. rewrite Mall, H. now rewrite orb_true_r.
    + apply T2. rewrite Mall, H. now rewrite orb_true_r.
  - intros r1 r2 Hrec Hin.
    apply (role_mismatches_nil _ _ H4 k r1 r2 Hin).
    rewrite Mroles, Hrec. reflexivity.
Qed.

Lemma consistent_verdict_is_sound_witness :
  check_format_consistency
    [ (VStr "class_memberships",
       VList [ VDict [ (VStr "class_id", VStr "x"); (VStr "role", VStr "ta") ] ]);
      (VStr "classRoles", VDict [ (VStr "x", VStr "ta") ]);
      (VStr "accessible_classes", VList [ VStr "x" ]) ] = Ok (true, []) /\
  forall k,
    (recorded_role
       [ VDict [ (VStr "class_id", VStr "x"); (VStr "role", VStr "ta") ] ] k <> None
     <-> set_mem k (dict_keys [ (VStr "x", VStr "ta") ]) = true) /\
    (set_mem k (dict_keys [ (VStr "x", VStr "ta") ]) = true
     <-> set_mem k (filter truthy [ VStr "x" ]) = true) /\
    (forall r1 r2,
        recorded_role
          [ VDict [ (VStr "class_id", VStr "x"); (VStr "role", VStr "ta") ] ] k
        = Some r1 ->
        In (k, r2) [ (VStr "x", VStr "ta") ] -> py_eq r1 r2 = true).
Proof.
  split; [reflexivity |].
  apply (consistent_verdict_is_sound
           [ (VStr "class_memberships",
              VList [ VDict [ (VStr "class_id", VStr "x"); (VStr "role", VStr "ta") ] ]);
             (VStr "classRoles", VDict [ (VStr "x", VStr "ta") ]);
             (VStr "accessible_classes", VList [ VStr "x" ]) ]
           _ _ _ []); reflexivity.
Defined.

Lemma set_diff_subset (a b : list value) :
  (forall x, In x a -> set_mem x b = true) -> set_diff a b = [].
Proof.
  intros H. unfold set_diff. induction a as [| x a IH]; [reflexivity |].
  cbn [filter]. rewrite (H x (or_introl eq_refl)). cbn [negb].
  apply IH. intros y Hy. apply H. now right.
Qed.

Lemma compare_with_all_no_extra (format : string) (classes all_classes : list value)
  (f : string) (e : list value) :
  (forall x, In x classes -> set_mem x all_classes = true) ->
  ~ In (ExtraClasses f e) (compare_with_all format classes all_classes).
Proof.
  intros Hsub. unfold compare_with_all.
  destruct (negb (set_eq classes all_classes)); [| intros []].
  rewrite (set_diff_subset classes all_classes Hsub). cbn [truthy].
  rewrite app_nil_r.
  destruct (set_diff all_classes classes); [intros [] |].
  intros [H | []]. discriminate H.
Qed.

Lemma set_mem_self (s : list value) :
  Forall (fun x => hashable x = true) s ->
  forall x, In x s -> set_mem x s = true.
Proof.
  intros Hs x Hx. unfold set_mem. apply existsb_exists. exists x.
  split; [assumption |]. apply hashable_key_eq_refl.
  rewrite Forall_forall in Hs. now apply Hs.
Qed.

Lemma role_mismatches_no_extra (mr items : dict) (f : string) (e : list value) :
  ~ In (ExtraClasses f e) (role_mismatches mr items).
Proof.
  induction items as [| [k r] items IH]; cbn [role_mismatches]; [intros [] |].
  destruct (dict_get mr k); [| exact IH].
  destruct (negb (py_eq v r)); [| exact IH].
  intros [H | H]; [discriminate | now apply IH].
Qed.

(** X9. The checker never reports extra classes: each format is compared
    with the union of all three, so only missing classes and role
    mismatches can come out. *)
Theorem checker_never_reports_extra
  (user : dict) (ok : bool) (issues : list issue) :
  (forall items, field user "classRoles" = Some (VDict items) ->
                 Forall (fun kv => hashable (fst kv) = true) items) ->
  check_format_consistency user = Ok (ok, issues) ->
  forall format extra, ~ In (ExtraClasses format extra) issues.
Proof.
  intros Hkeys. unfold check_format_consistency.
  destruct (match field_default user "class_memberships" (VList []) with
            | VList ms => foldM scan_membership ([], []) ms
            | _ => Ok ([], [])
            end) as [[mc mr] |] eqn:Hscan; cbn [bind]; [| discriminate].
  destruct (match field_default user "accessible_classes" (VList []) with
            | VList cs => foldM set_add [] (filter truthy cs)
            | _ => Ok []
            end) as [acc |] eqn:Hacc; cbn [bind]; [| discriminate].
  intros [= _ <-] format extra.
  set (rc := match field_default user "classRoles" (VDict []) with
             | VDict items => set_union [] (dict_keys items)
             | _ => []
             end).
  assert (Hmc : Forall (fun x => hashable x = true) mc).
  { destruct (field_default user "class_memberships" (VList []));
      try (injection Hscan as <- _; constructor).
    now destruct (scan_memberships_classes _ _ _ _ _ Hscan (Forall_nil _)). }
  assert (Hac : Forall (fun x => hashable x = true) acc).
  { destruct (field_default user "accessible_classes" (VList []));
      try (injection Hacc as <-; constructor).
    now destruct (foldM_set_add _ _ _ Hacc (Forall_nil _)). }
  assert (Hrc : Forall (fun x => hashable x = true) rc).
  { unfold rc, field_default, dict_get_default.
    unfold field, dict_get in Hkeys.
    destruct (assoc (VStr "classRoles") user) as [v |]; [| constructor].
    destruct v; try constructor.
    apply set_union_hashable; [constructor |].
    specialize (Hkeys items eq_refl). unfold dict_keys.
    rewrite Forall_map. exact Hkeys. }
  rewrite !in_app_iff. intros [H | [H | [H | H]]].
  - revert H. apply compare_with_all_no_extra. intros x Hx.
    rewrite !set_mem_union. now rewrite (set_mem_self mc Hmc x Hx).
  - revert H. apply compare_with_all_no_extra. intros x Hx.
    rewrite !set_mem_union. fold rc. rewrite (set_mem_self rc Hrc x Hx).
    now rewrite orb_true_r.
  - revert H. apply compare_with_all_no_extra. intros x Hx.
    rewrite !set_mem_union. rewrite (set_mem_self acc Hac x Hx).
    now rewrite orb_true_r.
  - destruct (field_default user "classRoles" (VDict [])); try contradiction.
    now apply role_mismatches_no_extra in H.
Qed.

Lemma checker_never_reports_extra_witness :
  check_format_consistency ta_versus_instructor
  = Ok (false, [ MissingClasses "accessible_classes" [VStr "x"];
                 RoleMismatch (VStr "x") (VStr "ta") (VStr "instructor") ]) /\
  forall format extra,
    ~ In (ExtraClasses format extra)
         [ MissingClasses "accessible_classes" [VStr "x"];
           RoleMismatch (VStr "x") (VStr "ta") (VStr "instructor") ].
Proof.
  split; [reflexivity |].
  apply (checker_never_reports_extra ta_versus_instructor false).
  - intros items [= <-]. repeat constructor.
  - reflexivity.
Defined.

End VerdictFacts.

(** ** Adding and removing a membership *)

Module EditFacts.
Import ClassMembershipUtils MembershipOperations Canonical Shapes PyFacts
       NormalizeFacts CheckerFacts Consistency MoreScenarios.

(** The index search followed by the assignment or the append. *)
Lemma existing_index_upsert (new : value) (class_id : string) (ms : list value) :
  forall idx,
    match existing_index idx ms class_id with
    | Some j => idx <= j /\ list_set (j - idx) new ms = upsert_entry ms class_id new
    | None => ms ++ [new] = upsert_entry ms class_id new
    end.
Proof.
  induction ms as [| m ms IH]; intros idx; cbn [existing_index upsert_entry];
    [reflexivity |].
  destruct (is_entry_for class_id m).
  - split; [lia |]. now rewrite Nat.sub_diag.
  - specialize (IH (S idx)).
    destruct (existing_index (S idx) ms class_id) as [j |].
    + destruct IH as [Hle Heq]. split; [lia |].
      replace (j - idx) with (S (j - S idx)) by lia.
      cbn [list_set]. now rewrite Heq.
    + cbn [app]. now rewrite IH.
Qed.

(** The record a successful normalization returns. *)
Lemma normalize_inv (user u : dict) :
  truthy (VDict user) = true ->
  normalize_class_memberships user = Ok u ->
  exists c cr,
    canonical_memberships user = Ok c /\
    Forall canonical_entry c /\
    project c = Ok (cr, map (fun e => field_default e "class_id" VNone) c) /\
    u = set_field
          (set_field
             (set_field user "class_memberships" (VList (map VDict c)))
             "classRoles" (VDict cr))
          "accessible_classes"
          (VList (map (fun e => field_default e "class_id" VNone) c)).
Proof.
  intros Hne. unfold normalize_class_memberships. rewrite Hne. cbn [negb].
  destruct (canonical_memberships user) as [c |] eqn:Hcanon; cbn [bind];
    [| discriminate].
  destruct (project c) as [[cr ac] |] eqn:Hproj; cbn [bind]; [| discriminate].
  intros [= <-]. exists c, cr.
  pose proof Hproj as Hproj'. unfold project in Hproj'.
  destruct (foldM_project_result _ _ _ _ _ Hproj') as [Hac _]. cbn [app] in Hac.
  subst ac. repeat split; auto.
  exact (canonical_memberships_entries _ _ Hcanon).
Qed.

(** What [add_class_membership] returns, in terms of the normalized
    record. *)
Lemma add_class_membership_inv
  (now : string) (user u' : dict) (class_id role : string) (assigned_by : value) :
  truthy (VDict user) = true ->
  add_class_membership now user class_id role assigned_by = Ok u' ->
  exists u c cr,
    normalize_class_memberships user = Ok u /\
    canonical_memberships user = Ok c /\
    Forall canonical_entry c /\
    project c = Ok (cr, map (fun e => field_default e "class_id" VNone) c) /\
    field u "class_memberships" = Some (VList (map VDict c)) /\
    field u "classRoles" = Some (VDict cr) /\
    field u "accessible_classes"
    = Some (VList (map (fun e => field_default e "class_id" VNone) c)) /\
    u' = set_field
           (set_field
              (set_field u "class_memberships"
                 (VList (upsert_entry (map VDict c) class_id
                           (VDict (entry4 (VStr class_id) (VStr role) (VStr now)
                                          assigned_by)))))
              "classRoles" (VDict (dict_set cr (VStr class_id) (VStr role))))
           "accessible_classes"
           (VList (if existsb (py_eq (VStr class_id))
                        (map (fun e => field_default e "class_id" VNone) c)
                   then map (fun e => field_default e "class_id" VNone) c
                   else map (fun e => field_default e "class_id" VNone) c
                        ++ [VStr class_id])).
Proof.
  intros Hne. unfold add_class_membership. rewrite Hne. cbn [negb].
  destruct (normalize_class_memberships user) as [u |] eqn:Hnorm; cbn [bind];
    [| discriminate].
  destruct (normalize_inv user u Hne Hnorm) as [c [cr [Hcanon [Hc [Hproj Hu]]]]].
  assert (Hcm : field u "class_memberships" = Some (VList (map VDict c)))
    by (subst u; now rewrite !field_set_field).
  assert (Hcr : field u "classRoles" = Some (VDict cr))
    by (subst u; now rewrite !field_set_field).
  assert (Hac : field u "accessible_classes"
                = Some (VList (map (fun e => field_default e "class_id" VNone) c)))
    by (subst u; now rewrite !field_set_field).
  rewrite (field_default_of_field _ _ _ _ Hcm),
          (field_default_of_field _ _ _ _ Hcr),
          (field_default_of_field _ _ _ _ Hac).
  intros [= <-]. exists u, c, cr. repeat split; auto.
  pose proof (existing_index_upsert
                (VDict (entry4 (VStr class_id) (VStr role) (VStr now) assigned_by))
                class_id (map VDict c) 0) as Hup.
  unfold entry4 in *.
  destruct (existing_index 0 (map VDict c) class_id) as [j |].
  - destruct Hup as [_ Hup]. rewrite Nat.sub_0_r in Hup. now rewrite Hup.
  - now rewrite Hup.
Qed.

(** Equality with a string, either way round. *)
Lemma py_eq_str_sym (s : string) (v : value) : py_eq (VStr s) v = py_eq v (VStr s).
Proof. destruct v; cbn; try reflexivity. apply String.eqb_sym. Qed.

Lemma py_eq_str_true (s : string) (v : value) :
  py_eq v (VStr s) = true -> v = VStr s.
Proof.
  destruct v; cbn; try discriminate. intros H.
  apply String.eqb_eq in H. now subst.
Qed.

(** The first entry for the class after the upsert is the new one. *)
Lemma role_of_first_entry_upsert (ms : list value) (class_id : string) (d : dict) :
  field_default d "class_id" VNone = VStr class_id ->
  role_of_first_entry (upsert_entry ms class_id (VDict d)) class_id
  = Some (field_default d "role" student).
Proof.
  intros Hd.
  assert (Hnew : py_eq (field_default d "class_id" VNone) (VStr class_id) = true)
    by (rewrite Hd; cbn; apply String.eqb_refl).
  induction ms as [| m ms IH]; cbn [upsert_entry role_of_first_entry].
  - now rewrite Hnew.
  - destruct (is_entry_for class_id m) eqn:Hm; cbn [role_of_first_entry].
    + now rewrite Hnew.
    + destruct m; try exact IH. cbn in Hm. now rewrite Hm.
Qed.

(** For another class the first entry is the one it was. *)
Lemma role_of_first_entry_upsert_other
  (ms : list value) (class_id other : string) (d : dict) :
  other <> class_id ->
  field_default d "class_id" VNone = VStr class_id ->
  role_of_first_entry (upsert_entry ms class_id (VDict d)) other
  = role_of_first_entry ms other.
Proof.
  intros Hneq Hd.
  assert (Hnew : py_eq (field_default d "class_id" VNone) (VStr other) = false).
  { rewrite Hd. cbn. apply String.eqb_neq. congruence. }
  induction ms as [| m ms IH]; cbn [upsert_entry role_of_first_entry].
  - now rewrite Hnew.
  - destruct (is_entry_for class_id m) eqn:Hm; cbn [role_of_first_entry].
    + rewrite Hnew. destruct m; try discriminate. cbn in Hm.
      apply py_eq_str_true in Hm. rewrite Hm. cbn.
      assert ((class_id =? other) = false) by (apply String.eqb_neq; congruence).
      now rewrite H.
    + destruct m; try exact IH.
      destruct (py_eq (field_default items "class_id" VNone) (VStr other));
        [reflexivity | exact IH].
Qed.

(** X10. After [add_class_membership] the lookup finds the role that was
    given, in the list, in the mapping and in the class list. *)
Theorem add_then_lookup
  (now : string) (user u' : dict) (class_id role : string) (assigned_by : value) :
  truthy (VDict user) = true ->
  class_id <> "" ->
  add_class_membership now user class_id role assigned_by = Ok u' ->
  get_user_role_for_class u' class_id = VStr role /\
  (exists class_roles, field u' "classRoles" = Some (VDict class_roles) /\
                       field class_roles class_id = Some (VStr role)) /\
  (exists cs, field u' "accessible_classes" = Some (VList cs) /\
              existsb (py_eq (VStr class_id)) cs = true).
Proof.
  intros Hne Hk Hadd.
  destruct (add_class_membership_inv _ _ _ _ _ _ Hne Hadd)
    as [u [c [cr [_ [_ [_ [_ [Hcm [Hcr [Hac ->]]]]]]]]]].
  split; [| split].
  - unfold get_user_role_for_class. rewrite set_field_truthy.
    assert (Ht : truthy (VStr class_id) = true)
      by (cbn; destruct class_id; [contradiction | reflexivity]).
    rewrite Ht. cbn [negb orb].
    rewrite !field_default_set_field. cbn -[upsert_entry role_of_first_entry entry4].
    now rewrite role_of_first_entry_upsert.
  - eexists. split; [now rewrite !field_set_field |].
    unfold field, dict_get. rewrite assoc_dict_set by (cbn; apply String.eqb_refl).
    cbn. now rewrite String.eqb_refl.
  - eexists. split; [now rewrite !field_set_field |].
    destruct (existsb (py_eq (VStr class_id)) _) eqn:Hin; [exact Hin |].
    rewrite existsb_app. cbn. rewrite String.eqb_refl. now rewrite orb_true_r.
Qed.

Lemma add_then_lookup_witness :
  exists u',
    add_class_membership "2024-01-01T00:00:00" two_classes "ohdsi24" "instructor"
      (VStr "root") = Ok u' /\
    get_user_role_for_class u' "ohdsi24" = VStr "instructor".
Proof.
  eexists. split; [reflexivity |].
  apply (add_then_lookup "2024-01-01T00:00:00" two_classes _ "ohdsi24" "instructor"
           (VStr "root")).
  - reflexivity.
  - discriminate.
  - reflexivity.
Defined.

(** The lookup reads the three fields only. *)
Lemma get_user_role_for_class_fields (u w : dict) (class_id : string) :
  truthy (VDict u) = truthy (VDict w) ->
  field_default u "class_memberships" (VList [])
  = field_default w "class_memberships" (VList []) ->
  field_default u "classRoles" (VDict []) = field_default w "classRoles" (VDict []) ->
  field_default u "accessible_classes" (VList [])
  = field_default w "accessible_classes" (VList []) ->
  get_user_role_for_class u class_id = get_user_role_for_class w class_id.
Proof.
  intros H0 H1 H2 H3. unfold get_user_role_for_class. now rewrite H0, H1, H2, H3.
Qed.

(** X11. [add_class_membership] leaves every other class alone: for a
    class other than the one added, the lookup answers what it answers on
    the normalized record. *)
Theorem add_keeps_other_classes
  (now : string) (user u u' : dict) (class_id other role : string)
  (assigned_by : value) :
  truthy (VDict user) = true ->
  other <> class_id ->
  normalize_class_memberships user = Ok u ->
  add_class_membership now user class_id role assigned_by = Ok u' ->
  get_user_role_for_class u' other = get_user_role_for_class u other.
Proof.
  intros Hne Hother Hnorm Hadd.
  destruct (add_class_membership_inv _ _ _ _ _ _ Hne Hadd)
    as [u0 [c [cr [Hnorm0 [_ [_ [_ [Hcm [Hcr [Hac ->]]]]]]]]]].
  rewrite Hnorm in Hnorm0. injection Hnorm0 as <-.
  unfold get_user_role_for_class.
  rewrite set_field_truthy, (field_truthy _ _ _ Hcm).
  rewrite !field_default_set_field.
  rewrite (field_default_of_field _ _ _ _ Hcm),
          (field_default_of_field _ _ _ _ Hcr),
          (field_default_of_field _ _ _ _ Hac).
  cbn [negb orb String.eqb Ascii.eqb Bool.eqb].
  rewrite role_of_first_entry_upsert_other by (auto; reflexivity).
  destruct (negb (truthy (VStr other))); [reflexivity |].
  destruct (role_of_first_entry (map VDict c) other); [reflexivity |].
  assert (Hfield : field (dict_set cr (VStr class_id) (VStr role)) other
                   = field cr other).
  { unfold field, dict_get. rewrite assoc_dict_set by (cbn; apply String.eqb_refl).
    cbn [key_eq]. apply String.eqb_neq in Hother. now rewrite Hother. }
  rewrite Hfield. destruct (field cr other); [reflexivity |].
  destruct (existsb (py_eq (VStr class_id)) _); [reflexivity |].
  rewrite existsb_app. cbn [existsb py_eq key_eq].
  apply String.eqb_neq in Hother. rewrite Hother. now rewrite !orb_false_r.
Qed.

Lemma add_keeps_other_classes_witness :
  exists u u',
    normalize_class_memberships two_classes = Ok u /\
    add_class_membership "2024-01-01T00:00:00" two_classes "cda" "instructor"
      (VStr "root") = Ok u' /\
    get_user_role_for_class u' "fhir22" = get_user_role_for_class u "fhir22".
Proof.
  do 2 eexists. split; [reflexivity |]. split; [reflexivity |].
  apply (add_keeps_other_classes "2024-01-01T00:00:00" two_classes _ _ "cda" "fhir22"
           "instructor" (VStr "root")).
  - reflexivity.
  - discriminate.
  - reflexivity.
  - reflexivity.
Defined.

Lemma entries_for_upsert (ms : list value) (class_id : string) (d : dict) :
  field_default d "class_id" VNone = VStr class_id ->
  entries_for class_id (upsert_entry ms class_id (VDict d))
  = Nat.max 1 (entries_for class_id ms).
Proof.
  intros Hd. unfold entries_for.
  assert (Hnew : is_entry_for class_id (VDict d) = true)
    by (cbn; rewrite Hd; cbn; apply String.eqb_refl).
  induction ms as [| m ms IH]; cbn [upsert_entry filter].
  - now rewrite Hnew.
  - destruct (is_entry_for class_id m) eqn:Hm; cbn [filter].
    + rewrite Hnew. cbn [List.length]. lia.
    + rewrite Hm. exact IH.
Qed.

(** X12. [add_class_membership] is an upsert: the list gets one entry for
    the class when it had none, and keeps the number it had otherwise. *)
Theorem add_is_an_upsert
  (now : string) (user u u' : dict) (class_id role : string) (assigned_by : value)
  (ms : list value) :
  truthy (VDict user) = true ->
  normalize_class_memberships user = Ok u ->
  field u "class_memberships" = Some (VList ms) ->
  add_class_membership now user class_id role assigned_by = Ok u' ->
  exists ms',
    field u' "class_memberships" = Some (VList ms') /\
    entries_for class_id ms' = Nat.max 1 (entries_for class_id ms) /\
    List.length ms'
    = List.length ms + (if existsb (is_entry_for class_id) ms then 0 else 1).
Proof.
  intros Hne Hnorm Hms Hadd.
  destruct (add_class_membership_inv _ _ _ _ _ _ Hne Hadd)
    as [u0 [c [cr [Hnorm0 [_ [_ [_ [Hcm [_ [_ ->]]]]]]]]]].
  rewrite Hnorm in Hnorm0. injection Hnorm0 as <-.
  rewrite Hms in Hcm. injection Hcm as ->.
  eexists. split; [now rewrite !field_set_field |]. split.
  - now apply entries_for_upsert.
  - generalize (map VDict c) as l. intros l.
    induction l as [| m l IH]; cbn [upsert_entry existsb List.length];
      [reflexivity |].
    destruct (is_entry_for class_id m); cbn [orb List.length]; [lia |].
    rewrite IH. lia.
Qed.

Lemma add_is_an_upsert_witness :
  exists u' ms',
    add_class_membership "2024-01-01T00:00:00" two_classes "cda" "ta" VNone = Ok u' /\
    field u' "class_memberships" = Some (VList ms') /\
    List.length ms' = 2.
Proof.
  destruct (add_is_an_upsert "2024-01-01T00:00:00" two_classes
              (set_field
                 (set_field
                    (set_field two_classes "class_memberships"
                       (VList [ VDict (entry4 (VStr "cda") (VStr "student") VNone VNone);
                                VDict (entry4 (VStr "fhir22") (VStr "ta") VNone VNone) ]))
                    "classRoles"
                    (VDict [ (VStr "cda", VStr "student"); (VStr "fhir22", VStr "ta") ]))
                 "accessible_classes" (VList [ VStr "cda"; VStr "fhir22" ]))
              _ "cda" "ta" VNone
              [ VDict (entry4 (VStr "cda") (VStr "student") VNone VNone);
                VDict (entry4 (VStr "fhir22") (VStr "ta") VNone VNone) ]
              eq_refl eq_refl eq_refl eq_refl)
    as [ms' [Hms' [_ Hlen]]].
  eexists. exists ms'. split; [reflexivity |]. split; [exact Hms' | exact Hlen].
Defined.

(** The list comprehension of [remove_class_membership] leaves no entry for
    the class. *)
Lemma role_of_first_entry_filter (ms : list value) (class_id : string) :
  role_of_first_entry (filter (fun m => negb (is_entry_for class_id m)) ms) class_id
  = None.
Proof.
  induction ms as [| m ms IH]; [reflexivity |].
  cbn [filter]. destruct m as [| | | | | d]; cbn [is_entry_for negb role_of_first_entry];
    try exact IH.
  destruct (py_eq (field_default d "class_id" VNone) (VStr class_id)) eqn:Hm;
    cbn [negb role_of_first_entry]; [exact IH |].
  now rewrite Hm.
Qed.

(** [del d[k]] on a dict removes the key. *)
Lemma field_dict_del (d : dict) (name : string) :
  distinct_keys d = true -> field (dict_del d (VStr name)) name = None.
Proof.
  unfold field, dict_get.
  induction d as [| [k v] d IH]; [reflexivity |].
  cbn [distinct_keys dict_del]. intros H. apply andb_prop in H as [Hk Hd].
  destruct (key_eq (VStr name) k) eqn:Hname.
  - apply key_eq_name in Hname. subst k. unfold dict_mem in Hk.
    now destruct (assoc (VStr name) d).
  - cbn [assoc]. rewrite Hname. now apply IH.
Qed.

Lemma field_not_mem (d : dict) (name : string) :
  dict_mem d (VStr name) = false -> field d name = None.
Proof. unfold dict_mem, field, dict_get. now destruct (assoc (VStr name) d). Qed.

(** [xs.remove(x)] takes the first occurrence only. *)
Lemma occurrences_none (x : value) (xs : list value) :
  occurrences x xs = 0 <-> existsb (py_eq x) xs = false.
Proof.
  unfold occurrences. induction xs as [| y xs IH]; [easy |].
  cbn [filter existsb]. destruct (py_eq x y); cbn [List.length orb]; [easy | exact IH].
Qed.

Lemma occurrences_list_remove (x : value) (xs : list value) :
  occurrences x (list_remove x xs) = pred (occurrences x xs).
Proof.
  unfold occurrences. induction xs as [| y xs IH]; [reflexivity |].
  cbn [list_remove filter]. destruct (py_eq x y) eqn:Hy; [reflexivity |].
  cbn [filter]. rewrite Hy. exact IH.
Qed.

(** What [remove_class_membership] leaves in the three fields. *)
Lemma remove_class_membership_fields (user : dict) (class_id : string) :
  truthy (VDict user) = true ->
  truthy (VDict (remove_class_membership user class_id)) = true /\
  field_default (remove_class_membership user class_id) "class_memberships" (VList [])
  = match field_default user "class_memberships" (VList []) with
    | VList ms => VList (filter (fun m => negb (is_entry_for class_id m)) ms)
    | v => v
    end /\
  field_default (remove_class_membership user class_id) "classRoles" (VDict [])
  = match field_default user "classRoles" (VDict []) with
    | VDict class_roles =>
        VDict (if dict_mem class_roles (VStr class_id)
               then dict_del class_roles (VStr class_id) else class_roles)
    | v => v
    end /\
  field_default (remove_class_membership user class_id) "accessible_classes" (VList [])
  = match field_default user "accessible_classes" (VList []) with
    | VList cs =>
        VList (if existsb (py_eq (VStr class_id)) cs
               then list_remove (VStr class_id) cs else cs)
    | v => v
    end.
Proof.
  intros Hne. unfold remove_class_membership. rewrite Hne. cbn [negb].
  destruct (field_default user "class_memberships" (VList [])) as [| | | | ms |] eqn:Hcm;
    rewrite ?field_default_set_field; cbn [String.eqb Ascii.eqb Bool.eqb];
    (destruct (field_default user "classRoles" (VDict [])) as [| | | | | cr] eqn:Hcr;
     [| | | | |
      destruct (dict_mem cr (VStr class_id))];
     rewrite ?field_default_set_field; cbn [String.eqb Ascii.eqb Bool.eqb];
     (destruct (field_default user "accessible_classes" (VList []))
        as [| | | | cs |] eqn:Hac;
      [| | | |
       destruct (existsb (py_eq (VStr class_id)) cs) |];
      rewrite ?field_default_set_field, ?set_field_truthy, ?Hne, ?Hcm, ?Hcr, ?Hac;
      cbn [String.eqb Ascii.eqb Bool.eqb];
      rewrite ?Hcm, ?Hcr, ?Hac; auto)).
Qed.

(** X13. After [remove_class_membership] the lookup answers [None] for the
    class, provided [accessible_classes] names it at most once
    ([classRoles], a Python dict, has no key twice). *)
Theorem remove_then_lookup (user : dict) (class_id : string) :
  (forall class_roles, field_default user "classRoles" (VDict []) = VDict class_roles ->
                       distinct_keys class_roles = true) ->
  (forall cs, field_default user "accessible_classes" (VList []) = VList cs ->
              occurrences (VStr class_id) cs <= 1) ->
  get_user_role_for_class (remove_class_membership user class_id) class_id = VNone.
Proof.
  intros Hdistinct Honce.
  destruct (truthy (VDict user)) eqn:Hne.
  - destruct (remove_class_membership_fields user class_id Hne)
      as [Ht [Hcm [Hcr Hac]]].
    unfold get_user_role_for_class. rewrite Ht, Hcm, Hcr, Hac. cbn [negb orb].
    destruct (negb (truthy (VStr class_id))); [reflexivity |].
    assert (H1 : match
                   match field_default user "class_memberships" (VList []) with
                   | VList ms =>
                       VList (filter (fun m => negb (is_entry_for class_id m)) ms)
                   | v => v
                   end
                 with
                 | VList class_memberships =>
                     role_of_first_entry class_memberships class_id
                 | _ => None
                 end = None).
    { destruct (field_default user "class_memberships" (VList [])); try reflexivity.
      apply role_of_first_entry_filter. }
    rewrite H1.
    assert (H2 : match
                   match field_default user "classRoles" (VDict []) with
                   | VDict class_roles =>
                       VDict (if dict_mem class_roles (VStr class_id)
                              then dict_del class_roles (VStr class_id)
                              else class_roles)
                   | v => v
                   end
                 with
                 | VDict class_roles => field class_roles class_id
                 | _ => None
                 end = None).
    { destruct (field_default user "classRoles" (VDict [])) as [| | | | | cr];
        try reflexivity.
      destruct (dict_mem cr (VStr class_id)) eqn:Hmem.
      - apply field_dict_del. now apply Hdistinct.
      - now apply field_not_mem. }
    rewrite H2.
    destruct (field_default user "accessible_classes" (VList [])) as [| | | | cs |];
      try reflexivity.
    specialize (Honce cs eq_refl).
    destruct (existsb (py_eq (VStr class_id)) cs) eqn:Hin.
    + assert (H3 : existsb (py_eq (VStr class_id)) (list_remove (VStr class_id) cs)
                   = false).
      { apply occurrences_none. rewrite occurrences_list_remove. lia. }
      now rewrite H3.
    + now rewrite Hin.
  - unfold remove_class_membership. rewrite Hne. cbn [negb].
    unfold get_user_role_for_class. now rewrite Hne.
Qed.

Lemma remove_then_lookup_witness :
  get_user_role_for_class two_classes "cda" = VStr "student" /\
  get_user_role_for_class (remove_class_membership two_classes "cda") "cda" = VNone.
Proof.
  split; [reflexivity |].
  apply (remove_then_lookup two_classes "cda").
  - intros class_roles [= <-]. reflexivity.
  - intros cs [= <-]. cbn. lia.
Defined.

(** X14. [list.remove] takes one occurrence: when [accessible_classes]
    names the class twice or more, the class is still answered with
    [student] after [remove_class_membership]. *)
Theorem remove_leaves_second_occurrence (user : dict) (class_id : string)
  (cs : list value) :
  class_id <> "" ->
  field user "accessible_classes" = Some (VList cs) ->
  2 <= occurrences (VStr class_id) cs ->
  (forall class_roles, field_default user "classRoles" (VDict []) = VDict class_roles ->
                       distinct_keys class_roles = true) ->
  get_user_role_for_class (remove_class_membership user class_id) class_id = student.
Proof.
  intros Hk Hcs Htwice Hdistinct.
  pose proof (field_truthy _ _ _ Hcs) as Hne.
  destruct (remove_class_membership_fields user class_id Hne)
    as [Ht [Hcm [Hcr Hac]]].
  unfold get_user_role_for_class. rewrite Ht, Hcm, Hcr, Hac. cbn [negb orb].
  assert (Hkt : truthy (VStr class_id) = true)
    by (cbn; destruct class_id; [contradiction | reflexivity]).
  rewrite Hkt. cbn [negb].
  assert (H1 : match
                 match field_default user "class_memberships" (VList []) with
                 | VList ms =>
                     VList (filter (fun m => negb (is_entry_for class_id m)) ms)
                 | v => v
                 end
               with
               | VList class_memberships =>
                   role_of_first_entry class_memberships class_id
               | _ => None
               end = None).
  { destruct (field_default user "class_memberships" (VList [])); try reflexivity.
    apply role_of_first_entry_filter. }
  rewrite H1.
  assert (H2 : match
                 match field_default user "classRoles" (VDict []) with
                 | VDict class_roles =>
                     VDict (if dict_mem class_roles (VStr class_id)
                            then dict_del class_roles (VStr class_id)
                            else class_roles)
                 | v => v
                 end
               with
               | VDict class_roles => field class_roles class_id
               | _ => None
               end = None).
  { destruct (field_default user "classRoles" (VDict [])) as [| | | | | cr] eqn:Hd;
      try reflexivity.
    destruct (dict_mem cr (VStr class_id)) eqn:Hmem.
    - apply field_dict_del. now apply Hdistinct.
    - now apply field_not_mem. }
  rewrite H2.
  rewrite (field_default_of_field _ _ _ _ Hcs).
  assert (Hin : existsb (py_eq (VStr class_id)) cs = true).
  { destruct (existsb (py_eq (VStr class_id)) cs) eqn:E; [reflexivity |].
    apply occurrences_none in E. lia. }
  rewrite Hin.
  assert (H3 : existsb (py_eq (VStr class_id)) (list_remove (VStr class_id) cs) = true).
  { destruct (existsb (py_eq (VStr class_id)) (list_remove (VStr class_id) cs)) eqn:E;
      [reflexivity |].
    apply occurrences_none in E. rewrite occurrences_list_remove in E. lia. }
  now rewrite H3.
Qed.

Lemma remove_leaves_second_occurrence_witness :
  get_user_role_for_class
    (remove_class_membership
       [ (VStr "accessible_classes", VList [ VStr "cda"; VStr "cda" ]) ] "cda") "cda"
  = student.
Proof.
  apply (remove_leaves_second_occurrence _ "cda" [ VStr "cda"; VStr "cda" ]).
  - discriminate.
  - reflexivity.
  - cbn. lia.
  - intros class_roles [= <-]. reflexivity.
Defined.

End EditFacts.

(** ** The classes a user manages *)

Module ManagedFacts.
Import ClassAuth ClassRoleOperations PyFacts Scenarios.

(** Raising the minimum level only drops classes, in each of the three
    loops. *)
Lemma managed_in_list_monotone (a b : nat) (ms l1 : list value) :
  a <= b ->
  managed_in_list a ms = Ok l1 ->
  exists l2, managed_in_list b ms = Ok l2 /\ incl l2 l1.
Proof.
  intros Hab. revert l1.
  induction ms as [| m ms IH]; intros l1; cbn [managed_in_list].
  - intros [= <-]. exists []. split; [reflexivity | apply incl_refl].
  - destruct m as [| | | | | d]; try apply IH.
    destruct (py_lower (field_default d "role" (VStr ""))) as [role |];
      cbn [bind]; [| discriminate].
    destruct (managed_in_list a ms) as [l |]; cbn [bind]; [| discriminate].
    destruct (IH l eq_refl) as [l2 [-> Hincl]]. cbn [bind].
    intros [= <-]. eexists. split; [reflexivity |].
    destruct (b <=? role_level role)%nat eqn:Hb; cbn [andb].
    + assert (Ha : (a <=? role_level role)%nat = true)
        by (apply Nat.leb_le; apply Nat.leb_le in Hb; lia).
      rewrite Ha. cbn [andb].
      destruct (truthy (field_default d "class_id" VNone)); [| exact Hincl].
      intros x [<- | Hx]; [now left | right; now apply Hincl].
    + destruct ((a <=? role_level role)%nat && truthy (field_default d "class_id" VNone));
        [| exact Hincl].
      intros x Hx. right. now apply Hincl.
Qed.

Lemma managed_in_dict_monotone (a b : nat) (items : dict) (l1 : list value) :
  a <= b ->
  managed_in_dict a items = Ok l1 ->
  exists l2, managed_in_dict b items = Ok l2 /\ incl l2 l1.
Proof.
  intros Hab. revert l1.
  induction items as [| [k m] items IH]; intros l1; cbn [managed_in_dict].
  - intros [= <-]. exists []. split; [reflexivity | apply incl_refl].
  - destruct (match m with
              | VDict d => py_lower (field_default d "role" (VStr ""))
              | _ => if truthy m then py_lower m else Ok ""
              end) as [role |]; cbn [bind]; [| discriminate].
    destruct (managed_in_dict a items) as [l |]; cbn [bind]; [| discriminate].
    destruct (IH l eq_refl) as [l2 [-> Hincl]]. cbn [bind].
    intros [= <-]. eexists. split; [reflexivity |].
    destruct (b <=? role_level role)%nat eqn:Hb.
    + assert (Ha : (a <=? role_level role)%nat = true)
        by (apply Nat.leb_le; apply Nat.leb_le in Hb; lia).
      rewrite Ha. intros x [<- | Hx]; [now left | right; now apply Hincl].
    + destruct (a <=? role_level role)%nat; [| exact Hincl].
      intros x Hx. right. now apply Hincl.
Qed.

Lemma managed_in_class_roles_monotone (a b : nat) (items : dict) (l1 : list value) :
  a <= b ->
  managed_in_class_roles a items = Ok l1 ->
  exists l2, managed_in_class_roles b items = Ok l2 /\ incl l2 l1.
Proof.
  intros Hab. revert l1.
  induction items as [| [k r] items IH]; intros l1; cbn [managed_in_class_roles].
  - intros [= <-]. exists []. split; [reflexivity | apply incl_refl].
  - destruct (py_lower r) as [role |]; cbn [bind]; [| discriminate].
    destruct (managed_in_class_roles a items) as [l |]; cbn [bind]; [| discriminate].
    destruct (IH l eq_refl) as [l2 [-> Hincl]]. cbn [bind].
    intros [= <-]. eexists. split; [reflexivity |].
    destruct (b <=? role_level role)%nat eqn:Hb.
    + assert (Ha : (a <=? role_level role)%nat = true)
        by (apply Nat.leb_le; apply Nat.leb_le in Hb; lia).
      rewrite Ha. intros x [<- | Hx]; [now left | right; now apply Hincl].
    + destruct (a <=? role_level role)%nat; [| exact Hincl].
      intros x Hx. right. now apply Hincl.
Qed.

(** X15. [get_user_managed_classes] is monotone in the minimum role: when it
    returns for one minimum it returns for every higher one, and with
    classes of the first answer only. *)
Theorem managed_classes_monotone
  (db : Database.store) (user : dict) (min_role min_role' : string)
  (managed : list value) :
  role_level (lower min_role) <= role_level (lower min_role') ->
  get_user_managed_classes db user min_role = Ok managed ->
  exists managed',
    get_user_managed_classes db user min_role' = Ok managed' /\
    forall class_id, In class_id managed' -> In class_id managed.
Proof.
  intros Hle. unfold get_user_managed_classes.
  destruct (py_in (VStr "admin") (field_default user "roles" (VList [])));
    cbn [bind]; [| discriminate].
  match goal with
  | |- match ?c with _ => _ end = _ -> _ => destruct c as [| | | | ms | items]
  end.
  5: now apply managed_in_list_monotone.
  5: now apply managed_in_dict_monotone.
  all: destruct (field_default user "classRoles" (VDict [])) as [| | | | | items];
    try (intros [= <-]; exists []; split; [reflexivity | apply incl_refl]);
    now apply managed_in_class_roles_monotone.
Qed.

Lemma managed_classes_monotone_witness :
  exists managed',
    get_user_managed_classes (fun _ => None) MoreScenarios.two_classes "instructor"
    = Ok managed' /\
    forall class_id, In class_id managed' -> In class_id [VStr "fhir22"].
Proof.
  apply (managed_classes_monotone (fun _ => None) MoreScenarios.two_classes
           "TA" "instructor").
  - vm_compute. lia.
  - reflexivity.
Defined.

(** Every dict entry with a class id passes a minimum level of zero. *)
Lemma managed_in_list_level_zero (ms managed : list value) (d : dict) :
  managed_in_list 0 ms = Ok managed ->
  In (VDict d) ms ->
  truthy (field_default d "class_id" VNone) = true ->
  In (field_default d "class_id" VNone) managed.
Proof.
  revert managed.
  induction ms as [| m ms IH]; intros managed; cbn [managed_in_list];
    [intros _ [] |].
  intros Hrun [-> | Hin] Hk.
  - destruct (py_lower _); cbn [bind] in Hrun; [| discriminate].
    destruct (managed_in_list 0 ms); cbn [bind] in Hrun; [| discriminate].
    injection Hrun as <-. cbn [Nat.leb andb]. rewrite Hk. now left.
  - destruct m as [| | | | | e]; try (now apply IH).
    destruct (py_lower _) as [role |]; cbn [bind] in Hrun; [| discriminate].
    destruct (managed_in_list 0 ms) as [l |]; cbn [bind] in Hrun; [| discriminate].
    injection Hrun as <-.
    destruct (truthy (field_default e "class_id" VNone)); [right |]; now apply IH.
Qed.

(** X16. A minimum role that is none of [instructor], [ta], [student]
    (in any letter case) filters nothing: every entry of a list-shaped
    [class_memberships] with a class id is returned, whatever its role. *)
Theorem unknown_min_role_admits_every_class
  (db : Database.store) (user : dict) (min_role : string)
  (ms managed : list value) (d : dict) :
  lower min_role <> "instructor" -> lower min_role <> "ta" ->
  lower min_role <> "student" ->
  field user "class_memberships" = Some (VList ms) ->
  get_user_managed_classes db user min_role = Ok managed ->
  In (VDict d) ms ->
  truthy (field_default d "class_id" VNone) = true ->
  In (field_default d "class_id" VNone) managed.
Proof.
  intros Hi Ht Hs Hms Hrun Hin Hk.
  unfold get_user_managed_classes in Hrun.
  assert (Hzero : role_level (lower min_role) = 0).
  { unfold role_level. apply String.eqb_neq in Hi, Ht, Hs. now rewrite Hi, Ht, Hs. }
  rewrite Hzero in Hrun.
  destruct (py_in _ _); cbn [bind] in Hrun; [| discriminate].
  rewrite (field_default_of_field _ _ _ _ Hms) in Hrun.
  destruct ms as [| m ms]; [destruct Hin |].
  cbn [truthy negb] in Hrun.
  now apply (managed_in_list_level_zero (m :: ms) managed d).
Qed.

Lemma unknown_min_role_admits_every_class_witness :
  get_user_managed_classes (fun _ => None) MoreScenarios.two_classes "admin"
  = Ok [ VStr "cda"; VStr "fhir22" ] /\
  In (VStr "cda") [ VStr "cda"; VStr "fhir22" ].
Proof.
  split; [reflexivity |].
  apply (unknown_min_role_admits_every_class (fun _ => None) MoreScenarios.two_classes
           "admin"
           [ VDict [ (VStr "class_id", VStr "cda"); (VStr "role", VStr "student") ];
             VDict [ (VStr "class_id", VStr "fhir22"); (VStr "role", VStr "ta") ] ]
           [ VStr "cda"; VStr "fhir22" ]
           [ (VStr "class_id", VStr "cda"); (VStr "role", VStr "student") ]).
  - discriminate.
  - discriminate.
  - discriminate.
  - reflexivity.
  - reflexivity.
  - now left.
  - reflexivity.
Defined.

End ManagedFacts.

(** ** Assigning a class role through the store *)

Module AssignFacts.
Import ClassAuth MembershipOperations ClassRoleOperations PyFacts Scenarios.

(** [db.upsert] drops the ['id'] field and no other. *)
Lemma field_without_id (d : dict) (name : string) :
  name <> "id" ->
  field (filter (fun kv => negb (key_eq (fst kv) (VStr "id"))) d) name = field d name.
Proof.
  intros Hname. unfold field, dict_get.
  induction d as [| [k v] d IH]; [reflexivity |].
  cbn [filter fst assoc].
  destruct (key_eq k (VStr "id")) eqn:Hid; cbn [negb assoc].
  - destruct (key_eq (VStr name) k) eqn:Hk; [| exact IH].
    apply key_eq_name in Hk. subst k. cbn in Hid.
    apply String.eqb_eq in Hid. contradiction.
  - now rewrite IH.
Qed.

(** The loop of [assign_class_role], when it finds an entry and when it
    finds none. *)
Lemma update_first_entry_found
  (ms ms' : list value) (class_id role now : string) (assigned_by : value) :
  update_first_entry ms class_id role now assigned_by = Ok (Some ms') ->
  role_in_list ms' class_id = Some (VStr role).
Proof.
  revert ms'.
  induction ms as [| m ms IH]; intros ms'; cbn [update_first_entry];
    [discriminate |].
  destruct m as [| | | | | d]; cbn [py_get bind]; try discriminate.
  destruct (py_eq (field_default d "class_id" VNone) (VStr class_id)) eqn:Hcid.
  - intros [= <-]. cbn [role_in_list].
    rewrite !field_default_set_field. cbn [String.eqb Ascii.eqb Bool.eqb].
    now rewrite Hcid.
  - destruct (update_first_entry ms class_id role now assigned_by) as [[rest |] |];
      cbn [bind]; try discriminate.
    intros [= <-]. cbn [role_in_list]. rewrite Hcid. now apply IH.
Qed.

Lemma update_first_entry_none
  (ms : list value) (class_id role now : string) (assigned_by new : value) :
  update_first_entry ms class_id role now assigned_by = Ok None ->
  role_in_list (ms ++ [new]) class_id = role_in_list [new] class_id.
Proof.
  induction ms as [| m ms IH]; cbn [update_first_entry]; [reflexivity |].
  destruct m as [| | | | | d]; cbn [py_get bind]; try discriminate.
  destruct (py_eq (field_default d "class_id" VNone) (VStr class_id)) eqn:Hcid;
    [discriminate |].
  destruct (update_first_entry ms class_id role now assigned_by) as [[rest |] |];
    cbn [bind]; try discriminate.
  intros _. cbn [app role_in_list]. rewrite Hcid. now apply IH.
Qed.

(** What a call of [assign_class_role] that returns has done. *)
Lemma assign_class_role_stored
  (db db' : Database.store) (now user_id class_id role : string)
  (assigned_by : value) (result : dict) :
  assign_class_role db now user_id class_id role assigned_by = Ok (result, db') ->
  str_in (lower role) valid_roles = true /\
  user_id <> "" /\
  (exists stored ms class_roles,
     Database.get db' (VStr user_id) = Some stored /\
     field stored "class_memberships" = Some (VList ms) /\
     role_in_list ms class_id = Some (VStr (lower role)) /\
     field stored "classRoles" = Some (VDict class_roles) /\
     field class_roles class_id = Some (VStr (lower role))) /\
  (forall other, other <> user_id -> db' other = db other).
Proof.
  unfold assign_class_role.
  destruct (str_in (lower role) valid_roles) eqn:Hvalid; cbn [negb]; [| discriminate].
  unfold Database.get.
  destruct (db user_id) as [data |] eqn:Hdata; [| discriminate].
  rewrite set_field_truthy. cbn [negb].
  set (user0 := set_field data "id" (VStr user_id)).
  assert (Hid0 : field user0 "id" = Some (VStr user_id))
    by (unfold user0; now rewrite field_set_field).
  clearbody user0.
  set (user1 := if has_field user0 "class_memberships" then user0
                else set_field user0 "class_memberships" (VList [])).
  assert (Hid1 : field user1 "id" = Some (VStr user_id)).
  { unfold user1. destruct (has_field user0 "class_memberships");
      [assumption | now rewrite field_set_field]. }
  clearbody user1. clear user0 Hid0.
  set (user2 := match field_default user1 "class_memberships" VNone with
                | VDict items =>
                    set_field user1 "class_memberships" (VList (map entry_of_item items))
                | _ => user1
                end).
  assert (Hid2 : field user2 "id" = Some (VStr user_id)).
  { unfold user2. destruct (field_default user1 "class_memberships" VNone);
      try assumption. now rewrite field_set_field. }
  clearbody user2. clear user1 Hid1.
  destruct (field_default user2 "class_memberships" VNone) as [| | | | ms |];
    try discriminate.
  destruct (update_first_entry ms class_id (lower role) now assigned_by)
    as [found |] eqn:Hfound; cbn [bind]; [| discriminate].
  set (new := VDict [ (VStr "class_id", VStr class_id);
                      (VStr "role", VStr (lower role));
                      (VStr "assigned_at", VStr now);
                      (VStr "assigned_by", assigned_by) ]).
  set (ms' := match found with Some ms' => ms' | None => ms ++ [new] end).
  assert (Hrole : role_in_list ms' class_id = Some (VStr (lower role))).
  { unfold ms'. destruct found as [found |].
    - exact (update_first_entry_found _ _ _ _ _ _ Hfound).
    - rewrite (update_first_entry_none _ _ _ _ _ new Hfound).
      unfold new. cbn. now rewrite String.eqb_refl. }
  clearbody ms'.
  set (user3 := set_field user2 "class_memberships" (VList ms')).
  assert (Hid3 : field user3 "id" = Some (VStr user_id))
    by (unfold user3; now rewrite field_set_field).
  assert (Hcm3 : field user3 "class_memberships" = Some (VList ms'))
    by (unfold user3; now rewrite field_set_field).
  clearbody user3. clear user2 Hid2.
  set (user4 := if has_field user3 "classRoles" then user3
                else set_field user3 "classRoles" (VDict [])).
  assert (H4 : field user4 "id" = Some (VStr user_id) /\
               field user4 "class_memberships" = Some (VList ms')).
  { unfold user4. destruct (has_field user3 "classRoles");
      [now split | now rewrite !field_set_field]. }
  destruct H4 as [Hid4 Hcm4]. clearbody user4. clear user3 Hid3 Hcm3.
  destruct (field_default user4 "classRoles" VNone) as [| | | | | class_roles];
    try discriminate.
  cbn [bind].
  set (class_roles' := dict_set class_roles (VStr class_id) (VStr (lower role))).
  assert (Hcr : field class_roles' class_id = Some (VStr (lower role))).
  { unfold class_roles'.
    change (field (set_field class_roles class_id (VStr (lower role))) class_id
            = Some (VStr (lower role))).
    now rewrite field_set_field, String.eqb_refl. }
  clearbody class_roles'.
  set (user5 := set_field user4 "classRoles" (VDict class_roles')).
  assert (H5 : field user5 "id" = Some (VStr user_id) /\
               field user5 "class_memberships" = Some (VList ms') /\
               field user5 "classRoles" = Some (VDict class_roles'))
    by (unfold user5; now rewrite !field_set_field).
  clearbody user5. clear user4 Hid4 Hcm4.
  set (user6 := if has_field user5 "accessible_classes" then user5
                else set_field user5 "accessible_classes" (VList [])).
  assert (H6 : field user6 "id" = Some (VStr user_id) /\
               field user6 "class_memberships" = Some (VList ms') /\
               field user6 "classRoles" = Some (VDict class_roles')).
  { unfold user6. destruct (has_field user5 "accessible_classes");
      [assumption | now rewrite !field_set_field]. }
  clearbody user6. clear user5 H5.
  destruct (add_accessible (field_default user6 "accessible_classes" VNone) class_id)
    as [accessible |]; cbn [bind]; [| discriminate].
  set (user7 := set_field user6 "accessible_classes" accessible).
  assert (H7 : field user7 "id" = Some (VStr user_id) /\
               field user7 "class_memberships" = Some (VList ms') /\
               field user7 "classRoles" = Some (VDict class_roles'))
    by (unfold user7; now rewrite !field_set_field).
  destruct H7 as [Hid [Hcm Hroles]]. clearbody user7. clear user6 H6.
  unfold Database.upsert. rewrite (field_default_of_field _ _ _ _ Hid).
  destruct (user_id =? "") eqn:Hempty; cbn [negb bind]; [discriminate |].
  intros [= _ <-]. split; [reflexivity |]. split.
  { intros ->. discriminate Hempty. }
  split.
  - eexists. exists ms', class_roles'. unfold Database.write.
    rewrite String.eqb_refl. split; [reflexivity |].
    rewrite !field_set_field. cbn [String.eqb Ascii.eqb Bool.eqb].
    rewrite !field_without_id by discriminate. auto.
  - intros other Hother. unfold Database.write.
    apply String.eqb_neq in Hother. now rewrite Hother.
Qed.

(** X17. The round trip through the store: after [assign_class_role]
    returns, the stored record of the user has the lower-cased role for the
    class in its first list entry for the class and in [classRoles], and no
    other record has changed. *)
Theorem assign_then_stored
  (db db' : Database.store) (now user_id class_id role : string)
  (assigned_by : value) (result : dict) :
  assign_class_role db now user_id class_id role assigned_by = Ok (result, db') ->
  (exists stored ms class_roles,
     Database.get db' (VStr user_id) = Some stored /\
     field stored "class_memberships" = Some (VList ms) /\
     role_in_list ms class_id = Some (VStr (lower role)) /\
     field stored "classRoles" = Some (VDict class_roles) /\
     field class_roles class_id = Some (VStr (lower role))) /\
  (forall other, other <> user_id -> db' other = db other).
Proof.
  intros H. now destruct (assign_class_role_stored _ _ _ _ _ _ _ _ H) as [_ [_ Hstored]].
Qed.

Lemma assign_then_stored_witness :
  exists result db',
    assign_class_role MoreScenarios.one_user_store "2024-01-01T00:00:00" "u7" "cda" "TA"
      (VStr "prof") = Ok (result, db') /\
    exists stored ms class_roles,
      Database.get db' (VStr "u7") = Some stored /\
      field stored "class_memberships" = Some (VList ms) /\
      role_in_list ms "cda" = Some (VStr "ta") /\
      field stored "classRoles" = Some (VDict class_roles) /\
      field class_roles "cda" = Some (VStr "ta").
Proof.
  do 2 eexists. split; [reflexivity |].
  exact (proj1 (assign_then_stored MoreScenarios.one_user_store _ "2024-01-01T00:00:00"
                  "u7" "cda" "TA" (VStr "prof") _ eq_refl)).
Defined.

(** A call that returns reports success. *)
Lemma assign_class_role_success
  (db db' : Database.store) (now user_id class_id role : string)
  (assigned_by : value) (result : dict) :
  assign_class_role db now user_id class_id role assigned_by = Ok (result, db') ->
  truthy (field_default result "success" VNone) = true.
Proof.
  unfold assign_class_role. intros H.
  repeat match type of H with
         | bind ?m _ = Ok _ => destruct m; cbn [bind] in H; [| discriminate H]
         | (if ?c then _ else _) = Ok _ => destruct c; try discriminate H
         | match ?x with _ => _ end = Ok _ => destruct x; try discriminate H
         end.
  injection H as <- _. reflexivity.
Qed.

Lemma remove_class_role_success
  (db db' : Database.store) (user_id class_id : string) (result : dict) :
  remove_class_role db user_id class_id = Ok (result, db') ->
  truthy (field_default result "success" VNone) = true.
Proof.
  unfold remove_class_role. intros H.
  repeat match type of H with
         | bind ?m _ = Ok _ => destruct m; cbn [bind] in H; [| discriminate H]
         | (if ?c then _ else _) = Ok _ => destruct c; try discriminate H
         | match ?x with _ => _ end = Ok _ => destruct x; try discriminate H
         end.
  injection H as <- _. reflexivity.
Qed.

(** X22. The assigned role is the role the class checks see: for a token
    that carries the user id and no role or membership data,
    [get_user_class_role] answers the lower-cased assigned role from the
    store, and [user_has_class_permission] grants exactly the permissions
    of that role in [ROLE_PERMISSIONS]; [grader], which the table does not
    list, brings none. *)
Theorem assigned_role_governs_permissions
  (db db' : Database.store) (now user_id class_id role : string)
  (assigned_by : value) (result token : dict) :
  assign_class_role db now user_id class_id role assigned_by = Ok (result, db') ->
  field token "user_id" = Some (VStr user_id) ->
  field token "roles" = None ->
  field token "class_memberships" = None ->
  field token "classRoles" = None ->
  field token "accessible_classes" = None ->
  get_user_class_role db' token class_id = Ok (VStr (lower role)) /\
  forall permission,
    user_has_class_permission db' token class_id permission
    = Ok (str_in permission (permissions_of ROLE_PERMISSIONS (lower role))).
Proof.
  intros Hassign Hid Hroles Hcm Hcr Hac.
  destruct (assign_class_role_stored _ _ _ _ _ _ _ _ Hassign)
    as [Hvalid [Hne [[stored [ms [class_roles [Hget [Hms [Hrole _]]]]]] _]]].
  assert (Hlookup : get_user_class_role db' token class_id = Ok (VStr (lower role))).
  { unfold get_user_class_role, role_from_database.
    rewrite (field_default_absent _ _ _ Hroles), (field_default_absent _ _ _ Hcm),
      (field_default_absent _ _ _ Hcr), (field_default_absent _ _ _ Hac),
      (field_default_of_field _ _ _ _ Hid).
    cbn [py_in existsb bind field dict_get assoc truthy negb andb].
    destruct (user_id =? "") eqn:Hempty;
      [apply String.eqb_eq in Hempty; contradiction |].
    cbn [negb]. rewrite Hget, (field_default_of_field _ _ _ _ Hms), Hrole.
    destruct stored; [discriminate Hms | reflexivity]. }
  split; [exact Hlookup |].
  intros permission. unfold user_has_class_permission.
  rewrite (field_default_absent _ _ _ Hroles). cbn [py_in existsb bind].
  rewrite Hlookup. cbn [bind].
  unfold valid_roles in Hvalid. apply str_in_In in Hvalid. cbn [In] in Hvalid.
  destruct Hvalid as [<- | [<- | [<- | [<- | []]]]]; reflexivity.
Qed.

Lemma assigned_role_governs_permissions_witness :
  exists result db',
    assign_class_role MoreScenarios.one_user_store "2024-01-01T00:00:00" "u7" "cda"
      "Grader" VNone = Ok (result, db') /\
    user_has_class_permission db' [ (VStr "user_id", VStr "u7") ] "cda" "take_quizzes"
    = Ok false.
Proof.
  do 2 eexists. split; [reflexivity |].
  exact (proj2 (assigned_role_governs_permissions MoreScenarios.one_user_store _
                  "2024-01-01T00:00:00" "u7" "cda" "Grader" VNone _
                  [ (VStr "user_id", VStr "u7") ]
                  eq_refl eq_refl eq_refl eq_refl eq_refl eq_refl) "take_quizzes").
Defined.

End AssignFacts.

(** ** The member routes and the store *)

Module RouteFacts.
Import ClassAuth ClassRoleOperations ApiRoutes MemberRoutes PyFacts AssignFacts
  Scenarios.

(** X18. [api_add_class_member] changes the store only for a caller who
    has [manage_members] for the class, and only when it answers 200. *)
Theorem add_member_writes_only_when_permitted
  (db db' : Database.store) (now : string) (req : request) (class_id : string)
  (body : dict) (status : Z) :
  api_add_class_member db now req class_id = (body, status, db') ->
  status <> 200%Z \/
  user_has_class_permission db (jwt_user req) class_id "manage_members" <> Ok true ->
  db' = db.
Proof.
  unfold api_add_class_member.
  destruct (add_class_member_body db now req class_id) as [[[b st] d] |] eqn:Hbody;
    [| now intros [= _ _ <-]].
  intros [= -> -> ->] Hno. revert Hbody. unfold add_class_member_body, failure.
  destruct (negb (truthy (json req))); [now intros [= _ _ <-] |].
  destruct (py_get (json req) "user_id" VNone) as [user_id |]; cbn [bind];
    [| discriminate].
  destruct (py_get (json req) "role" VNone) as [role |]; cbn [bind]; [| discriminate].
  destruct (negb (truthy user_id)); [now intros [= _ _ <-] |].
  destruct (negb (truthy role)); [now intros [= _ _ <-] |].
  destruct (validate_role role) as [valid |]; cbn [bind]; [| discriminate].
  destruct role as [| | | r | |]; try discriminate.
  destruct (negb valid); [now intros [= _ _ <-] |].
  destruct (user_has_class_permission db (jwt_user req) class_id "manage_members")
    as [[|] |]; cbn [bind negb]; [| now intros [= _ _ <-] | discriminate].
  destruct user_id as [| | | target | |]; try discriminate.
  destruct (assign_class_role db now target class_id r (acting_id (jwt_user req)))
    as [[result d'] |] eqn:Hassign; cbn [bind]; [| discriminate].
  rewrite (assign_class_role_success _ _ _ _ _ _ _ _ Hassign).
  intros [= _ <- _]. destruct Hno as [Hno | Hno]; now contradiction Hno.
Qed.

Lemma add_member_writes_only_when_permitted_witness :
  snd (api_add_class_member MoreScenarios.one_user_store "2024-01-01T00:00:00"
         {| json := VDict [ (VStr "user_id", VStr "u7"); (VStr "role", VStr "ta") ];
            jwt_user := student_token |} "cda")
  = MoreScenarios.one_user_store.
Proof.
  apply (add_member_writes_only_when_permitted MoreScenarios.one_user_store _
           "2024-01-01T00:00:00"
           {| json := VDict [ (VStr "user_id", VStr "u7"); (VStr "role", VStr "ta") ];
              jwt_user := student_token |} "cda"
           (fst (fst (api_add_class_member MoreScenarios.one_user_store
                        "2024-01-01T00:00:00"
                        {| json := VDict [ (VStr "user_id", VStr "u7");
                                           (VStr "role", VStr "ta") ];
                           jwt_user := student_token |} "cda")))
           403%Z).
  - reflexivity.
  - left. discriminate.
Defined.

(** X19. [api_remove_class_member] changes the store only for a caller who
    has [manage_members] for the class, and only when it answers 200. *)
Theorem remove_member_writes_only_when_permitted
  (db db' : Database.store) (req : request) (class_id user_id : string)
  (body : dict) (status : Z) :
  api_remove_class_member db req class_id user_id = (body, status, db') ->
  status <> 200%Z \/
  user_has_class_permission db (jwt_user req) class_id "manage_members" <> Ok true ->
  db' = db.
Proof.
  unfold api_remove_class_member.
  destruct (remove_class_member_body db req class_id user_id) as [[[b st] d] |] eqn:Hbody;
    [| now intros [= _ _ <-]].
  intros [= -> -> ->] Hno. revert Hbody. unfold remove_class_member_body, failure.
  destruct (user_has_class_permission db (jwt_user req) class_id "manage_members")
    as [[|] |]; cbn [bind negb]; [| now intros [= _ _ <-] | discriminate].
  destruct (remove_class_role db user_id class_id)
    as [[result d'] |] eqn:Hremove; cbn [bind]; [| discriminate].
  rewrite (remove_class_role_success _ _ _ _ _ Hremove).
  intros [= _ <- _]. destruct Hno as [Hno | Hno]; now contradiction Hno.
Qed.

Lemma remove_member_writes_only_when_permitted_witness :
  snd (api_remove_class_member MoreScenarios.one_user_store
         {| json := VNone; jwt_user := student_token |} "cda" "u7")
  = MoreScenarios.one_user_store.
Proof.
  apply (remove_member_writes_only_when_permitted MoreScenarios.one_user_store _
           {| json := VNone; jwt_user := student_token |} "cda" "u7"
           (fst (fst (api_remove_class_member MoreScenarios.one_user_store
                        {| json := VNone; jwt_user := student_token |} "cda" "u7")))
           403%Z).
  - reflexivity.
  - left. discriminate.
Defined.

(** X27. A 200 answer of [api_add_class_member] means the role is stored:
    the body named a user and a role as strings, the caller had
    [manage_members], and the stored record of that user now has the
    lower-cased role in its first entry for the class, while the response
    echoes the role as it was sent. *)
Theorem add_member_ok_means_stored
  (db db' : Database.store) (now : string) (req : request) (class_id : string)
  (body : dict) :
  api_add_class_member db now req class_id = (body, 200%Z, db') ->
  exists target role stored ms,
    py_get (json req) "user_id" VNone = Ok (VStr target) /\
    py_get (json req) "role" VNone = Ok (VStr role) /\
    user_has_class_permission db (jwt_user req) class_id "manage_members" = Ok true /\
    Database.get db' (VStr target) = Some stored /\
    field stored "class_memberships" = Some (VList ms) /\
    role_in_list ms class_id = Some (VStr (lower role)) /\
    field body "role" = Some (VStr role).
Proof.
  unfold api_add_class_member.
  destruct (add_class_member_body db now req class_id) as [[[b st] d] |] eqn:Hbody;
    [| discriminate].
  intros [= -> -> ->]. revert Hbody. unfold add_class_member_body, failure.
  destruct (negb (truthy (json req))); [discriminate |].
  destruct (py_get (json req) "user_id" VNone) as [user_id |]; cbn [bind];
    [| discriminate].
  destruct (py_get (json req) "role" VNone) as [role |]; cbn [bind]; [| discriminate].
  destruct (negb (truthy user_id)); [discriminate |].
  destruct (negb (truthy role)); [discriminate |].
  destruct (validate_role role) as [valid |]; cbn [bind]; [| discriminate].
  destruct role as [| | | r | |]; try discriminate.
  destruct (negb valid); [discriminate |].
  destruct (user_has_class_permission db (jwt_user req) class_id "manage_members")
    as [[|] |]; cbn [bind negb]; try discriminate.
  destruct user_id as [| | | target | |]; try discriminate.
  destruct (assign_class_role db now target class_id r (acting_id (jwt_user req)))
    as [[result d'] |] eqn:Hassign; cbn [bind]; [| discriminate].
  rewrite (assign_class_role_success _ _ _ _ _ _ _ _ Hassign).
  intros [= <- <-].
  destruct (assign_class_role_stored _ _ _ _ _ _ _ _ Hassign)
    as [_ [_ [[stored [ms [class_roles [Hget [Hms [Hrole _]]]]]] _]]].
  exists target, r, stored, ms. repeat split; auto.
Qed.

Lemma add_member_ok_means_stored_witness :
  exists body db' stored ms,
    api_add_class_member MoreScenarios.one_user_store "2024-01-01T00:00:00"
      {| json := VDict [ (VStr "user_id", VStr "u7"); (VStr "role", VStr "TA") ];
         jwt_user := admin_token |} "cda" = (body, 200%Z, db') /\
    Database.get db' (VStr "u7") = Some stored /\
    field stored "class_memberships" = Some (VList ms) /\
    role_in_list ms "cda" = Some (VStr "ta") /\
    field body "role" = Some (VStr "TA").
Proof.
  destruct (add_member_ok_means_stored MoreScenarios.one_user_store
              (snd (api_add_class_member MoreScenarios.one_user_store
                      "2024-01-01T00:00:00"
                      {| json := VDict [ (VStr "user_id", VStr "u7");
                                         (VStr "role", VStr "TA") ];
                         jwt_user := admin_token |} "cda"))
              "2024-01-01T00:00:00"
              {| json := VDict [ (VStr "user_id", VStr "u7"); (VStr "role", VStr "TA") ];
                 jwt_user := admin_token |} "cda"
              (fst (fst (api_add_class_member MoreScenarios.one_user_store
                           "2024-01-01T00:00:00"
                           {| json := VDict [ (VStr "user_id", VStr "u7");
                                              (VStr "role", VStr "TA") ];
                              jwt_user := admin_token |} "cda")))
              eq_refl)
    as [target [role [stored [ms [Hid [Hrole [_ [Hget [Hms [Hin Hbody]]]]]]]]]].
  injection Hid as <-. injection Hrole as <-.
  do 2 eexists. exists stored, ms. split; [reflexivity |]. auto.
Defined.

End RouteFacts.

(** ** What a live run of the backfill stores *)

Module BackfillFacts.
Import MigrateStudentEnrollments Shapes PyFacts Backfill.

(** The analysis of a list with the student entry appended. *)
Lemma analyze_memberships_appended (ms : list value) (course reason : string) :
  analyze_memberships ms course = Ok (true, reason) ->
  analyze_memberships (ms ++ [student_entry course]) course
  = Ok (if reason =? "missing_enrollment" then (false, "already_student")
        else (true, reason)).
Proof.
  induction ms as [| m ms IH]; cbn [app analyze_memberships].
  - intros [= <-]. cbn. now rewrite String.eqb_refl.
  - destruct (py_get m "class_id" VNone) as [class_id |]; cbn [bind]; [| discriminate].
    destruct (py_eq class_id (VStr course)); [| exact IH].
    destruct (py_get m "role" (VStr "")) as [role_value |]; cbn [bind];
      [| discriminate].
    destruct (py_lower role_value) as [role |]; cbn [bind]; [| discriminate].
    destruct (str_in role ["instructor"; "ta"]); [discriminate |].
    destruct (role =? "student"); [discriminate |].
    intros [= <-]. reflexivity.
Qed.

(** X20. One live run settles a pair only when the entry was missing: the
    record with the student entry appended is analysed as
    [already_student] then, but as the same [unknown_role_...] as before
    when an entry with another role stands first, so every later run
    appends once more. *)
Theorem backfill_settles_missing_only
  (user user' : dict) (course reason : string) :
  analyze_user_enrollment user course = Ok (true, reason) ->
  add_student_entry user course = Ok user' ->
  analyze_user_enrollment user' course
  = Ok (if reason =? "missing_enrollment" then (false, "already_student")
        else (true, reason)).
Proof.
  unfold analyze_user_enrollment, add_student_entry, has_field, dict_mem,
    field_default, dict_get_default.
  destruct (assoc (VStr "class_memberships") user) as [cm |] eqn:Hcm.
  - rewrite Hcm. destruct cm as [| | | | ms |]; try discriminate.
    cbn [py_iter bind]. intros Han [= <-].
    pose proof (field_set_field user "class_memberships" "class_memberships"
                  (VList (ms ++ [student_entry course]))) as Hset.
    unfold field, dict_get in Hset. unfold student_entry in Hset.
    rewrite Hset. cbn [String.eqb Ascii.eqb Bool.eqb py_iter bind].
    now apply analyze_memberships_appended.
  - pose proof (field_set_field user "class_memberships" "class_memberships"
                  (VList [])) as Hset.
    unfold field, dict_get in Hset. rewrite Hset.
    cbn [String.eqb Ascii.eqb Bool.eqb py_iter bind analyze_memberships].
    intros [= <-] [= <-].
    pose proof (field_set_field (set_field user "class_memberships" (VList []))
                  "class_memberships" "class_memberships"
                  (VList [student_entry course])) as Hset'.
    unfold field, dict_get in Hset'. unfold student_entry in Hset'.
    rewrite Hset'. cbn. now rewrite String.eqb_refl.
Qed.

Lemma backfill_settles_missing_only_witness :
  exists user',
    add_student_entry
      [ (VStr "class_memberships",
         VList [ VDict [ (VStr "class_id", VStr "cda"); (VStr "role", VStr "grader") ] ]) ]
      "cda" = Ok user' /\
    analyze_user_enrollment user' "cda" = Ok (true, "unknown_role_grader").
Proof.
  eexists. split; [reflexivity |].
  apply (backfill_settles_missing_only
           [ (VStr "class_memberships",
              VList [ VDict [ (VStr "class_id", VStr "cda");
                              (VStr "role", VStr "grader") ] ]) ]
           _ "cda" "unknown_role_grader"); reflexivity.
Defined.

(** A run without a write for the user leaves the user's row alone. *)
Lemma apply_updates_other (user_id : string) (updates : list update) :
  last_course user_id updates = None ->
  forall db, apply_updates db updates user_id = db user_id.
Proof.
  induction updates as [| u updates IH]; cbn [last_course apply_updates];
    [reflexivity |].
  destruct (last_course user_id updates); [discriminate |].
  destruct (update_user_id u =? user_id) eqn:Hid; [discriminate |].
  intros _ db.
  destruct (add_student_entry (update_user u) (update_course u)); [| now apply IH].
  rewrite IH by reflexivity.
  unfold db_update. destruct (db (update_user_id u)); [| reflexivity].
  unfold Database.write. rewrite String.eqb_sym in Hid. now rewrite Hid.
Qed.

Lemma db_update_keeps_rows (db : Database.store) (user_id other : string) (data : dict) :
  db other <> None -> db_update db user_id data other <> None.
Proof.
  intros H. unfold db_update. destruct (db user_id); [| exact H].
  unfold Database.write. now destruct (other =? user_id).
Qed.

Lemma apply_updates_last (user_id course : string) (user user' : dict)
  (updates : list update) :
  Forall (fun u => update_user_id u = user_id -> update_user u = user) updates ->
  last_course user_id updates = Some course ->
  add_student_entry user course = Ok user' ->
  forall db, db user_id <> None -> apply_updates db updates user_id = Some user'.
Proof.
  intros Hall Hlast Hadd.
  induction updates as [| u updates IH]; [discriminate |].
  inversion Hall as [| ? ? Hu Hrest]; subst.
  cbn [last_course] in Hlast. intros db Hrow. cbn [apply_updates].
  destruct (last_course user_id updates) as [c |] eqn:Hlater.
  - injection Hlast as ->.
    destruct (add_student_entry (update_user u) (update_course u));
      apply IH; auto using db_update_keeps_rows.
  - destruct (update_user_id u =? user_id) eqn:Hid; [| discriminate].
    injection Hlast as <-. apply String.eqb_eq in Hid.
    rewrite (Hu Hid), Hadd. rewrite apply_updates_other by exact Hlater.
    unfold db_update. rewrite Hid.
    destruct (db user_id); [| contradiction].
    unfold Database.write. now rewrite String.eqb_refl.
Qed.

(** X21. A live run writes each planned entry onto the record as it was
    read during planning: for a user with planned writes the stored record
    after the run is the record from before the run with the student entry
    of the last planned course only. *)
Theorem backfill_last_write_wins
  (db db' : Database.store) (enrollments : list (string * string * Z))
  (updates : list update) (user_id course : string) (user user' : dict) :
  migrate_enrollments db enrollments false = Ok (updates, db') ->
  db user_id = Some user ->
  last_course user_id updates = Some course ->
  add_student_entry user course = Ok user' ->
  db' user_id = Some user'.
Proof.
  unfold migrate_enrollments.
  destruct (plan_updates db enrollments) as [ups |] eqn:Hplan; cbn [bind];
    [| discriminate].
  intros [= <- <-] Hrow Hlast Hadd.
  apply (apply_updates_last user_id course user user'); auto.
  - pose proof (plan_updates_sound _ _ _ Hplan) as Hsound.
    apply Forall_forall. intros u Hu Hid.
    rewrite Forall_forall in Hsound. destruct (Hsound u Hu) as [Hdb _].
    rewrite Hid, Hrow in Hdb. now injection Hdb.
  - now rewrite Hrow.
Qed.

Lemma backfill_last_write_wins_witness :
  exists updates db',
    migrate_enrollments MoreScenarios.enrolled_store
      [ ("user7", "ohdsi24", 9%Z); ("user7", "nlp25", 6%Z) ] false
    = Ok (updates, db') /\
    List.length updates = 2 /\
    db' "user7"
    = Some (set_field MoreScenarios.enrolled_user "class_memberships"
              (VList [ VDict [ (VStr "class_id", VStr "cda"); (VStr "role", VStr "student") ];
                       VDict [ (VStr "class_id", VStr "fhir22"); (VStr "role", VStr "ta") ];
                       student_entry "nlp25" ])).
Proof.
  do 2 eexists. split; [reflexivity |]. split; [reflexivity |].
  eapply (backfill_last_write_wins MoreScenarios.enrolled_store _
            [ ("user7", "ohdsi24", 9%Z); ("user7", "nlp25", 6%Z) ] _ "user7" "nlp25"
            MoreScenarios.enrolled_user); reflexivity.
Defined.

End BackfillFacts.

(** ** Updating a class role in the store *)

Module UpdateFacts.
Import ClassAuth PyFacts AssignFacts.

(** X23. [update_class_role] returns only for a stored record whose
    [class_memberships] is a dict that maps the class to a dict; it then
    reports the role that entry had, stores the lower-cased new role in
    that entry, leaves the entries of other classes as they were, and
    changes no other record. *)
Theorem update_class_role_on_dict_shape
  (db db' : Database.store) (now user_id class_id new_role : string)
  (updated_by : value) (result : dict) :
  update_class_role db now user_id class_id new_role updated_by = Ok (result, db') ->
  exists user items m stored items' m',
    Database.get db (VStr user_id) = Some user /\
    field user "class_memberships" = Some (VDict items) /\
    field items class_id = Some (VDict m) /\
    field result "old_role" = Some (field_default m "role" VNone) /\
    Database.get db' (VStr user_id) = Some stored /\
    field stored "class_memberships" = Some (VDict items') /\
    field items' class_id = Some (VDict m') /\
    field m' "role" = Some (VStr (lower new_role)) /\
    (forall other, other <> class_id -> field items' other = field items other) /\
    (forall other, other <> user_id -> db' other = db other).
Proof.
  unfold update_class_role.
  destruct (negb (str_in (lower new_role) valid_roles)); [discriminate |].
  destruct (Database.get db (VStr user_id)) as [user |] eqn:Hget; [| discriminate].
  destruct (negb (truthy (VDict user))); [discriminate |].
  assert (Hid : field user "id" = Some (VStr user_id)).
  { unfold Database.get in Hget. destruct (db user_id); [| discriminate].
    injection Hget as <-. now rewrite field_set_field. }
  unfold field_default, dict_get_default.
  change (assoc (VStr "class_memberships") user) with (field user "class_memberships").
  destruct (field user "class_memberships") as [cm |] eqn:Hcm; cbn [bind negb];
    [| discriminate].
  destruct (py_in (VStr class_id) cm) as [[|] |]; cbn [bind negb]; try discriminate.
  destruct cm as [| | | | | items]; cbn [getitem bind]; try discriminate.
  destruct (field items class_id) as [membership |] eqn:Hitem; cbn [bind];
    [| discriminate].
  destruct membership as [| | | | | m]; cbn [py_get bind]; try discriminate.
  set (m' := set_field
               (set_field (set_field m "role" (VStr (lower new_role)))
                  "updated_at" (VStr now)) "updated_by" updated_by).
  set (items' := set_field items class_id (VDict m')).
  set (user1 := set_field user "class_memberships" (VDict items')).
  assert (H1 : field user1 "id" = Some (VStr user_id) /\
               field user1 "class_memberships" = Some (VDict items'))
    by (unfold user1; now rewrite !field_set_field).
  clearbody user1.
  intros Hrun.
  assert (Hstored : exists user2,
             field user2 "id" = Some (VStr user_id) /\
             field user2 "class_memberships" = Some (VDict items') /\
             (db'' <- Database.upsert db user2 ;;
              Ok ([ (VStr "success", VBool true);
                    (VStr "user_id", VStr user_id);
                    (VStr "class_id", VStr class_id);
                    (VStr "old_role",
                     match assoc (VStr "role") m with Some v => v | None => VNone end);
                    (VStr "new_role", VStr (lower new_role)) ], db''))
             = Ok (result, db')).
  { destruct (field user1 "classRoles") as [[| | | | | class_roles] |];
      cbn [bind] in Hrun; try discriminate Hrun.
    - eexists. split; [| split; [| exact Hrun]]; now rewrite !field_set_field.
    - exists user1. now destruct H1. }
  clear Hrun. destruct Hstored as [user2 [Hid2 [Hcm2 Hrun]]].
  unfold Database.upsert in Hrun. rewrite (field_default_of_field _ _ _ _ Hid2) in Hrun.
  destruct (user_id =? "") eqn:Hempty; cbn [negb bind] in Hrun; [discriminate |].
  injection Hrun as <- <-.
  exists user, items, m. eexists. exists items', m'.
  split; [reflexivity |]. split; [exact Hcm |]. split; [exact Hitem |].
  split; [reflexivity |]. split.
  { unfold Database.get, Database.write. now rewrite String.eqb_refl. }
  split.
  { rewrite field_set_field. cbn [String.eqb Ascii.eqb Bool.eqb].
    now rewrite field_without_id by discriminate. }
  split.
  { unfold items'. now rewrite field_set_field, String.eqb_refl. }
  split.
  { unfold m'. now rewrite !field_set_field. }
  split.
  - intros other Hother. unfold items'. rewrite field_set_field.
    apply String.eqb_neq in Hother. now rewrite Hother.
  - intros other Hother. unfold Database.write.
    apply String.eqb_neq in Hother. now rewrite Hother.
Qed.

Lemma update_class_role_on_dict_shape_witness :
  exists result db',
    update_class_role MoreScenarios.legacy_store "2024-01-01T00:00:00" "u9" "cda" "TA"
      (VStr "prof") = Ok (result, db') /\
    exists user items m stored items' m',
      Database.get MoreScenarios.legacy_store (VStr "u9") = Some user /\
      field user "class_memberships" = Some (VDict items) /\
      field items "cda" = Some (VDict m) /\
      field result "old_role" = Some (field_default m "role" VNone) /\
      Database.get db' (VStr "u9") = Some stored /\
      field stored "class_memberships" = Some (VDict items') /\
      field items' "cda" = Some (VDict m') /\
      field m' "role" = Some (VStr "ta") /\
      (forall other, other <> "cda" -> field items' other = field items other) /\
      (forall other, other <> "u9" -> db' other = MoreScenarios.legacy_store other).
Proof.
  do 2 eexists. split; [reflexivity |].
  exact (update_class_role_on_dict_shape MoreScenarios.legacy_store _
           "2024-01-01T00:00:00" "u9" "cda" "TA" (VStr "prof") _ eq_refl).
Defined.

End UpdateFacts.

(** ** The two role lookups on a normalized record *)

Module LookupFacts.
Import ClassMembershipUtils MembershipOperations ClassAuth Canonical PyFacts
  NormalizeFacts CheckerFacts Consistency EditFacts.

(** On canonical entries the two loops read the same role. *)
Lemma role_in_list_canonical (c : list dict) (class_id : string) :
  Forall canonical_entry c ->
  role_in_list (map VDict c) class_id = role_of_first_entry (map VDict c) class_id.
Proof.
  induction 1 as [| e c He _ IH]; [reflexivity |].
  cbn [map role_in_list role_of_first_entry]. rewrite IH.
  destruct He as [cid role | cid role at_ by_]; reflexivity.
Qed.

(** A class without an entry in the list is in neither projection. *)
Lemma no_entry_no_projection (c : list dict) (class_id : string) :
  Forall canonical_entry c ->
  role_of_first_entry (map VDict c) class_id = None ->
  recorded_role (map VDict c) (VStr class_id) = None /\
  existsb (py_eq (VStr class_id)) (map (fun e => field_default e "class_id" VNone) c)
  = false.
Proof.
  induction 1 as [| e c He _ IH]; [now split |].
  cbn [map role_of_first_entry recorded_role existsb].
  destruct (py_eq (field_default e "class_id" VNone) (VStr class_id)) eqn:Hcid;
    [discriminate |].
  intros Hrest. destruct (IH Hrest) as [-> ->].
  rewrite py_eq_str_sym, Hcid. split; [| reflexivity].
  destruct He as [cid role | cid role at_ by_];
    cbn in Hcid |- *; destruct cid; cbn in Hcid |- *; try reflexivity;
    rewrite String.eqb_sym, Hcid; reflexivity.
Qed.

(** X24. On a normalized record that has some membership, and for a user
    without the global [admin] role, [get_user_class_role] of
    [class_auth] and [get_user_role_for_class] of the membership utilities
    answer the same for every non-empty class id; the store is not
    consulted. *)
Theorem lookups_agree_on_normalized
  (db : Database.store) (user u : dict) (class_id : string) :
  truthy (VDict user) = true ->
  normalize_class_memberships user = Ok u ->
  field u "class_memberships" <> Some (VList []) ->
  py_in (VStr "admin") (field_default user "roles" (VList [])) = Ok false ->
  class_id <> "" ->
  get_user_class_role db u class_id = Ok (get_user_role_for_class u class_id).
Proof.
  intros Hne Hnorm Hsome Hadmin Hk.
  destruct (normalize_inv _ _ Hne Hnorm) as [c [cr [_ [Hc [Hproj ->]]]]].
  rewrite !field_set_field in Hsome. cbn [String.eqb Ascii.eqb Bool.eqb] in Hsome.
  assert (Hcr : forall k, dict_get cr k = recorded_role (map VDict c) k).
  { unfold project in Hproj.
    destruct (scan_of_project c Hc [] _ _ _ _ Hproj) as [mc [Hscan _]].
    intros k. rewrite (scan_memberships_roles _ _ _ _ _ Hscan k).
    now destruct (recorded_role (map VDict c) k). }
  unfold get_user_class_role, get_user_role_for_class.
  rewrite set_field_truthy. rewrite !field_default_set_field.
  cbn [String.eqb Ascii.eqb Bool.eqb]. rewrite Hadmin. cbn [bind negb orb].
  assert (Hkt : truthy (VStr class_id) = true)
    by (cbn; destruct class_id; [contradiction | reflexivity]).
  rewrite Hkt. cbn [negb].
  rewrite (role_in_list_canonical c class_id Hc).
  destruct (role_of_first_entry (map VDict c) class_id) as [r |] eqn:Hfirst;
    [reflexivity |].
  destruct (no_entry_no_projection c class_id Hc Hfirst) as [Hrec Hacc].
  unfold field. rewrite Hcr, Hrec. cbn [py_in bind]. rewrite Hacc.
  destruct c as [| e c]; [contradiction Hsome; reflexivity |].
  reflexivity.
Qed.

Lemma lookups_agree_on_normalized_witness :
  exists u,
    normalize_class_memberships MoreScenarios.two_classes = Ok u /\
    get_user_class_role (fun _ => None) u "fhir22"
    = Ok (get_user_role_for_class u "fhir22") /\
    get_user_role_for_class u "fhir22" = VStr "ta".
Proof.
  eexists. split; [reflexivity |]. split; [| reflexivity].
  apply (lookups_agree_on_normalized (fun _ => None) MoreScenarios.two_classes _ "fhir22").
  - reflexivity.
  - reflexivity.
  - discriminate.
  - reflexivity.
  - discriminate.
Defined.

End LookupFacts.

(** ** Adding a membership keeps the three shapes in step *)

Module InvariantFacts.
Import ClassMembershipUtils MembershipOperations Canonical Shapes PyFacts
  NormalizeFacts CheckerFacts Consistency EditFacts.

(** The checker on a record whose two legacy shapes are the projection of
    its list. *)
Lemma check_of_projection (base : dict) (c : list dict) (cr : dict) (ac : list value) :
  Forall canonical_entry c ->
  Forall (fun e => truthy (field_default e "class_id" VNone) = true) c ->
  Forall (fun e => hashable (field_default e "role" VNone) = true) c ->
  project c = Ok (cr, ac) ->
  check_format_consistency
    (set_field
       (set_field (set_field base "class_memberships" (VList (map VDict c)))
          "classRoles" (VDict cr))
       "accessible_classes" (VList ac))
  = Ok (true, []).
Proof.
  intros Hc Hids Hroles Hproj.
  unfold project in Hproj.
  destruct (foldM_project_result _ _ _ _ _ Hproj) as [Hac _]. cbn [app] in Hac.
  destruct (project_dict_ok c Hroles _ _ _ _ Hproj dict_ok_nil) as [Hok Hkeys].
  destruct (scan_of_project c Hc [] _ _ _ _ Hproj) as [mc [Hscan Hset]].
  destruct (foldM_set_add _ _ _ Hset (Forall_nil _)) as [Hmc Hmem].
  unfold check_format_consistency.
  rewrite !field_default_set_field.
  cbn -[foldM scan_membership set_add set_union compare_with_all
        role_mismatches filter].
  unfold dict in Hscan |- *. rewrite Hscan. cbn [bind].
  assert (Hfilter : filter truthy ac = ac).
  { subst ac. apply filter_all. rewrite Forall_map. exact Hids. }
  rewrite Hfilter. rewrite Hac at 1. rewrite Hset. cbn [bind].
  set (rc := set_union [] (dict_keys cr)).
  set (all := set_union (set_union mc rc) mc).
  assert (Hrc : Forall (fun x => hashable x = true) rc)
    by (apply set_union_hashable; [constructor | now apply dict_ok_keys]).
  assert (Hall : Forall (fun x => hashable x = true) all)
    by (unfold all; apply set_union_hashable;
        [apply set_union_hashable |]; assumption).
  assert (Mrc : forall x, set_mem x rc = set_mem x mc).
  { intros x. unfold rc. rewrite set_mem_union, Hkeys, Hmem. reflexivity. }
  assert (Mall : forall x, set_mem x all = set_mem x mc).
  { intros x. unfold all. rewrite !set_mem_union, Mrc.
    now destruct (set_mem x mc). }
  assert (Emc : set_eq mc all = true) by (apply set_eq_of_mem; auto).
  assert (Erc : set_eq rc all = true)
    by (apply set_eq_of_mem; auto; intros x; now rewrite Mrc, Mall).
  rewrite !(fun format => compare_with_all_equal format mc all Emc).
  rewrite (compare_with_all_equal _ rc all Erc).
  rewrite (role_mismatches_self cr cr)
    by (intros k v Hin; now apply dict_ok_lookup).
  reflexivity.
Qed.

Lemma upsert_entry_dicts (c : list dict) (class_id : string) (new : dict) :
  upsert_entry (map VDict c) class_id (VDict new)
  = map VDict (upsert_dict c class_id new).
Proof.
  induction c as [| e c IH]; [reflexivity |].
  cbn [map upsert_entry upsert_dict].
  destruct (is_entry_for class_id (VDict e)); cbn [map]; [reflexivity |].
  now rewrite IH.
Qed.

(** Two assignments to different keys can be swapped when the second key
    is in the dict already. *)
Lemma dict_set_swap (d : dict) (name : string) (k v r : value) :
  key_eq (VStr name) k = false ->
  assoc (VStr name) d <> None ->
  dict_set (dict_set d k v) (VStr name) r = dict_set (dict_set d (VStr name) r) k v.
Proof.
  intros Hk. induction d as [| [k2 v2] d IH]; [now intros [] |].
  cbn [assoc dict_set].
  destruct (key_eq k k2) eqn:H2; destruct (key_eq (VStr name) k2) eqn:Hn;
    cbn [dict_set]; rewrite ?H2, ?Hn; try reflexivity.
  - apply key_eq_name in Hn. subst k2. rewrite key_eq_sym in H2. congruence.
  - intros Hin. now rewrite IH.
Qed.

Lemma not_entry_other_key (e : dict) (class_id : string) :
  is_entry_for class_id (VDict e) = false ->
  key_eq (VStr class_id) (field_default e "class_id" VNone) = false.
Proof.
  cbn [is_entry_for]. destruct (field_default e "class_id" VNone); cbn; auto.
  now rewrite String.eqb_sym.
Qed.

(** The rebuild loop from a mapping that has the class already, when no
    entry of the list is for the class. *)
Lemma project_after_set (c : list dict) (class_id : string) (r : value) :
  Forall (fun e => is_entry_for class_id (VDict e) = false) c ->
  forall d ac cr ac',
    assoc (VStr class_id) d <> None ->
    foldM project_step (d, ac) c = Ok (cr, ac') ->
    foldM project_step (dict_set d (VStr class_id) r, ac) c
    = Ok (dict_set cr (VStr class_id) r, ac').
Proof.
  induction 1 as [| e c He _ IH]; intros d ac cr ac' Hin; cbn [foldM].
  - now intros [= <- <-].
  - unfold project_step at 1 3. unfold dict_setitem.
    destruct (hashable (field_default e "class_id" VNone)) eqn:Hh; cbn [bind];
      [| discriminate].
    pose proof (not_entry_other_key _ _ He) as Hk.
    rewrite <- (dict_set_swap d class_id _ _ r Hk Hin).
    apply IH.
    rewrite assoc_dict_set by now apply hashable_key_eq_refl.
    now rewrite Hk.
Qed.

(** The rebuild loop on the list with the entry replaced or added. *)
Lemma project_upsert (c : list dict) (class_id : string) (new : dict) :
  field_default new "class_id" VNone = VStr class_id ->
  entries_for class_id (map VDict c) <= 1 ->
  forall d ac cr ac',
    foldM project_step (d, ac) c = Ok (cr, ac') ->
    foldM project_step (d, ac) (upsert_dict c class_id new)
    = Ok (dict_set cr (VStr class_id) (field_default new "role" VNone),
          ac ++ map (fun e => field_default e "class_id" VNone)
                    (upsert_dict c class_id new)).
Proof.
  intros Hnew. unfold entries_for.
  induction c as [| e c IH]; intros Hone d ac cr ac'; cbn [upsert_dict foldM map].
  - intros [= <- <-]. unfold project_step, dict_setitem. rewrite Hnew.
    reflexivity.
  - cbn [map filter] in Hone.
    destruct (is_entry_for class_id (VDict e)) eqn:He.
    + cbn [List.length] in Hone.
      assert (Hnone : Forall (fun e => is_entry_for class_id (VDict e) = false) c).
      { apply Forall_forall. intros x Hx.
        destruct (is_entry_for class_id (VDict x)) eqn:Hx'; [| reflexivity].
        assert (Hlen : In (VDict x) (filter (is_entry_for class_id) (map VDict c)))
          by (apply filter_In; split; [now apply in_map | exact Hx']).
        destruct (filter (is_entry_for class_id) (map VDict c));
          [destruct Hlen | cbn in Hone; lia]. }
      cbn [foldM map]. unfold project_step at 1 3. unfold dict_setitem.
      cbn [is_entry_for] in He. apply py_eq_str_true in He.
      rewrite He, Hnew. cbn [hashable bind].
      intros Hrest.
      destruct (foldM_project_result _ _ _ _ _ Hrest) as [-> _].
      replace (ac ++ VStr class_id
                     :: map (fun e0 : dict => field_default e0 "class_id" VNone) c)
        with ((ac ++ [VStr class_id])
              ++ map (fun e0 : dict => field_default e0 "class_id" VNone) c)
        by (now rewrite <- app_assoc).
      pose proof (set_field_twice d class_id (field_default e "role" VNone)
                    (field_default new "role" VNone)) as Htwice.
      unfold set_field in Htwice. rewrite <- Htwice.
      apply project_after_set; [exact Hnone | | exact Hrest].
      rewrite assoc_dict_set by (cbn; apply String.eqb_refl).
      cbn [key_eq]. now rewrite String.eqb_refl.
    + cbn [foldM map]. unfold project_step at 1 3. unfold dict_setitem.
      destruct (hashable (field_default e "class_id" VNone)); cbn [bind];
        [| discriminate].
      intros Hrest. rewrite (IH Hone _ _ _ _ Hrest).
      now rewrite <- app_assoc.
Qed.

Lemma upsert_dict_Forall (P : dict -> Prop) (c : list dict) (class_id : string)
  (new : dict) :
  P new -> Forall P c -> Forall P (upsert_dict c class_id new).
Proof.
  intros Hnew. induction 1 as [| e c He Hc IH]; cbn [upsert_dict].
  - now constructor.
  - destruct (is_entry_for class_id (VDict e)); constructor; auto.
Qed.

Lemma upsert_dict_class_ids (c : list dict) (class_id : string) (new : dict) :
  field_default new "class_id" VNone = VStr class_id ->
  map (fun e => field_default e "class_id" VNone) (upsert_dict c class_id new)
  = if existsb (py_eq (VStr class_id))
         (map (fun e => field_default e "class_id" VNone) c)
    then map (fun e => field_default e "class_id" VNone) c
    else map (fun e => field_default e "class_id" VNone) c ++ [VStr class_id].
Proof.
  intros Hnew. induction c as [| e c IH]; cbn [upsert_dict map existsb app].
  - now rewrite Hnew.
  - rewrite py_eq_str_sym. cbn [is_entry_for].
    destruct (py_eq (field_default e "class_id" VNone) (VStr class_id)) eqn:He;
      cbn [orb map].
    + apply py_eq_str_true in He. now rewrite He, Hnew.
    + rewrite IH.
      now destruct (existsb (py_eq (VStr class_id))
                      (map (fun e0 => field_default e0 "class_id" VNone) c)).
Qed.

(** X25. [add_class_membership] keeps the three shapes in step: when the
    normalized list has truthy class ids, scalar roles and at most one
    entry for the class, the record it returns passes
    [check_format_consistency] without an issue. *)
Theorem add_keeps_consistent
  (now : string) (user u u' : dict) (class_id role : string) (assigned_by : value)
  (ms : list value) :
  truthy (VDict user) = true ->
  class_id <> "" ->
  normalize_class_memberships user = Ok u ->
  field u "class_memberships" = Some (VList ms) ->
  Forall (fun m => truthy (entry_class_id m) = true) ms ->
  Forall (fun m => forall d, m = VDict d ->
                             hashable (field_default d "role" VNone) = true) ms ->
  entries_for class_id ms <= 1 ->
  add_class_membership now user class_id role assigned_by = Ok u' ->
  check_format_consistency u' = Ok (true, []).
Proof.
  intros Hne Hk Hnorm Hms Hids Hroles Hone Hadd.
  destruct (add_class_membership_inv _ _ _ _ _ _ Hne Hadd)
    as [u0 [c [cr [Hnorm0 [_ [Hc [Hproj [Hcm [_ [_ ->]]]]]]]]]].
  rewrite Hnorm in Hnorm0. injection Hnorm0 as <-.
  rewrite Hms in Hcm. injection Hcm as ->.
  set (new := entry4 (VStr class_id) (VStr role) (VStr now) assigned_by).
  assert (Hnew : field_default new "class_id" VNone = VStr class_id) by reflexivity.
  rewrite upsert_entry_dicts.
  rewrite <- (upsert_dict_class_ids c class_id new Hnew).
  apply check_of_projection.
  - apply upsert_dict_Forall; [apply canonical4 | exact Hc].
  - apply upsert_dict_Forall.
    + cbn. destruct class_id; [contradiction | reflexivity].
    + rewrite Forall_map in Hids. exact Hids.
  - apply upsert_dict_Forall; [reflexivity |].
    rewrite Forall_map in Hroles.
    apply Forall_forall. intros e He. rewrite Forall_forall in Hroles.
    now apply (Hroles e He).
  - unfold project in *.
    exact (project_upsert c class_id new Hnew Hone _ _ _ _ Hproj).
Qed.

Lemma add_keeps_consistent_witness :
  exists u',
    add_class_membership "2024-01-01T00:00:00" MoreScenarios.two_classes "cda"
      "instructor" (VStr "root") = Ok u' /\
    check_format_consistency u' = Ok (true, []).
Proof.
  eexists. split; [reflexivity |].
  eapply (add_keeps_consistent "2024-01-01T00:00:00" MoreScenarios.two_classes _ _
            "cda" "instructor" (VStr "root")).
  - reflexivity.
  - discriminate.
  - reflexivity.
  - reflexivity.
  - repeat constructor.
  - repeat (constructor; [intros d [= <-]; reflexivity |]). constructor.
  - cbn. lia.
  - reflexivity.
Defined.

End InvariantFacts.

(** ** Removing what was added *)

Module RoundTripFacts.
Import ClassMembershipUtils MembershipOperations Canonical Shapes PyFacts
  NormalizeFacts CheckerFacts Consistency EditFacts.

(** [remove_class_membership] writes the three fields and no other. *)
Lemma remove_class_membership_other_fields (user : dict) (class_id name : string) :
  name <> "class_memberships" -> name <> "classRoles" ->
  name <> "accessible_classes" ->
  field (remove_class_membership user class_id) name = field user name.
Proof.
  intros H1 H2 H3. apply String.eqb_neq in H1, H2, H3.
  unfold remove_class_membership.
  destruct (negb (truthy (VDict user))); [reflexivity |].
  repeat match goal with
         | |- context [match ?x with _ => _ end] =>
             match x with
             | field_default _ _ _ => destruct x
             | dict_mem _ _ => destruct x
             | existsb _ _ => destruct x
             end
         end;
    rewrite ?field_set_field, ?H1, ?H2, ?H3; reflexivity.
Qed.

(** A list without an entry for the class, and its projections. *)
Lemma no_entries_for (c : list dict) (class_id : string) :
  entries_for class_id (map VDict c) = 0 ->
  Forall (fun e => py_eq (field_default e "class_id" VNone) (VStr class_id) = false) c.
Proof.
  unfold entries_for. induction c as [| e c IH]; [constructor |].
  cbn [map filter is_entry_for].
  destruct (py_eq (field_default e "class_id" VNone) (VStr class_id)) eqn:He;
    [discriminate |].
  intros H. constructor; auto.
Qed.

Lemma upsert_entry_absent (c : list dict) (class_id : string) (new : value) :
  Forall (fun e => py_eq (field_default e "class_id" VNone) (VStr class_id) = false) c ->
  upsert_entry (map VDict c) class_id new = map VDict c ++ [new].
Proof.
  induction 1 as [| e c He _ IH]; [reflexivity |].
  cbn [map upsert_entry is_entry_for app]. now rewrite He, IH.
Qed.

Lemma filter_entries_appended (c : list dict) (class_id : string) (new : dict) :
  Forall (fun e => py_eq (field_default e "class_id" VNone) (VStr class_id) = false) c ->
  field_default new "class_id" VNone = VStr class_id ->
  filter (fun m => negb (is_entry_for class_id m)) (map VDict c ++ [VDict new])
  = map VDict c.
Proof.
  intros Hc Hnew. induction Hc as [| e c He _ IH]; cbn [map app filter is_entry_for].
  - rewrite Hnew. cbn. now rewrite String.eqb_refl.
  - rewrite He. cbn [negb]. now rewrite IH.
Qed.

Lemma class_ids_absent (c : list dict) (class_id : string) :
  Forall (fun e => py_eq (field_default e "class_id" VNone) (VStr class_id) = false) c ->
  existsb (py_eq (VStr class_id)) (map (fun e => field_default e "class_id" VNone) c)
  = false.
Proof.
  induction 1 as [| e c He _ IH]; [reflexivity |].
  cbn [map existsb]. now rewrite py_eq_str_sym, He, IH.
Qed.

Lemma list_remove_appended (x : value) (xs : list value) :
  py_eq x x = true -> existsb (py_eq x) xs = false -> list_remove x (xs ++ [x]) = xs.
Proof.
  intros Hx. induction xs as [| y xs IH]; cbn [app list_remove existsb].
  - now rewrite Hx.
  - destruct (py_eq x y); [discriminate |]. cbn [orb]. intros H. now rewrite IH.
Qed.

Lemma dict_del_appended (d : dict) (name : string) (v : value) :
  assoc (VStr name) d = None ->
  dict_del (dict_set d (VStr name) v) (VStr name) = d.
Proof.
  induction d as [| [k w] d IH]; cbn [assoc dict_set dict_del].
  - cbn. now rewrite String.eqb_refl.
  - destruct (key_eq (VStr name) k) eqn:Hk; [discriminate |].
    intros H. cbn [dict_del]. now rewrite Hk, IH.
Qed.

Lemma project_absent (c : list dict) (class_id : string) :
  Forall (fun e => py_eq (field_default e "class_id" VNone) (VStr class_id) = false) c ->
  forall d ac cr ac',
    foldM project_step (d, ac) c = Ok (cr, ac') ->
    assoc (VStr class_id) d = None ->
    assoc (VStr class_id) cr = None.
Proof.
  induction 1 as [| e c He _ IH]; intros d ac cr ac'; cbn [foldM].
  - now intros [= <- <-].
  - unfold project_step at 1. unfold dict_setitem.
    destruct (hashable (field_default e "class_id" VNone)) eqn:Hh; cbn [bind];
      [| discriminate].
    intros Hrest Hd. apply (IH _ _ _ _ Hrest).
    rewrite assoc_dict_set by now apply hashable_key_eq_refl.
    destruct (field_default e "class_id" VNone); cbn in He |- *; auto.
    rewrite String.eqb_sym, He. exact Hd.
Qed.

(** What [remove_class_membership] leaves in the three fields of a record
    that has them. *)
Lemma remove_class_membership_set_fields
  (user : dict) (class_id : string) (ms : list value) (cr : dict) (cs : list value) :
  field user "class_memberships" = Some (VList ms) ->
  field user "classRoles" = Some (VDict cr) ->
  field user "accessible_classes" = Some (VList cs) ->
  field (remove_class_membership user class_id) "class_memberships"
  = Some (VList (filter (fun m => negb (is_entry_for class_id m)) ms)) /\
  field (remove_class_membership user class_id) "classRoles"
  = Some (VDict (if dict_mem cr (VStr class_id)
                 then dict_del cr (VStr class_id) else cr)) /\
  field (remove_class_membership user class_id) "accessible_classes"
  = Some (VList (if existsb (py_eq (VStr class_id)) cs
                 then list_remove (VStr class_id) cs else cs)).
Proof.
  intros Hcm Hcr Hac. unfold remove_class_membership.
  rewrite (field_truthy _ _ _ Hcm). cbn [negb].
  rewrite (field_default_of_field _ _ _ _ Hcm).
  rewrite field_default_set_field. cbn [String.eqb Ascii.eqb Bool.eqb].
  rewrite (field_default_of_field _ _ _ _ Hcr).
  destruct (dict_mem cr (VStr class_id));
    rewrite ?field_default_set_field; cbn [String.eqb Ascii.eqb Bool.eqb];
    rewrite (field_default_of_field _ _ _ _ Hac);
    destruct (existsb (py_eq (VStr class_id)) cs);
    rewrite ?field_set_field; cbn [String.eqb Ascii.eqb Bool.eqb];
    rewrite ?Hcr, ?Hac; auto.
Qed.

(** X26. Removing undoes adding: for a class the normalized record has no
    entry for, [remove_class_membership] after [add_class_membership]
    gives a record with the fields of the normalized record, every one of
    them. *)
Theorem remove_undoes_add
  (now : string) (user u u' : dict) (class_id role : string) (assigned_by : value)
  (ms : list value) :
  truthy (VDict user) = true ->
  normalize_class_memberships user = Ok u ->
  field u "class_memberships" = Some (VList ms) ->
  entries_for class_id ms = 0 ->
  add_class_membership now user class_id role assigned_by = Ok u' ->
  forall name, field (remove_class_membership u' class_id) name = field u name.
Proof.
  intros Hne Hnorm Hms Hzero Hadd name.
  destruct (add_class_membership_inv _ _ _ _ _ _ Hne Hadd)
    as [u0 [c [cr [Hnorm0 [_ [Hc [Hproj [Hcm [Hcr [Hac Hu']]]]]]]]]].
  rewrite Hnorm in Hnorm0. injection Hnorm0 as <-.
  rewrite Hms in Hcm. injection Hcm as ->.
  pose proof (no_entries_for c class_id Hzero) as Hnone.
  rewrite (upsert_entry_absent c class_id _ Hnone) in Hu'.
  rewrite (class_ids_absent c class_id Hnone) in Hu'.
  assert (Habsent : assoc (VStr class_id) cr = None)
    by (unfold project in Hproj; now apply (project_absent c class_id Hnone _ _ _ _ Hproj)).
  set (new := entry4 (VStr class_id) (VStr role) (VStr now) assigned_by) in Hu'.
  set (acc := map (fun e : dict => field_default e "class_id" VNone) c) in *.
  assert (H1 : field u' "class_memberships" = Some (VList (map VDict c ++ [VDict new])))
    by (subst u'; now rewrite !field_set_field).
  assert (H2 : field u' "classRoles"
               = Some (VDict (dict_set cr (VStr class_id) (VStr role))))
    by (subst u'; now rewrite !field_set_field).
  assert (H3 : field u' "accessible_classes" = Some (VList (acc ++ [VStr class_id])))
    by (subst u'; now rewrite !field_set_field).
  destruct (remove_class_membership_set_fields u' class_id _ _ _ H1 H2 H3)
    as [R1 [R2 R3]].
  destruct (String.eqb_spec name "class_memberships") as [-> | N1].
  { rewrite R1, Hms. now rewrite filter_entries_appended. }
  destruct (String.eqb_spec name "classRoles") as [-> | N2].
  { rewrite R2, Hcr. unfold dict_mem.
    rewrite assoc_dict_set by (cbn; apply String.eqb_refl).
    cbn [key_eq]. rewrite String.eqb_refl. now rewrite dict_del_appended. }
  destruct (String.eqb_spec name "accessible_classes") as [-> | N3].
  { rewrite R3, Hac. rewrite existsb_app. cbn [existsb py_eq key_eq].
    rewrite String.eqb_refl, orb_true_r.
    rewrite list_remove_appended;
      [reflexivity | cbn; apply String.eqb_refl | now apply class_ids_absent]. }
  rewrite remove_class_membership_other_fields by assumption.
  subst u'. rewrite !field_set_field.
  apply String.eqb_neq in N1, N2, N3. now rewrite N1, N2, N3.
Qed.

Lemma remove_undoes_add_witness :
  exists u u',
    normalize_class_memberships MoreScenarios.two_classes = Ok u /\
    add_class_membership "2024-01-01T00:00:00" MoreScenarios.two_classes "ohdsi24" "ta"
      VNone = Ok u' /\
    field (remove_class_membership u' "ohdsi24") "classRoles" = field u "classRoles".
Proof.
  do 2 eexists. split; [reflexivity |]. split; [reflexivity |].
  eapply (remove_undoes_add "2024-01-01T00:00:00" MoreScenarios.two_classes _ _
            "ohdsi24" "ta" VNone); reflexivity.
Defined.

End RoundTripFacts.

(** ** Removing a class role through the store *)

Module RemoveRoleFacts.
Import ClassAuth MembershipOperations ClassRoleOperations Shapes PyFacts AssignFacts
  EditFacts.

(** The comprehension of [remove_class_role] leaves no entry for the
    class. *)
Lemma without_class_no_entry (ms kept : list value) (class_id : string) :
  without_class ms class_id = Ok kept -> role_in_list kept class_id = None.
Proof.
  revert kept. induction ms as [| m ms IH]; intros kept; cbn [without_class].
  - now intros [= <-].
  - destruct m as [| | | | | d]; cbn [py_get bind]; try discriminate.
    destruct (without_class ms class_id) as [rest |]; cbn [bind]; [| discriminate].
    specialize (IH rest eq_refl).
    destruct (py_eq (field_default d "class_id" VNone) (VStr class_id)) eqn:Hd;
      cbn [negb]; intros [= <-]; [exact IH |].
    cbn [role_in_list]. now rewrite Hd.
Qed.

Lemma field_default_ext (a b : dict) (name : string) (default : value) :
  field a name = field b name ->
  field_default a name default = field_default b name default.
Proof.
  unfold field, field_default, dict_get, dict_get_default. now intros ->.
Qed.

Lemma no_role_readable_ext (a b : dict) (class_id : string) :
  field a "class_memberships" = field b "class_memberships" ->
  field a "classRoles" = field b "classRoles" ->
  no_role_readable a class_id -> no_role_readable b class_id.
Proof.
  unfold no_role_readable. intros Hcm Hcr.
  now rewrite (field_default_ext a b _ _ Hcm), (field_default_ext a b _ _ Hcr).
Qed.

(** What a call of [remove_class_role] that returns has stored. *)
Lemma remove_class_role_stored
  (db db' : Database.store) (user_id class_id : string) (result : dict) :
  (forall user class_roles,
      Database.get db (VStr user_id) = Some user ->
      field user "classRoles" = Some (VDict class_roles) ->
      distinct_keys class_roles = true) ->
  remove_class_role db user_id class_id = Ok (result, db') ->
  user_id <> "" /\
  exists stored,
    Database.get db' (VStr user_id) = Some stored /\
    no_role_readable stored class_id.
Proof.
  intros Hdistinct. unfold remove_class_role.
  destruct (Database.get db (VStr user_id)) as [user0 |] eqn:Hget; [| discriminate].
  specialize (Hdistinct user0).
  assert (Hid0 : field user0 "id" = Some (VStr user_id)).
  { unfold Database.get in Hget. destruct (db user_id); [| discriminate].
    injection Hget as <-. now rewrite field_set_field. }
  assert (Hdist : forall class_roles,
             field user0 "classRoles" = Some (VDict class_roles) ->
             distinct_keys class_roles = true) by (intros cr; now apply Hdistinct).
  clear Hdistinct Hget.
  destruct (negb (truthy (VDict user0))); [discriminate |].
  intros Hrun.
  assert (H1 : exists user1,
             field user1 "id" = Some (VStr user_id) /\
             field user1 "classRoles" = field user0 "classRoles" /\
             match field_default user1 "class_memberships" (VList []) with
             | VList ms => role_in_list ms class_id
             | _ => None
             end = None /\
             (let user2 :=
                match field user1 "classRoles" with
                | Some (VDict class_roles) =>
                    if dict_mem class_roles (VStr class_id)
                    then set_field user1 "classRoles"
                           (VDict (dict_del class_roles (VStr class_id)))
                    else user1
                | _ => user1
                end in
              let user3 :=
                match field user2 "accessible_classes" with
                | Some (VList cs) =>
                    if existsb (py_eq (VStr class_id)) cs
                    then set_field user2 "accessible_classes"
                           (VList (list_remove (VStr class_id) cs))
                    else user2
                | _ => user2
                end in
              db'' <- Database.upsert db user3 ;;
              Ok ([ (VStr "success", VBool true);
                    (VStr "user_id", VStr user_id);
                    (VStr "class_id", VStr class_id);
                    (VStr "action", VStr "removed") ], db''))
             = Ok (result, db')).
  { destruct (field user0 "class_memberships") as [[| | | | ms | items] |] eqn:Hcm;
      cbn [bind] in Hrun;
      try (exists user0; split; [exact Hid0 |]; split; [reflexivity |];
           split; [| exact Hrun];
           unfold field_default, dict_get_default;
           unfold field, dict_get in Hcm; now rewrite Hcm).
    - destruct (without_class ms class_id) as [kept |] eqn:Hkept; cbn [bind] in Hrun;
        [| discriminate].
      eexists. split; [| split; [| split; [| exact Hrun]]].
      + now rewrite field_set_field.
      + now rewrite field_set_field.
      + rewrite field_default_set_field. cbn [String.eqb Ascii.eqb Bool.eqb].
        exact (without_class_no_entry _ _ _ Hkept).
    - destruct (dict_mem items (VStr class_id)).
      + eexists. split; [| split; [| split; [| exact Hrun]]].
        * now rewrite field_set_field.
        * now rewrite field_set_field.
        * now rewrite field_default_set_field.
      + exists user0. split; [exact Hid0 |]. split; [reflexivity |].
        split; [| exact Hrun].
        now rewrite (field_default_of_field _ _ _ _ Hcm). }
  clear Hrun. destruct H1 as [user1 [Hid1 [Hsame [Hcm1 Hrun]]]].
  rewrite <- Hsame in Hdist. clear Hsame Hid0 user0.
  cbv zeta in Hrun.
  set (user2 := match field user1 "classRoles" with
                | Some (VDict class_roles) =>
                    if dict_mem class_roles (VStr class_id)
                    then set_field user1 "classRoles"
                           (VDict (dict_del class_roles (VStr class_id)))
                    else user1
                | _ => user1
                end) in Hrun.
  assert (H2 : field user2 "id" = Some (VStr user_id) /\ no_role_readable user2 class_id).
  { unfold user2, no_role_readable.
    destruct (field user1 "classRoles") as [[| | | | | cr] |] eqn:Hcr;
      try (split; [exact Hid1 |]; split; [exact Hcm1 |];
           unfold field_default, dict_get_default;
           unfold field, dict_get in Hcr; now rewrite Hcr).
    destruct (dict_mem cr (VStr class_id)) eqn:Hmem.
    - rewrite field_set_field, !field_default_set_field.
      cbn [String.eqb Ascii.eqb Bool.eqb].
      split; [exact Hid1 |]. split; [exact Hcm1 |].
      apply field_default_absent. apply field_dict_del. now apply Hdist.
    - split; [exact Hid1 |]. split; [exact Hcm1 |].
      rewrite (field_default_of_field _ _ _ _ Hcr).
      apply field_default_absent. now apply field_not_mem. }
  clearbody user2. clear Hdist Hcm1 Hid1 user1. destruct H2 as [Hid2 Hno2].
  set (user3 := match field user2 "accessible_classes" with
                | Some (VList cs) =>
                    if existsb (py_eq (VStr class_id)) cs
                    then set_field user2 "accessible_classes"
                           (VList (list_remove (VStr class_id) cs))
                    else user2
                | _ => user2
                end) in Hrun.
  assert (H3 : field user3 "id" = Some (VStr user_id) /\
               field user3 "class_memberships" = field user2 "class_memberships" /\
               field user3 "classRoles" = field user2 "classRoles").
  { unfold user3.
    destruct (field user2 "accessible_classes") as [[| | | | cs |] |]; auto.
    destruct (existsb (py_eq (VStr class_id)) cs); auto.
    now rewrite !field_set_field. }
  clearbody user3. destruct H3 as [Hid3 [Hcm3 Hcr3]].
  unfold Database.upsert in Hrun. rewrite (field_default_of_field _ _ _ _ Hid3) in Hrun.
  destruct (user_id =? "") eqn:Hempty; cbn [negb bind] in Hrun; [discriminate |].
  injection Hrun as _ <-. split.
  { intros ->. discriminate Hempty. }
  eexists. split.
  { unfold Database.get, Database.write. now rewrite String.eqb_refl. }
  apply (no_role_readable_ext user2); [| | exact Hno2].
  - rewrite field_set_field. cbn [String.eqb Ascii.eqb Bool.eqb].
    rewrite field_without_id by discriminate. now symmetry.
  - rewrite field_set_field. cbn [String.eqb Ascii.eqb Bool.eqb].
    rewrite field_without_id by discriminate. now symmetry.
Qed.

(** X28. After [remove_class_role] returns, a token that carries the user
    id and no role or membership data is answered no role for the class by
    [get_user_class_role], and [user_has_class_permission] grants it
    nothing there ([classRoles] of the stored record being a dict without
    repeated keys). *)
Theorem removed_role_grants_nothing
  (db db' : Database.store) (user_id class_id : string) (result token : dict) :
  (forall user class_roles,
      Database.get db (VStr user_id) = Some user ->
      field user "classRoles" = Some (VDict class_roles) ->
      distinct_keys class_roles = true) ->
  remove_class_role db user_id class_id = Ok (result, db') ->
  field token "user_id" = Some (VStr user_id) ->
  field token "roles" = None ->
  field token "class_memberships" = None ->
  field token "classRoles" = None ->
  field token "accessible_classes" = None ->
  get_user_class_role db' token class_id = Ok VNone /\
  forall permission,
    user_has_class_permission db' token class_id permission = Ok false.
Proof.
  intros Hdistinct Hremove Hid Hroles Hcm Hcr Hac.
  destruct (remove_class_role_stored _ _ _ _ _ Hdistinct Hremove)
    as [Hne [stored [Hget [Hlist Hmap]]]].
  assert (Hlookup : get_user_class_role db' token class_id = Ok VNone).
  { unfold get_user_class_role, role_from_database.
    rewrite (field_default_absent _ _ _ Hroles), (field_default_absent _ _ _ Hcm),
      (field_default_absent _ _ _ Hcr), (field_default_absent _ _ _ Hac),
      (field_default_of_field _ _ _ _ Hid).
    cbn [py_in existsb bind field dict_get assoc truthy negb andb].
    destruct (user_id =? "") eqn:Hempty;
      [apply String.eqb_eq in Hempty; contradiction |].
    cbn [negb]. rewrite Hget, Hlist, Hmap.
    now destruct stored. }
  split; [exact Hlookup |].
  intros permission. unfold user_has_class_permission.
  rewrite (field_default_absent _ _ _ Hroles). cbn [py_in existsb bind].
  rewrite Hlookup. reflexivity.
Qed.

Lemma removed_role_grants_nothing_witness :
  exists result db',
    remove_class_role MoreScenarios.one_user_store "u7" "fhir22" = Ok (result, db') /\
    get_user_class_role MoreScenarios.one_user_store [ (VStr "user_id", VStr "u7") ]
      "fhir22" = Ok (VStr "ta") /\
    get_user_class_role db' [ (VStr "user_id", VStr "u7") ] "fhir22" = Ok VNone.
Proof.
  do 2 eexists. split; [reflexivity |]. split; [reflexivity |].
  refine (proj1 (removed_role_grants_nothing MoreScenarios.one_user_store _ "u7" "fhir22"
                   _ [ (VStr "user_id", VStr "u7") ]
                   _ eq_refl eq_refl eq_refl eq_refl eq_refl eq_refl)).
  intros user class_roles [= <-]. discriminate.
Defined.

End RemoveRoleFacts.
